(** * Prediction-market agent: risk control, paper trading and
      self-improvement analytics

    A shallow embedding of [backend/trading.py],
    [backend/analysis/improvement.py] and [scripts/check_resolutions.py].

    Modelling conventions
    - Python [float] amounts, prices and percentages are exact rationals
      ([Q]); comparisons are the boolean ones of [QArith]; numeric results
      are compared with [==] where their representation may differ.
    - [datetime] values are integers ([Z], microseconds since the epoch).
    - Python [dict]s used as maps are [gmap]s; lists are lists.
    - f-strings are kept as a list of fragments (literal text and the
      formatted holes) instead of being rendered to characters.
    - Exceptions are values of [exn] carried by the [result] type. *)

From Stdlib Require Import QArith Qround Qabs ZArith Lia Lqa.
From Stdlib Require Import Sorting.Sorted Sorting.Permutation.
From stdpp Require Import gmap strings list fin_maps.

Local Open Scope Z_scope.
Local Open Scope Q_scope.
Local Open Scope string_scope.

(* ===================================================================== *)
(** ** Python values                                                      *)
(* ===================================================================== *)

(** [x > y] and [x < y] on floats. *)
Definition Qgtb (x y : Q) : bool := negb (Qle_bool x y).
Definition Qltb (x y : Q) : bool := negb (Qle_bool y x).

(** A hole of an f-string, or literal text. *)
Inductive frag : Type :=
  | Lit (s : string)                 (* literal text *)
  | Fixed (digits : nat) (x : Q)     (* {x:.Nf} *)
  | Percent (digits : nat) (x : Q)   (* {x:.N%} *)
  | Int (n : Z)                      (* {n} for an int *)
  | Str (s : string)                 (* {s} for a str *)
  | Repr (x : option Q).             (* {x} for an Optional[float] *)

Definition fstring : Type := list frag.

(** Values stored in an untyped [dict]. *)
Inductive pyval : Type :=
  | PStr (s : string)
  | PNum (x : Q)
  | PInt (n : Z)
  | PNone.

Definition opt_num (x : option Q) : pyval :=
  match x with Some v => PNum v | None => PNone end.

(** [datetime]: microseconds since the epoch. *)
Definition datetime : Type := Z.

Definition microseconds_per_day : Z := 86400000000%Z.

(** [timedelta(days=n)]. *)
Definition timedelta_days (n : Z) : Z := (n * microseconds_per_day)%Z.

(** [(a - b).days]: timedelta normalises to a floor division. *)
Definition days_between (a b : datetime) : Z := ((a - b) / microseconds_per_day)%Z.

(** [x or d] for an [Optional[float]]: [None] and [0.0] are falsy. *)
Definition truthy (x : option Q) : bool :=
  match x with
  | Some v => negb (Qeq_bool v 0)
  | None => false
  end.

Definition or_else (x : option Q) (d : Q) : Q :=
  match x with
  | Some v => if Qeq_bool v 0 then d else v
  | None => d
  end.

(** [sum(xs)]: starts from [0] and adds from the left. *)
Definition pysum (xs : list Q) : Q := fold_left Qplus xs 0.

(** [round(x)] to the nearest integer, ties to even. *)
Definition round_half_even (q : Q) : Z :=
  let f := Qfloor q in
  match Qcompare (q - inject_Z f) (1 # 2) with
  | Lt => f
  | Gt => (f + 1)%Z
  | Eq => if Z.even f then f else (f + 1)%Z
  end.

(** [round(x, 2)]. *)
Definition round2 (q : Q) : Q := Qred (round_half_even (q * 100) # 100).

(** Exceptions raised by the modelled code. *)
Inductive exn : Type :=
  | ValueError (msg : fstring)
  | ValidationError (fields : list string)
  | ZeroDivisionError
  | StatisticsError
  | NotImplementedError.

Inductive result (A : Type) : Type :=
  | Ok (a : A)
  | Raise (e : exn).
Arguments Ok {A} a.
Arguments Raise {A} e.

Definition rbind {A B} (r : result A) (k : A -> result B) : result B :=
  match r with
  | Ok a => k a
  | Raise e => Raise e
  end.

Notation "x <-? r ; k" := (rbind r (fun x => k))
  (at level 20, r at level 100, k at level 200, only parsing).

(** Float true division [x / y]. *)
Definition pydiv (x y : Q) : result Q :=
  if Qeq_bool y 0 then Raise ZeroDivisionError else Ok (x / y).

(* ===================================================================== *)
(** ** Data model ([models/trade.py], [models/market.py], [config.py])    *)
(* ===================================================================== *)

Inductive TradeStatus : Type := OPEN | RESOLVED_WIN | RESOLVED_LOSS | CANCELLED.

Definition TradeStatus_value (s : TradeStatus) : string :=
  match s with
  | OPEN => "open"
  | RESOLVED_WIN => "resolved_win"
  | RESOLVED_LOSS => "resolved_loss"
  | CANCELLED => "cancelled"
  end.

(** [TradeStatus(s)]: lookup by value. *)
Definition TradeStatus_of_value (s : string) : result TradeStatus :=
  if String.eqb s "open" then Ok OPEN
  else if String.eqb s "resolved_win" then Ok RESOLVED_WIN
  else if String.eqb s "resolved_loss" then Ok RESOLVED_LOSS
  else if String.eqb s "cancelled" then Ok CANCELLED
  else Raise (ValueError [Str s; Lit " is not a valid TradeStatus"]).

Definition TradeStatus_eqb (a b : TradeStatus) : bool :=
  match a, b with
  | OPEN, OPEN | RESOLVED_WIN, RESOLVED_WIN
  | RESOLVED_LOSS, RESOLVED_LOSS | CANCELLED, CANCELLED => true
  | _, _ => false
  end.

Inductive TradeSide : Type := YES | NO.

Definition TradeSide_value (s : TradeSide) : string :=
  match s with YES => "yes" | NO => "no" end.

(** [TradeSide(s)]. *)
Definition TradeSide_of_value (s : string) : result TradeSide :=
  if String.eqb s "yes" then Ok YES
  else if String.eqb s "no" then Ok NO
  else Raise (ValueError [Str s; Lit " is not a valid TradeSide"]).

(** [config.Settings]: the two trading limits read by the engine. *)
Module Settings.
Record t : Type := mk {
  max_position_size : Q;
  max_total_exposure : Q;
  paper_trading : bool;
}.
(** The defaults of [config.py]. *)
Definition default : t :=
  {| max_position_size := 100; max_total_exposure := 1000; paper_trading := true |}.
End Settings.

(** [models.market.Market], the fields the trading layer reads. *)
Module Market.
Record t : Type := mk {
  platform : string;
  market_id : string;
  question : string;
  category : option string;
  end_date : option datetime;
  yes_price : option Q;
  no_price : option Q;
  volume : option Q;
}.
End Market.

Module MarketOpportunity.
Record t : Type := mk {
  market : Market.t;
  strategy : string;
  signal_strength : Q;
  recommended_side : string;
  recommended_amount : Q;
  expected_value : Q;
  reasoning : string;
}.
End MarketOpportunity.

(** [models.trade.TradeDB]: a ledger row. *)
Module TradeDB.
Record t : Type := mk {
  id : string;
  created_at : datetime;
  updated_at : datetime;
  platform : string;
  market_id : string;
  market_question : string;
  market_category : option string;
  market_end_date : option datetime;
  side : string;
  entry_price : Q;
  amount : Q;
  shares : option Q;
  strategy : string;
  entry_context : option (list (string * pyval));
  status : string;
  closing_price : option Q;
  pnl : option Q;
  clv : option Q;
}.
End TradeDB.

(** [models.trade.Trade]: the validated API model. *)
Module Trade.
Record t : Type := mk {
  id : string;
  created_at : datetime;
  updated_at : datetime;
  platform : string;
  market_id : string;
  market_question : string;
  market_category : option string;
  market_end_date : option datetime;
  side : TradeSide;
  entry_price : Q;
  amount : Q;
  shares : option Q;
  strategy : string;
  entry_context : option (list (string * pyval));
  status : TradeStatus;
  resolution_date : option datetime;
  closing_price : option Q;
  pnl : option Q;
  clv : option Q;
}.

(** The [Field] constraints of [TradeBase]:
    [entry_price: Field(ge=0.01, le=0.99)], [amount: Field(gt=0)]. *)
Definition valid (t : t) : Prop :=
  (1 # 100) <= entry_price t /\ entry_price t <= (99 # 100) /\ 0 < amount t.
End Trade.

(* ===================================================================== *)
(** ** Trading layer ([backend/trading.py])                               *)
(* ===================================================================== *)

Module Position.
Record t : Type := mk {
  trade_id : string;
  platform : string;
  market_id : string;
  market_question : string;
  side : string;
  entry_price : Q;
  amount : Q;
  shares : Q;
  current_value : Q;
  unrealized_pnl : Q;
  strategy : string;
  opened_at : datetime;
}.
End Position.

Module ExposureReport.
Record t : Type := mk {
  total_exposure : Q;
  available_capital : Q;
  position_count : nat;
  by_platform : gmap string Q;
  by_strategy : gmap string Q;
  daily_traded : Q;
  daily_limit : Q;
  daily_remaining : Q;
}.
End ExposureReport.

Module RiskCheckResult.
Record t : Type := mk {
  allowed : bool;
  reason : fstring;
  details : gmap string pyval;
}.
End RiskCheckResult.

Module TradeResult.
Record t : Type := mk {
  success : bool;
  trade : option Trade.t;
  error : option fstring;
  paper_trade : bool;
}.
End TradeResult.

(** A literal [dict] display [{k1: v1, ...}]. *)
Definition mkdict (kvs : list (string * pyval)) : gmap string pyval := list_to_map kvs.

Module RiskManager.

Record t : Type := mk {
  max_position_size : Q;
  max_total_exposure : Q;
  max_daily_volume : Q;
  max_positions_per_market : Z;
}.

(** [RiskManager.__init__]; the defaults of the first two arguments are
    the settings, those of the last two [None] and [1]. *)
Definition __init__ (max_position_size max_total_exposure : Q)
    (max_daily_volume : option Q) (max_positions_per_market : Z) : t :=
  {| max_position_size := max_position_size;
     max_total_exposure := max_total_exposure;
     max_daily_volume := or_else max_daily_volume (max_total_exposure * 2);
     max_positions_per_market := max_positions_per_market |}.

(** [RiskManager()] as the engine builds it. *)
Definition default (settings : Settings.t) : t :=
  __init__ (Settings.max_position_size settings)
           (Settings.max_total_exposure settings) None 1.

Definition same_market (opportunity : MarketOpportunity.t) (p : Position.t) : bool :=
  String.eqb (Position.platform p)
             (Market.platform (MarketOpportunity.market opportunity))
  && String.eqb (Position.market_id p)
                (Market.market_id (MarketOpportunity.market opportunity)).

Definition check_limits (self : t) (opportunity : MarketOpportunity.t)
    (current_exposure : ExposureReport.t)
    (existing_positions : list Position.t) : RiskCheckResult.t :=
  let trade_amount := MarketOpportunity.recommended_amount opportunity in
  (* Check 1: Position size limit *)
  if Qgtb trade_amount (max_position_size self) then
    {| RiskCheckResult.allowed := false;
       RiskCheckResult.reason :=
         [Lit "Trade amount $"; Fixed 2 trade_amount;
          Lit " exceeds max position size $"; Fixed 2 (max_position_size self)];
       RiskCheckResult.details :=
         mkdict [("limit", PStr "max_position_size");
                 ("requested", PNum trade_amount);
                 ("max", PNum (max_position_size self))] |}
  else
  (* Check 2: Total exposure limit *)
  let new_total := ExposureReport.total_exposure current_exposure + trade_amount in
  if Qgtb new_total (max_total_exposure self) then
    {| RiskCheckResult.allowed := false;
       RiskCheckResult.reason :=
         [Lit "Trade would exceed max total exposure. Current: $";
          Fixed 2 (ExposureReport.total_exposure current_exposure);
          Lit ", After: $"; Fixed 2 new_total;
          Lit ", Max: $"; Fixed 2 (max_total_exposure self)];
       RiskCheckResult.details :=
         mkdict [("limit", PStr "max_total_exposure");
                 ("current", PNum (ExposureReport.total_exposure current_exposure));
                 ("after", PNum new_total);
                 ("max", PNum (max_total_exposure self))] |}
  else
  (* Check 3: Daily volume limit *)
  let new_daily := ExposureReport.daily_traded current_exposure + trade_amount in
  if Qgtb new_daily (max_daily_volume self) then
    {| RiskCheckResult.allowed := false;
       RiskCheckResult.reason :=
         [Lit "Trade would exceed daily limit. Today: $";
          Fixed 2 (ExposureReport.daily_traded current_exposure);
          Lit ", After: $"; Fixed 2 new_daily;
          Lit ", Limit: $"; Fixed 2 (max_daily_volume self)];
       RiskCheckResult.details :=
         mkdict [("limit", PStr "daily_volume");
                 ("today", PNum (ExposureReport.daily_traded current_exposure));
                 ("after", PNum new_daily);
                 ("max", PNum (max_daily_volume self))] |}
  else
  (* Check 4: Max positions per market *)
  let market_positions := List.filter (same_market opportunity) existing_positions in
  if (Z.of_nat (length market_positions) >=? max_positions_per_market self)%Z then
    {| RiskCheckResult.allowed := false;
       RiskCheckResult.reason :=
         [Lit "Already have "; Int (Z.of_nat (length market_positions));
          Lit " position(s) in this market (max: ";
          Int (max_positions_per_market self); Lit ")"];
       RiskCheckResult.details :=
         mkdict [("limit", PStr "positions_per_market");
                 ("current", PInt (Z.of_nat (length market_positions)));
                 ("max", PInt (max_positions_per_market self))] |}
  else
  (* All checks passed *)
    {| RiskCheckResult.allowed := true;
       RiskCheckResult.reason := [Lit "All risk checks passed"];
       RiskCheckResult.details :=
         mkdict [("trade_amount", PNum trade_amount);
                 ("new_total_exposure", PNum new_total);
                 ("new_daily_volume", PNum new_daily)] |}.

(** [result.details.get("limit")]. *)
Definition limit_tag (r : RiskCheckResult.t) : option pyval :=
  RiskCheckResult.details r !! "limit".

End RiskManager.

(** The shared mutable state: the trade ledger (table [trades]) and the
    append-only JSONL trade log. *)
Record World : Type := mkWorld {
  ledger : list TradeDB.t;
  trade_log : list (list (string * pyval));
}.

(** What one call reads from its environment: [uuid.uuid4()],
    [datetime.utcnow()] and the start of the local day
    ([datetime.combine(date.today(), datetime.min.time())]). *)
Record Clock : Type := mkClock {
  uuid4 : string;
  utcnow : datetime;
  today_start : datetime;
}.

(** [max(0, x)]. *)
Definition max0 (x : Q) : Q := if Qgtb x 0 then x else 0.

Module PositionManager.

Definition is_open (trade : TradeDB.t) : bool :=
  String.eqb (TradeDB.status trade) (TradeStatus_value OPEN).

Definition to_position (trade : TradeDB.t) : Position.t :=
  (* For paper trading, current value = entry value *)
  let current_value := TradeDB.amount trade in
  let unrealized_pnl := 0 in
  {| Position.trade_id := TradeDB.id trade;
     Position.platform := TradeDB.platform trade;
     Position.market_id := TradeDB.market_id trade;
     Position.market_question := TradeDB.market_question trade;
     Position.side := TradeDB.side trade;
     Position.entry_price := TradeDB.entry_price trade;
     Position.amount := TradeDB.amount trade;
     Position.shares := or_else (TradeDB.shares trade) 0;
     Position.current_value := current_value;
     Position.unrealized_pnl := unrealized_pnl;
     Position.strategy := TradeDB.strategy trade;
     Position.opened_at := TradeDB.created_at trade |}.

(** [select(TradeDB).where(TradeDB.status == "open")], projected. *)
Definition get_positions (db : list TradeDB.t) : list Position.t :=
  List.map to_position (List.filter is_open db).

(** [d[k] = d.get(k, 0) + x]. *)
Definition accumulate (d : gmap string Q) (k : string) (x : Q) : gmap string Q :=
  <[k := default 0 (d !! k) + x]> d.

Definition get_exposure (settings : Settings.t) (clock : Clock)
    (db : list TradeDB.t) : ExposureReport.t :=
  let positions := get_positions db in
  let total_exposure := pysum (List.map Position.amount positions) in
  let by_platform :=
    fold_left (fun d p => accumulate d (Position.platform p) (Position.amount p))
              positions ∅ in
  let by_strategy :=
    fold_left (fun d p => accumulate d (Position.strategy p) (Position.amount p))
              positions ∅ in
  (* Calculate daily traded volume *)
  let today_trades :=
    List.filter (fun t => (today_start clock <=? TradeDB.created_at t)%Z) db in
  let daily_traded := pysum (List.map TradeDB.amount today_trades) in
  let daily_limit := Settings.max_total_exposure settings * 2 in
  {| ExposureReport.total_exposure := total_exposure;
     ExposureReport.available_capital :=
       max0 (Settings.max_total_exposure settings - total_exposure);
     ExposureReport.position_count := length positions;
     ExposureReport.by_platform := by_platform;
     ExposureReport.by_strategy := by_strategy;
     ExposureReport.daily_traded := daily_traded;
     ExposureReport.daily_limit := daily_limit;
     ExposureReport.daily_remaining := max0 (daily_limit - daily_traded) |}.

End PositionManager.

(** [Trade(...)]: the model constructor checks the [Field] constraints and
    converts [side] and [status] to their enums. *)
Definition Trade_of_row (r : TradeDB.t) : result Trade.t :=
  side <-? TradeSide_of_value (TradeDB.side r) ;
  status <-? TradeStatus_of_value (TradeDB.status r) ;
  let t :=
    {| Trade.id := TradeDB.id r;
       Trade.created_at := TradeDB.created_at r;
       Trade.updated_at := TradeDB.updated_at r;
       Trade.platform := TradeDB.platform r;
       Trade.market_id := TradeDB.market_id r;
       Trade.market_question := TradeDB.market_question r;
       Trade.market_category := TradeDB.market_category r;
       Trade.market_end_date := TradeDB.market_end_date r;
       Trade.side := side;
       Trade.entry_price := TradeDB.entry_price r;
       Trade.amount := TradeDB.amount r;
       Trade.shares := TradeDB.shares r;
       Trade.strategy := TradeDB.strategy r;
       Trade.entry_context := TradeDB.entry_context r;
       Trade.status := status;
       Trade.resolution_date := None;
       Trade.closing_price := None;
       Trade.pnl := None;
       Trade.clv := None |} in
  let errors :=
    ((if Qle_bool (1 # 100) (Trade.entry_price t)
         && Qle_bool (Trade.entry_price t) (99 # 100)
      then [] else ["entry_price"])
     ++ (if Qltb 0 (Trade.amount t) then [] else ["amount"]))%list in
  match errors with
  | [] => Ok t
  | _ :: _ => Raise (ValidationError errors)
  end.

Module PaperTrader.

(** [entry_price is None or entry_price <= 0]. *)
Definition invalid_price (entry_price : option Q) : bool :=
  match entry_price with
  | None => true
  | Some p => Qle_bool p 0
  end.

Definition execute_trade (clock : Clock) (opportunity : MarketOpportunity.t)
    (w : World) : result TradeResult.t * World :=
  let mkt := MarketOpportunity.market opportunity in
  let trade_id := uuid4 clock in
  let now := utcnow clock in
  (* Calculate shares based on entry price *)
  let entry_price :=
    if String.eqb (MarketOpportunity.recommended_side opportunity) "yes"
    then Market.yes_price mkt else Market.no_price mkt in
  match entry_price with
  | Some price =>
    if Qle_bool price 0 then
      (Ok {| TradeResult.success := false;
             TradeResult.trade := None;
             TradeResult.error := Some [Lit "Invalid entry price: "; Repr entry_price];
             TradeResult.paper_trade := true |}, w)
    else
      let shares := MarketOpportunity.recommended_amount opportunity / price in
      (* Create the trade record *)
      let db_trade :=
        {| TradeDB.id := trade_id;
           TradeDB.created_at := now;
           TradeDB.updated_at := now;
           TradeDB.platform := Market.platform mkt;
           TradeDB.market_id := Market.market_id mkt;
           TradeDB.market_question := Market.question mkt;
           TradeDB.market_category := Market.category mkt;
           TradeDB.market_end_date := Market.end_date mkt;
           TradeDB.side := MarketOpportunity.recommended_side opportunity;
           TradeDB.entry_price := price;
           TradeDB.amount := MarketOpportunity.recommended_amount opportunity;
           TradeDB.shares := Some shares;
           TradeDB.strategy := MarketOpportunity.strategy opportunity;
           TradeDB.entry_context := Some
             [("signal_strength", PNum (MarketOpportunity.signal_strength opportunity));
              ("expected_value", PNum (MarketOpportunity.expected_value opportunity));
              ("reasoning", PStr (MarketOpportunity.reasoning opportunity));
              ("market_yes_price", opt_num (Market.yes_price mkt));
              ("market_no_price", opt_num (Market.no_price mkt));
              ("market_volume", opt_num (Market.volume mkt));
              ("execution_mode", PStr "paper")];
           TradeDB.status := TradeStatus_value OPEN;
           TradeDB.closing_price := None;
           TradeDB.pnl := None;
           TradeDB.clv := None |} in
      (* db.add(db_trade); await db.commit() *)
      let ledger' := (ledger w ++ [db_trade])%list in
      (* Log to JSONL *)
      let log_entry :=
        [("timestamp", PInt now);
         ("action", PStr "paper_trade_executed");
         ("trade_id", PStr trade_id);
         ("strategy", PStr (MarketOpportunity.strategy opportunity));
         ("market_id", PStr (Market.market_id mkt));
         ("side", PStr (MarketOpportunity.recommended_side opportunity));
         ("amount", PNum (MarketOpportunity.recommended_amount opportunity));
         ("entry_price", PNum price);
         ("shares", PNum shares);
         ("reasoning", PStr (MarketOpportunity.reasoning opportunity))] in
      let w' := {| ledger := ledger'; trade_log := (trade_log w ++ [log_entry])%list |} in
      (* Convert to Trade model *)
      match Trade_of_row db_trade with
      | Ok trade =>
        (Ok {| TradeResult.success := true;
               TradeResult.trade := Some trade;
               TradeResult.error := None;
               TradeResult.paper_trade := true |}, w')
      | Raise e => (Raise e, w')
      end
  | None =>
    (Ok {| TradeResult.success := false;
           TradeResult.trade := None;
           TradeResult.error := Some [Lit "Invalid entry price: "; Repr entry_price];
           TradeResult.paper_trade := true |}, w)
  end.

End PaperTrader.

Module LiveTrader.

(** Real trading: a stub that raises. *)
Definition execute_trade (clock : Clock) (opportunity : MarketOpportunity.t)
    (w : World) : result TradeResult.t * World :=
  (Raise NotImplementedError, w).

End LiveTrader.

Module TradingEngine.

Inductive trader : Type := Paper | Live.

Record t : Type := mk {
  paper_trading : bool;
  risk_manager : RiskManager.t;
  trader_of : trader;
}.

(** [TradingEngine.__init__]. *)
Definition __init__ (settings : Settings.t) (paper_trading : bool) : t :=
  {| paper_trading := paper_trading;
     risk_manager := RiskManager.default settings;
     trader_of := if paper_trading then Paper else Live |}.

Definition trader_execute (tr : trader) :=
  match tr with
  | Paper => PaperTrader.execute_trade
  | Live => LiveTrader.execute_trade
  end.

Definition execute_opportunity (settings : Settings.t) (self : t) (clock : Clock)
    (opportunity : MarketOpportunity.t) (force : bool)
    (w : World) : result TradeResult.t * World :=
  (* Get current state *)
  let positions := PositionManager.get_positions (ledger w) in
  let exposure := PositionManager.get_exposure settings clock (ledger w) in
  (* Run risk checks unless forced *)
  let risk_check :=
    RiskManager.check_limits (risk_manager self) opportunity exposure positions in
  if negb force && negb (RiskCheckResult.allowed risk_check) then
    (Ok {| TradeResult.success := false;
           TradeResult.trade := None;
           TradeResult.error := Some (RiskCheckResult.reason risk_check);
           TradeResult.paper_trade := paper_trading self |}, w)
  else
    (* Execute the trade *)
    trader_execute (trader_of self) clock opportunity w.

Definition check_risk_limits (settings : Settings.t) (self : t) (clock : Clock)
    (opportunity : MarketOpportunity.t) (w : World) : RiskCheckResult.t :=
  let positions := PositionManager.get_positions (ledger w) in
  let exposure := PositionManager.get_exposure settings clock (ledger w) in
  RiskManager.check_limits (risk_manager self) opportunity exposure positions.

End TradingEngine.

(* ===================================================================== *)
(** ** Fixtures of [tests/test_trading.py]                                *)
(* ===================================================================== *)

Module Fixtures.

Definition make_market : Market.t :=
  {| Market.platform := "polymarket";
     Market.market_id := "1";
     Market.question := "Will it rain tomorrow?";
     Market.category := None;
     Market.end_date := None;
     Market.yes_price := Some (6 # 10);
     Market.no_price := Some (4 # 10);
     Market.volume := None |}.

Definition make_opportunity (amount : Q) (side : string) (market : Market.t)
  : MarketOpportunity.t :=
  {| MarketOpportunity.market := market;
     MarketOpportunity.strategy := "test-strategy";
     MarketOpportunity.signal_strength := 8 # 10;
     MarketOpportunity.recommended_side := side;
     MarketOpportunity.recommended_amount := amount;
     MarketOpportunity.expected_value := 12 # 100;
     MarketOpportunity.reasoning := "test reasoning" |}.

Definition make_exposure (settings : Settings.t) (total daily_traded : Q)
  : ExposureReport.t :=
  let daily_limit := Settings.max_total_exposure settings * 2 in
  {| ExposureReport.total_exposure := total;
     ExposureReport.available_capital :=
       max0 (Settings.max_total_exposure settings - total);
     ExposureReport.position_count := 0;
     ExposureReport.by_platform := ∅;
     ExposureReport.by_strategy := ∅;
     ExposureReport.daily_traded := daily_traded;
     ExposureReport.daily_limit := daily_limit;
     ExposureReport.daily_remaining := max0 (daily_limit - daily_traded) |}.

(** The manager of [test_risk_manager_check_limits_various_scenarios]. *)
Definition risk_manager : RiskManager.t :=
  RiskManager.__init__ 50 100 (Some 120) 1.

(** [insert_trade]: a ledger row as the tests create it. *)
Definition insert_trade (id : string) (amount : Q) (platform strategy status : string)
    (created_at : datetime) : TradeDB.t :=
  {| TradeDB.id := id;
     TradeDB.created_at := created_at;
     TradeDB.updated_at := created_at;
     TradeDB.platform := platform;
     TradeDB.market_id := "1";
     TradeDB.market_question := "Will it rain tomorrow?";
     TradeDB.market_category := Some "weather";
     TradeDB.market_end_date := None;
     TradeDB.side := "yes";
     TradeDB.entry_price := 6 # 10;
     TradeDB.amount := amount;
     TradeDB.shares := Some (amount / (6 # 10));
     TradeDB.strategy := strategy;
     TradeDB.entry_context := None;
     TradeDB.status := status;
     TradeDB.closing_price := None;
     TradeDB.pnl := None;
     TradeDB.clv := None |}.

End Fixtures.

(* ===================================================================== *)
(** ** Reference definitions for the ledger aggregates                    *)
(* ===================================================================== *)

(** The sum of the amounts of a list of ledger rows. *)
Definition sum_amounts (l : list TradeDB.t) : Q :=
  fold_right (fun t acc => TradeDB.amount t + acc) 0 l.

Definition open_trades (db : list TradeDB.t) : list TradeDB.t :=
  List.filter PositionManager.is_open db.

Definition created_since (start : datetime) (db : list TradeDB.t) : list TradeDB.t :=
  List.filter (fun t => (start <=? TradeDB.created_at t)%Z) db.

Definition on_platform (k : string) (l : list TradeDB.t) : list TradeDB.t :=
  List.filter (fun t => String.eqb (TradeDB.platform t) k) l.

Definition with_strategy (k : string) (l : list TradeDB.t) : list TradeDB.t :=
  List.filter (fun t => String.eqb (TradeDB.strategy t) k) l.

(** An entry of a grouping: absent when the group is empty, otherwise the
    sum of the group's amounts. *)
Definition grouping (entry : option Q) (group : list TradeDB.t) : Prop :=
  match entry with
  | Some v => group <> [] /\ v == sum_amounts group
  | None => group = []
  end.

(** The ledger of [test_exposure_report_calculation]: two open trades
    created today and one resolved trade created yesterday. *)
Module ExposureScenario.

Definition clock : Clock :=
  {| uuid4 := "fresh";
     utcnow := (1000 * microseconds_per_day + 43200000000)%Z;
     today_start := (1000 * microseconds_per_day)%Z |}.

Definition yesterday : datetime := (utcnow clock - timedelta_days 1)%Z.

Definition db : list TradeDB.t :=
  [ Fixtures.insert_trade "a" 100 "polymarket" "strat-a" "open" (utcnow clock);
    Fixtures.insert_trade "b" 200 "kalshi" "strat-b" "open" (utcnow clock);
    Fixtures.insert_trade "c" 50 "polymarket" "old" "resolved_win" yesterday ].

End ExposureScenario.

(** The engine of the end-to-end scenario: paper trading with a $50
    per-trade cap and a $100 total-exposure cap. *)
Module EngineScenario.

Definition engine : TradingEngine.t :=
  {| TradingEngine.paper_trading := true;
     TradingEngine.risk_manager := Fixtures.risk_manager;
     TradingEngine.trader_of := TradingEngine.Paper |}.

Definition empty : World := {| ledger := []; trade_log := [] |}.

(** A market whose YES side has no price. *)
Definition unpriced_market : Market.t :=
  {| Market.platform := "polymarket";
     Market.market_id := "2";
     Market.question := "Will it snow tomorrow?";
     Market.category := None;
     Market.end_date := None;
     Market.yes_price := None;
     Market.no_price := Some (4 # 10);
     Market.volume := None |}.

End EngineScenario.

(* ===================================================================== *)
(** ** Trade analysis ([backend/analysis/improvement.py])                 *)
(* ===================================================================== *)

Module TradeAnalysis.
Record t : Type := mk {
  trade_id : string;
  strategy : string;
  won : bool;
  pnl : Q;
  roi : Q;
  entry_price : Q;
  closing_price : option Q;
  clv : option Q;
  beat_closing_line : option bool;
  was_good_entry : bool;
  was_good_sizing : bool;
  what_went_right : list fstring;
  what_went_wrong : list fstring;
  suggested_improvements : list fstring;
}.
End TradeAnalysis.

(** [clv is not None and p(clv)]. *)
Definition some_and (p : Q -> bool) (clv : option Q) : bool :=
  match clv with
  | Some c => p c
  | None => false
  end.

(** [clv and p(clv)]: [None] and [0.0] are falsy. *)
Definition truthy_and (p : Q -> bool) (clv : option Q) : bool :=
  truthy clv && some_and p clv.

(** [l.append(x)] when [c] holds. *)
Definition append_if {A : Type} (c : bool) (xs : list A) (l : list A) : list A :=
  if c then (l ++ xs)%list else l.

Module ResolutionAnalyzer.

Definition _calculate_pnl (trade : Trade.t) (won : bool) : result Q :=
  if won then
    (* Won: got $1 per share, minus what we paid *)
    shares <-? pydiv (Trade.amount trade) (Trade.entry_price trade) ;
    Ok (shares * (1 - Trade.entry_price trade))
  else
    (* Lost: lost what we paid *)
    Ok (- Trade.amount trade).

Definition _calculate_clv (trade : Trade.t) : result (option Q) :=
  match Trade.closing_price trade with
  | None => Ok None
  | Some closing_price =>
    clv <-? match Trade.side trade with
            | YES =>
              (* Bought YES: value if closing price > entry price *)
              r <-? pydiv (closing_price - Trade.entry_price trade)
                          (Trade.entry_price trade) ;
              Ok (r * 100)
            | NO =>
              (* Bought NO at entry_price = sold YES at (1 - entry_price) *)
              let our_implied_yes := 1 - Trade.entry_price trade in
              r <-? pydiv (our_implied_yes - closing_price)
                          (1 - Trade.entry_price trade) ;
              Ok (r * 100)
            end ;
    Ok (Some (round2 clv))
  end.

Definition _assess_entry_quality (trade : Trade.t) (clv : option Q) : bool :=
  match clv with
  | None => true  (* Benefit of the doubt *)
  | Some c => Qgtb c 0
  end.

Definition _assess_sizing_quality (trade : Trade.t) : bool :=
  if Qgtb (Trade.amount trade) 50 then false
  else if Qltb (Trade.amount trade) 1 then false
  else true.

Definition _identify_positives (trade : Trade.t) (won : bool) (clv : option Q)
  : list fstring :=
  let positives := [] in
  (* CLV-based positives (most important) *)
  let positives :=
    match clv with
    | Some c =>
      if Qgtb c 0 then
        let positives :=
          (positives ++ [[Lit "Positive CLV of "; Fixed 1 c;
                          Lit "% - beat the closing line"]])%list in
        append_if (Qgtb c 10) [[Lit "Exceptional edge identified (>10% CLV)"]] positives
      else positives
    | None => positives
    end in
  (* Outcome-based positives *)
  let positives :=
    if won then
      let positives := (positives ++ [[Lit "Trade resolved in our favor"]])%list in
      if Qltb (Trade.entry_price trade) (3 # 10) then
        (positives ++ [[Lit "Correctly identified underpriced longshot"]])%list
      else if Qgtb (Trade.entry_price trade) (7 # 10) then
        (positives ++ [[Lit "Correctly faded overpriced favorite"]])%list
      else positives
    else positives in
  (* Strategy-specific positives *)
  let positives :=
    append_if (String.eqb (Trade.strategy trade) "contrarian"
               && truthy_and (fun c => Qgtb c 0) clv)
      [[Lit "Contrarian view validated - market was wrong"]] positives in
  let positives :=
    append_if (String.eqb (Trade.strategy trade) "momentum" && won)
      [[Lit "Momentum strategy captured directional move"]] positives in
  (* Timing positives *)
  let positives :=
    match Trade.closing_price trade with
    | Some closing_price =>
      let price_move := Qabs (closing_price - Trade.entry_price trade) in
      append_if (Qgtb price_move (1 # 10))
        [[Lit "Good timing - price moved "; Percent 0 price_move;
          Lit " after entry"]] positives
    | None => positives
    end in
  match positives with
  | [] => [[Lit "No clear positives identified - review needed"]]
  | _ :: _ => positives
  end.

Definition _identify_negatives (trade : Trade.t) (won : bool) (clv : option Q)
  : list fstring :=
  let negatives := [] in
  (* CLV-based negatives (most important) *)
  let negatives :=
    match clv with
    | Some c =>
      if Qltb c 0 then
        let negatives :=
          (negatives ++ [[Lit "Negative CLV of "; Fixed 1 c;
                          Lit "% - entered at worse price than close"]])%list in
        append_if (Qltb c (-10))
          [[Lit "Severely mispriced entry (>10% worse than close)"]] negatives
      else negatives
    | None => negatives
    end in
  (* Outcome-based negatives *)
  let negatives :=
    if negb won then
      let negatives := (negatives ++ [[Lit "Trade resolved against us"]])%list in
      if Qgtb (Trade.entry_price trade) (7 # 10) then
        (negatives ++ [[Lit "Lost on high-probability position - consider hedging"]])%list
      else if Qltb (Trade.entry_price trade) (3 # 10) then
        (negatives ++ [[Lit "Longshot didn't hit - expected but painful"]])%list
      else negatives
    else negatives in
  (* Negative CLV but won (bad process, good luck) *)
  let negatives :=
    append_if (some_and (fun c => Qltb c 0) clv && won)
      [[Lit "Won despite negative CLV - got lucky, don't repeat this entry"]]
      negatives in
  (* Sizing issues *)
  let negatives :=
    append_if (Qgtb (Trade.amount trade) 50)
      [[Lit "Position size $"; Fixed 0 (Trade.amount trade); Lit " may be too large"]]
      negatives in
  (* Category-specific issues *)
  let negatives :=
    match Trade.market_category trade with
    | Some category =>
      append_if ((String.eqb category "politics" || String.eqb category "crypto")
                 && some_and (fun c => Qltb c (-5)) clv)
        [[Lit "Underperformed in "; Str category; Lit " - high volatility category"]]
        negatives
    | None => negatives
    end in
  negatives.

Definition _suggest_trade_improvements (trade : Trade.t) (won : bool)
    (clv : option Q) (negatives : list fstring) : list fstring :=
  let suggestions := [] in
  (* CLV-based suggestions *)
  let suggestions :=
    match clv with
    | Some c =>
      let suggestions :=
        append_if (Qltb c (-5))
          [[Lit "Wait for better entry price - consider limit orders"];
           [Lit "Check if news/info was already priced in before entering"]]
          suggestions in
      append_if (Qltb c (-10))
        [[Lit "Review information sources - market knew something we didn't"]]
        suggestions
    | None => suggestions
    end in
  (* Entry price suggestions *)
  let suggestions :=
    append_if (Qgtb (Trade.entry_price trade) (85 # 100))
      [[Lit "High entry prices leave little room for profit - require higher edge"]]
      suggestions in
  let suggestions :=
    append_if (Qltb (Trade.entry_price trade) (15 # 100))
      [[Lit "Low entry prices are often longshots - ensure sufficient edge"]]
      suggestions in
  (* Strategy suggestions *)
  let suggestions :=
    append_if (String.eqb (Trade.strategy trade) "momentum"
               && truthy_and (fun c => Qltb c 0) clv)
      [[Lit "Momentum entry may have been too late - price already moved"]]
      suggestions in
  let suggestions :=
    append_if (String.eqb (Trade.strategy trade) "contrarian" && negb won
               && truthy_and (fun c => Qltb c 0) clv)
      [[Lit "Contrarian view may have been wrong - review thesis"];
       [Lit "Consider: was this truly contrarian or just wrong?"]]
      suggestions in
  (* Sizing suggestions *)
  let suggestions :=
    append_if (Qgtb (Trade.amount trade) 30 && negb won)
      [[Lit "Consider smaller position sizes for uncertain bets"]]
      suggestions in
  (* Timing suggestions *)
  let suggestions :=
    match Trade.market_end_date trade with
    | Some market_end_date =>
      let time_to_expiry_days := days_between market_end_date (Trade.created_at trade) in
      append_if ((30 <? time_to_expiry_days)%Z && truthy_and (fun c => Qltb c 0) clv)
        [[Lit "Long-dated markets: consider scaling in over time"]]
        suggestions
    | None => suggestions
    end in
  match suggestions with
  | [] => [[Lit "Continue current approach - this was a reasonable trade"]]
  | _ :: _ => suggestions
  end.

Definition is_resolved (status : TradeStatus) : bool :=
  match status with
  | RESOLVED_WIN | RESOLVED_LOSS => true
  | _ => false
  end.

Definition analyze_resolved_trade (trade : Trade.t) : result TradeAnalysis.t :=
  if negb (is_resolved (Trade.status trade)) then
    Raise (ValueError [Lit "Trade "; Str (Trade.id trade); Lit " is not resolved"])
  else
  let won := TradeStatus_eqb (Trade.status trade) RESOLVED_WIN in
  (* trade.pnl or self._calculate_pnl(trade, won) *)
  pnl <-? match Trade.pnl trade with
          | Some stored => if Qeq_bool stored 0 then _calculate_pnl trade won
                           else Ok stored
          | None => _calculate_pnl trade won
          end ;
  roi <-? (if Qgtb (Trade.amount trade) 0
           then r <-? pydiv pnl (Trade.amount trade) ; Ok (r * 100)
           else Ok 0) ;
  (* CLV analysis - the most important metric *)
  clv <-? _calculate_clv trade ;
  let beat_closing_line := option_map (fun c => Qgtb c 0) clv in
  (* Quality assessments *)
  let was_good_entry := _assess_entry_quality trade clv in
  let was_good_sizing := _assess_sizing_quality trade in
  (* Generate lessons *)
  let what_went_right := _identify_positives trade won clv in
  let what_went_wrong := _identify_negatives trade won clv in
  let suggested_improvements :=
    _suggest_trade_improvements trade won clv what_went_wrong in
  Ok {| TradeAnalysis.trade_id := Trade.id trade;
        TradeAnalysis.strategy := Trade.strategy trade;
        TradeAnalysis.won := won;
        TradeAnalysis.pnl := pnl;
        TradeAnalysis.roi := roi;
        TradeAnalysis.entry_price := Trade.entry_price trade;
        TradeAnalysis.closing_price := Trade.closing_price trade;
        TradeAnalysis.clv := clv;
        TradeAnalysis.beat_closing_line := beat_closing_line;
        TradeAnalysis.was_good_entry := was_good_entry;
        TradeAnalysis.was_good_sizing := was_good_sizing;
        TradeAnalysis.what_went_right := what_went_right;
        TradeAnalysis.what_went_wrong := what_went_wrong;
        TradeAnalysis.suggested_improvements := suggested_improvements |}.

End ResolutionAnalyzer.

(* ===================================================================== *)
(** ** Resolution script ([scripts/check_resolutions.py])                 *)
(* ===================================================================== *)

Module check_resolutions.

(** [calculate_clv(trade, closing_price)]: the raw price difference and
    whether it is positive. *)
Definition calculate_clv (trade : TradeDB.t) (closing_price : Q) : Q * bool :=
  let clv :=
    if String.eqb (TradeDB.side trade) "yes"
    then closing_price - TradeDB.entry_price trade
    else (* For NO bets, we want a lower NO price at close *)
         TradeDB.entry_price trade - closing_price in
  (* Did we beat the closing line? *)
  let beat_clv := Qgtb clv 0 in
  (clv, beat_clv).

(** [calculate_pnl(trade, outcome)]: P&L and ROI of a resolved trade. *)
Definition calculate_pnl (trade : TradeDB.t) (outcome : string) : result (Q * Q) :=
  (* If we bet YES and outcome is YES, we win; likewise for NO *)
  let won :=
    (String.eqb (TradeDB.side trade) "yes" && String.eqb outcome "yes")
    || (String.eqb (TradeDB.side trade) "no" && String.eqb outcome "no") in
  pnl <-? (if won then
             (* Win: shares * $1 - amount_paid *)
             shares <-? (if truthy (TradeDB.shares trade)
                         then Ok (or_else (TradeDB.shares trade) 0)
                         else pydiv (TradeDB.amount trade) (TradeDB.entry_price trade)) ;
             Ok (shares - TradeDB.amount trade)
           else
             (* Loss: lose entire amount *)
             Ok (- TradeDB.amount trade)) ;
  roi <-? (if Qgtb (TradeDB.amount trade) 0
           then r <-? pydiv pnl (TradeDB.amount trade) ; Ok (r * 100)
           else Ok 0) ;
  Ok (pnl, roi).

End check_resolutions.

(** Resolved trades for the CLV examples. *)
Module ClvScenario.

Definition resolved (side : TradeSide) (status : TradeStatus)
    (entry_price : Q) (closing_price : option Q) : Trade.t :=
  {| Trade.id := "t1";
     Trade.created_at := 0%Z;
     Trade.updated_at := 0%Z;
     Trade.platform := "polymarket";
     Trade.market_id := "1";
     Trade.market_question := "Will it rain tomorrow?";
     Trade.market_category := Some "weather";
     Trade.market_end_date := None;
     Trade.side := side;
     Trade.entry_price := entry_price;
     Trade.amount := 10;
     Trade.shares := None;
     Trade.strategy := "test-strategy";
     Trade.entry_context := None;
     Trade.status := status;
     Trade.resolution_date := None;
     Trade.closing_price := closing_price;
     Trade.pnl := None;
     Trade.clv := None |}.

(** The same YES trade as a ledger row, for the resolution script. *)
Definition row (side : string) (entry_price : Q) : TradeDB.t :=
  {| TradeDB.id := "t1";
     TradeDB.created_at := 0%Z;
     TradeDB.updated_at := 0%Z;
     TradeDB.platform := "polymarket";
     TradeDB.market_id := "1";
     TradeDB.market_question := "Will it rain tomorrow?";
     TradeDB.market_category := Some "weather";
     TradeDB.market_end_date := None;
     TradeDB.side := side;
     TradeDB.entry_price := entry_price;
     TradeDB.amount := 10;
     TradeDB.shares := None;
     TradeDB.strategy := "test-strategy";
     TradeDB.entry_context := None;
     TradeDB.status := "open";
     TradeDB.closing_price := None;
     TradeDB.pnl := None;
     TradeDB.clv := None |}.

End ClvScenario.

(* ===================================================================== *)
(** ** Strategy evaluation ([backend/analysis/improvement.py])            *)
(* ===================================================================== *)

(** [len(xs)] as a float operand. *)
Definition Qlen {A : Type} (xs : list A) : Q := inject_Z (Z.of_nat (length xs)).

(** The functions of Python's [statistics] module the evaluator calls.
    The module computes with exact fractions and takes one square root at
    the end; the square root on floats is a parameter. *)
Module statistics.

Definition mean (data : list Q) : result Q :=
  match data with
  | [] => Raise StatisticsError
  | _ :: _ => Ok (pysum data / Qlen data)
  end.

(** Sample variance: squared deviations from the mean over [n - 1]. *)
Definition variance (data : list Q) : result Q :=
  if (length data <? 2)%nat then Raise StatisticsError
  else
    let m := pysum data / Qlen data in
    Ok (pysum (List.map (fun x => (x - m) * (x - m)) data) / (Qlen data - 1)).

Definition stdev (sqrt : Q -> Q) (data : list Q) : result Q :=
  v <-? variance data ;
  Ok (sqrt v).

End statistics.

(** A square root on rationals, exact on squares of numbers with at most
    15 decimals and truncated to 15 decimals otherwise. *)
Definition decimal_sqrt (q : Q) : Q :=
  Qred (Z.sqrt (Qnum q * 10 ^ 30 / Z.pos (Qden q)) # 10 ^ 15).

(** [sorted(l, key=key)]: the stable sort, by insertion. *)
Fixpoint insert_by {A : Type} (key : A -> Z) (x : A) (l : list A) : list A :=
  match l with
  | [] => [x]
  | y :: l' => if (key y <? key x)%Z then y :: insert_by key x l' else x :: y :: l'
  end.

Definition sorted {A : Type} (key : A -> Z) (l : list A) : list A :=
  fold_right (insert_by key) [] l.

(** [for x in xs: r.append(f(x))] where [f] may raise. *)
Fixpoint map_result {A B : Type} (f : A -> result B) (xs : list A) : result (list B) :=
  match xs with
  | [] => Ok []
  | x :: xs' =>
    y <-? f x ;
    ys <-? map_result f xs' ;
    Ok (y :: ys)
  end.

(** The per-group aggregate, a [dict] with seven fixed keys. *)
Module GroupMetrics.
Record t : Type := mk {
  trades : nat;
  wins : nat;
  win_rate : Q;
  pnl : Q;
  wagered : Q;
  roi : Q;
  avg_clv : Q;
}.
End GroupMetrics.

Module StrategyPerformance.
Record t : Type := mk {
  strategy : string;
  period : string;
  start_date : datetime;
  end_date : datetime;
  total_trades : nat;
  open_trades : nat;
  resolved_trades : nat;
  wins : nat;
  losses : nat;
  win_rate : Q;
  total_wagered : Q;
  total_pnl : Q;
  roi : Q;
  avg_clv : Q;
  clv_positive_count : nat;
  clv_positive_rate : Q;
  max_drawdown : Q;
  sharpe_ratio : option Q;
  by_category : list (string * GroupMetrics.t);
  by_platform : list (string * GroupMetrics.t);
}.

(** The field defaults of the model. *)
Definition defaults (strategy period : string) (start_date end_date : datetime) : t :=
  {| strategy := strategy; period := period;
     start_date := start_date; end_date := end_date;
     total_trades := 0; open_trades := 0; resolved_trades := 0;
     wins := 0; losses := 0; win_rate := 0;
     total_wagered := 0; total_pnl := 0; roi := 0;
     avg_clv := 0; clv_positive_count := 0; clv_positive_rate := 0;
     max_drawdown := 0; sharpe_ratio := None;
     by_category := []; by_platform := [] |}.
End StrategyPerformance.

(** The two attribute names the evaluator groups by. *)
Inductive group_field : Type := market_category | platform.

Module StrategyEvaluator.

Definition has_status (s : TradeStatus) (t : Trade.t) : bool :=
  TradeStatus_eqb (Trade.status t) s.

Definition is_resolved (t : Trade.t) : bool :=
  ResolutionAnalyzer.is_resolved (Trade.status t).

(** [t.pnl or 0]. *)
Definition pnl_or_0 (t : Trade.t) : Q := or_else (Trade.pnl t) 0.

(** [[t.clv for t in trades if t.clv is not None]]. *)
Definition clv_values (trades : list Trade.t) : list Q :=
  omap Trade.clv trades.

Definition _get_period_start (period : string) (end_date : datetime) : datetime :=
  if String.eqb period "daily" then (end_date - timedelta_days 1)%Z
  else if String.eqb period "weekly" then (end_date - timedelta_days 7)%Z
  else if String.eqb period "monthly" then (end_date - timedelta_days 30)%Z
  else (* datetime(2020, 1, 1) *) (18262 * microseconds_per_day)%Z.

(** [getattr(trade, field, None) or "unknown"]. *)
Definition group_key (field : group_field) (trade : Trade.t) : string :=
  let value :=
    match field with
    | market_category => Trade.market_category trade
    | platform => Some (Trade.platform trade)
    end in
  match value with
  | Some v => if String.eqb v EmptyString then "unknown" else v
  | None => "unknown"
  end.

(** [groups[value].append(trade)] on a [defaultdict(list)], keys in
    insertion order. *)
Fixpoint group_append (value : string) (trade : Trade.t)
    (groups : list (string * list Trade.t)) : list (string * list Trade.t) :=
  match groups with
  | [] => [(value, [trade])]
  | (name, members) :: rest =>
    if String.eqb name value then (name, (members ++ [trade])%list) :: rest
    else (name, members) :: group_append value trade rest
  end.

Definition group_metrics (group_trades : list Trade.t) : result GroupMetrics.t :=
  let wins := length (List.filter (has_status RESOLVED_WIN) group_trades) in
  let total_pnl := pysum (List.map pnl_or_0 group_trades) in
  let total_wagered := pysum (List.map Trade.amount group_trades) in
  let clv_values := clv_values group_trades in
  win_rate <-? match group_trades with
               | [] => Ok 0
               | _ :: _ => pydiv (inject_Z (Z.of_nat wins)) (Qlen group_trades)
               end ;
  roi <-? (if Qgtb total_wagered 0
           then r <-? pydiv total_pnl total_wagered ; Ok (r * 100)
           else Ok 0) ;
  avg_clv <-? match clv_values with
              | [] => Ok 0
              | _ :: _ => statistics.mean clv_values
              end ;
  Ok {| GroupMetrics.trades := length group_trades;
        GroupMetrics.wins := wins;
        GroupMetrics.win_rate := win_rate;
        GroupMetrics.pnl := total_pnl;
        GroupMetrics.wagered := total_wagered;
        GroupMetrics.roi := roi;
        GroupMetrics.avg_clv := avg_clv |}.

Definition _group_by_field (trades : list Trade.t) (field : group_field)
  : result (list (string * GroupMetrics.t)) :=
  let groups :=
    fold_left (fun groups trade => group_append (group_key field trade) trade groups)
              trades [] in
  map_result (fun g => m <-? group_metrics (snd g) ; Ok (fst g, m)) groups.

(** The loop state of [_calculate_max_drawdown]. *)
Record drawdown_state : Type := mkDrawdown {
  cumulative_pnl : Q;
  peak : Q;
  max_dd : Q;
}.

Definition drawdown_step (s : drawdown_state) (pnl : Q) : drawdown_state :=
  let cumulative_pnl := cumulative_pnl s + pnl in
  let peak := if Qgtb cumulative_pnl (peak s) then cumulative_pnl else peak s in
  let drawdown := peak - cumulative_pnl in
  let max_dd := if Qgtb drawdown (max_dd s) then drawdown else max_dd s in
  {| cumulative_pnl := cumulative_pnl; peak := peak; max_dd := max_dd |}.

(** [t.resolution_date or t.created_at]. *)
Definition resolution_key (t : Trade.t) : Z :=
  match Trade.resolution_date t with
  | Some d => d
  | None => Trade.created_at t
  end.

Definition _calculate_max_drawdown (trades : list Trade.t) : Q :=
  match trades with
  | [] => 0
  | _ :: _ =>
    (* Sort by resolution date *)
    let sorted_trades := sorted resolution_key trades in
    max_dd (fold_left drawdown_step (List.map pnl_or_0 sorted_trades)
                      {| cumulative_pnl := 0; peak := 0; max_dd := 0 |})
  end.

Section WithSqrt.

(** [math.sqrt] on floats. *)
Variable sqrt : Q -> Q.

Definition _calculate_sharpe (trades : list Trade.t) : result (option Q) :=
  if (length trades <? 2)%nat then Ok None
  else
    let returns := List.map pnl_or_0 trades in
    avg_return <-? statistics.mean returns ;
    std_return <-? statistics.stdev sqrt returns ;
    if Qeq_bool std_return 0 then Ok None
    else
      (* Simplified: just return risk-adjusted return *)
      ratio <-? pydiv avg_return std_return ;
      Ok (Some (round2 ratio)).

Definition evaluate_strategy (trades : list Trade.t) (utcnow : datetime)
    (strategy_name period : string) (start_date end_date : option datetime)
  : result StrategyPerformance.t :=
  (* Determine date range *)
  let end_date := match end_date with Some d => d | None => utcnow end in
  let start_date :=
    match start_date with
    | Some d => d
    | None => _get_period_start period end_date
    end in
  (* Filter trades *)
  let strategy_trades :=
    List.filter (fun t => String.eqb (Trade.strategy t) strategy_name
                          && (start_date <=? Trade.created_at t)%Z
                          && (Trade.created_at t <=? end_date)%Z) trades in
  match strategy_trades with
  | [] => Ok (StrategyPerformance.defaults strategy_name period start_date end_date)
  | _ :: _ =>
    (* Calculate metrics *)
    let resolved := List.filter is_resolved strategy_trades in
    let wins := List.filter (has_status RESOLVED_WIN) resolved in
    let losses := List.filter (has_status RESOLVED_LOSS) resolved in
    let total_wagered := pysum (List.map Trade.amount strategy_trades) in
    let total_pnl := pysum (List.map pnl_or_0 resolved) in
    (* CLV metrics *)
    let clv_values := clv_values resolved in
    avg_clv <-? match clv_values with
                | [] => Ok 0
                | _ :: _ => statistics.mean clv_values
                end ;
    let clv_positive := List.filter (fun c => Qgtb c 0) clv_values in
    (* By category *)
    by_category <-? _group_by_field resolved market_category ;
    by_platform <-? _group_by_field resolved platform ;
    win_rate <-? match resolved with
                 | [] => Ok 0
                 | _ :: _ => pydiv (Qlen wins) (Qlen resolved)
                 end ;
    roi <-? (if Qgtb total_wagered 0
             then r <-? pydiv total_pnl total_wagered ; Ok (r * 100)
             else Ok 0) ;
    clv_positive_rate <-? match clv_values with
                          | [] => Ok 0
                          | _ :: _ => pydiv (Qlen clv_positive) (Qlen clv_values)
                          end ;
    sharpe_ratio <-? _calculate_sharpe resolved ;
    Ok {| StrategyPerformance.strategy := strategy_name;
          StrategyPerformance.period := period;
          StrategyPerformance.start_date := start_date;
          StrategyPerformance.end_date := end_date;
          StrategyPerformance.total_trades := length strategy_trades;
          StrategyPerformance.open_trades :=
            length (List.filter (has_status OPEN) strategy_trades);
          StrategyPerformance.resolved_trades := length resolved;
          StrategyPerformance.wins := length wins;
          StrategyPerformance.losses := length losses;
          StrategyPerformance.win_rate := win_rate;
          StrategyPerformance.total_wagered := total_wagered;
          StrategyPerformance.total_pnl := total_pnl;
          StrategyPerformance.roi := roi;
          StrategyPerformance.avg_clv := avg_clv;
          StrategyPerformance.clv_positive_count := length clv_positive;
          StrategyPerformance.clv_positive_rate := clv_positive_rate;
          StrategyPerformance.max_drawdown := _calculate_max_drawdown resolved;
          StrategyPerformance.sharpe_ratio := sharpe_ratio;
          StrategyPerformance.by_category := by_category;
          StrategyPerformance.by_platform := by_platform |}
  end.

End WithSqrt.

(** [min(items, key=key)] on a non-empty iterable whose first item is
    [best]: a later item replaces the current one only when its key is
    strictly smaller. *)
Fixpoint min_from {A : Type} (key : A -> Q) (best : A) (items : list A) : A :=
  match items with
  | [] => best
  | x :: rest => min_from key (if Qltb (key x) (key best) then x else best) rest
  end.

Definition get_strategy_suggestions (performance : StrategyPerformance.t)
  : list fstring :=
  let resolved_trades := StrategyPerformance.resolved_trades performance in
  let avg_clv := StrategyPerformance.avg_clv performance in
  let clv_positive_rate := StrategyPerformance.clv_positive_rate performance in
  let win_rate := StrategyPerformance.win_rate performance in
  let roi := StrategyPerformance.roi performance in
  let suggestions := [] in
  (* Sample size warning *)
  if (resolved_trades <? 10)%nat then
    (suggestions ++
     [[Lit "Only "; Int (Z.of_nat resolved_trades);
       Lit " resolved trades - need more data for reliable analysis"]])%list
  else
  (* CLV-based suggestions (primary metric) *)
  let suggestions :=
    if Qltb avg_clv 0 then
      let suggestions :=
        (suggestions ++
         [[Lit "Negative average CLV ("; Fixed 1 avg_clv;
           Lit "%) - review entry criteria"]])%list in
      append_if (Qltb avg_clv (-5))
        [[Lit "Consider pausing this strategy until edge is re-established"]]
        suggestions
    else
      append_if (Qgtb avg_clv 5)
        [[Lit "Strong CLV ("; Fixed 1 avg_clv;
          Lit "%) - consider increasing position sizes"]]
        suggestions in
  (* CLV positive rate *)
  let suggestions :=
    if Qltb clv_positive_rate (4 # 10) then
      (suggestions ++
       [[Lit "Only "; Percent 0 clv_positive_rate;
         Lit " of trades beat closing line - entry timing needs work"]])%list
    else
      append_if (Qgtb clv_positive_rate (6 # 10))
        [[Lit "Excellent CLV rate ("; Percent 0 clv_positive_rate;
          Lit ") - strategy has consistent edge"]]
        suggestions in
  (* Win rate vs expected *)
  let suggestions :=
    append_if (Qltb win_rate (3 # 10) && Qgtb avg_clv 0)
      [[Lit "Low win rate despite positive CLV - variance or small sample size"]]
      suggestions in
  let suggestions :=
    append_if (Qgtb win_rate (7 # 10) && Qltb avg_clv 0)
      [[Lit "High win rate with negative CLV - getting lucky, adjust entries"]]
      suggestions in
  (* ROI suggestions *)
  let suggestions :=
    if Qltb roi (-10) then
      (suggestions ++
       [[Lit "Significant losses ("; Fixed 1 roi;
         Lit "% ROI) - reduce exposure"]])%list
    else
      append_if (Qgtb roi 20)
        [[Lit "Strong returns ("; Fixed 1 roi;
          Lit "% ROI) - maintain current approach"]]
        suggestions in
  (* Category performance *)
  let suggestions :=
    match StrategyPerformance.by_category performance with
    | [] => suggestions
    | first :: rest =>
      let worst_cat := min_from (fun x => GroupMetrics.roi (snd x)) first rest in
      append_if (negb (String.eqb (fst worst_cat) EmptyString)
                 && Qltb (GroupMetrics.roi (snd worst_cat)) (-20))
        [[Lit "Underperforming in "; Str (fst worst_cat); Lit " (";
          Fixed 0 (GroupMetrics.roi (snd worst_cat));
          Lit "% ROI) - consider avoiding this category"]]
        suggestions
    end in
  match suggestions with
  | [] => [[Lit "Strategy performing within expectations - continue monitoring"]]
  | _ :: _ => suggestions
  end.

End StrategyEvaluator.

(** The running total after the first [k] trades of a PnL sequence. *)
Definition running_total (k : nat) (pnls : list Q) : Q := pysum (firstn k pnls).

(** Four resolved trades, listed out of order, whose PnLs in resolution
    order are +10, +5, -20, +3; the second has no resolution date and is
    placed by its creation date. *)
Module DrawdownScenario.

Definition resolved_trade (id : string) (pnl : Q) (created_at : datetime)
    (resolution_date : option datetime) : Trade.t :=
  {| Trade.id := id;
     Trade.created_at := created_at;
     Trade.updated_at := created_at;
     Trade.platform := "polymarket";
     Trade.market_id := "1";
     Trade.market_question := "Will it rain tomorrow?";
     Trade.market_category := Some "weather";
     Trade.market_end_date := None;
     Trade.side := YES;
     Trade.entry_price := 6 # 10;
     Trade.amount := 20;
     Trade.shares := None;
     Trade.strategy := "test-strategy";
     Trade.entry_context := None;
     Trade.status := if Qgtb pnl 0 then RESOLVED_WIN else RESOLVED_LOSS;
     Trade.resolution_date := resolution_date;
     Trade.closing_price := None;
     Trade.pnl := Some pnl;
     Trade.clv := None |}.

Definition trades : list Trade.t :=
  [ resolved_trade "c" (-20) 3%Z (Some 30%Z);
    resolved_trade "a" 10 1%Z (Some 10%Z);
    resolved_trade "d" 3 4%Z (Some 40%Z);
    resolved_trade "b" 5 20%Z None ].

End DrawdownScenario.

(** Three resolved trades with PnLs 4, 6 and -7: mean 1, sample standard
    deviation 7. *)
Module SharpeScenario.

Definition trades : list Trade.t :=
  [ DrawdownScenario.resolved_trade "a" 4 1%Z (Some 10%Z);
    DrawdownScenario.resolved_trade "b" 6 2%Z (Some 20%Z);
    DrawdownScenario.resolved_trade "c" (-7) 3%Z (Some 30%Z) ].

End SharpeScenario.

(** The resolved trades of a strategy inside the evaluation window, as
    [evaluate_strategy] selects them. *)
Definition resolved_in_window (trades : list Trade.t) (utcnow : datetime)
    (strategy_name period : string) (start_date end_date : option datetime)
  : list Trade.t :=
  let end_date := match end_date with Some d => d | None => utcnow end in
  let start_date :=
    match start_date with
    | Some d => d
    | None => StrategyEvaluator._get_period_start period end_date
    end in
  List.filter StrategyEvaluator.is_resolved
    (List.filter (fun t => String.eqb (Trade.strategy t) strategy_name
                           && (start_date <=? Trade.created_at t)%Z
                           && (Trade.created_at t <=? end_date)%Z) trades).

(* ===================================================================== *)
(** ** Interleaved executions of [TradingEngine.execute_opportunity]      *)
(* ===================================================================== *)

(** [execute_opportunity] is a coroutine: it can be suspended at each
    [await], and another call on the same ledger can run in between.  A
    call in progress is modelled by the point it has reached: before the
    first read, after [get_positions], after [get_exposure], or returned.
    The risk check takes no [await]; it runs together with the write of
    [execute_trade].  The code holds no lock and opens no transaction
    around these points. *)
Module Interleaving.

Record request : Type := mkRequest {
  clock : Clock;
  opportunity : MarketOpportunity.t;
  force : bool;
}.

Inductive task : Type :=
  | Start
  | GotPositions (positions : list Position.t)
  | GotExposure (positions : list Position.t) (exposure : ExposureReport.t)
  | Returned (r : result TradeResult.t).

Section Engine.

Variable settings : Settings.t.
Variable self : TradingEngine.t.

(** One resumption of a call, up to its next suspension point. *)
Definition step (req : request) (t : task) (w : World) : task * World :=
  match t with
  | Start => (GotPositions (PositionManager.get_positions (ledger w)), w)
  | GotPositions positions =>
    (GotExposure positions
       (PositionManager.get_exposure settings (clock req) (ledger w)), w)
  | GotExposure positions exposure =>
    let risk_check :=
      RiskManager.check_limits (TradingEngine.risk_manager self)
        (opportunity req) exposure positions in
    if negb (force req) && negb (RiskCheckResult.allowed risk_check) then
      (Returned (Ok {| TradeResult.success := false;
                       TradeResult.trade := None;
                       TradeResult.error := Some (RiskCheckResult.reason risk_check);
                       TradeResult.paper_trade := TradingEngine.paper_trading self |}),
       w)
    else
      let (r, w') :=
        TradingEngine.trader_execute (TradingEngine.trader_of self)
          (clock req) (opportunity req) w in
      (Returned r, w')
  | Returned r => (Returned r, w)
  end.

(** Two calls sharing the ledger. *)
Record system : Type := mkSystem {
  world : World;
  first : task;
  second : task;
}.

Inductive turn : Type := First | Second.

Definition resume (req1 req2 : request) (s : system) (who : turn) : system :=
  match who with
  | First =>
    let (t, w) := step req1 (first s) (world s) in
    {| world := w; first := t; second := second s |}
  | Second =>
    let (t, w) := step req2 (second s) (world s) in
    {| world := w; first := first s; second := t |}
  end.

(** Run the two calls under a schedule. *)
Definition run (req1 req2 : request) (schedule : list turn) (w : World) : system :=
  fold_left (resume req1 req2) schedule
            {| world := w; first := Start; second := Start |}.

End Engine.

(** Two $70 opportunities on the same market against caps of $100 per
    trade and $100 in total, on an empty ledger. *)
Definition engine : TradingEngine.t :=
  {| TradingEngine.paper_trading := true;
     TradingEngine.risk_manager := RiskManager.__init__ 100 100 None 1;
     TradingEngine.trader_of := TradingEngine.Paper |}.

Definition request1 : request :=
  {| clock := {| uuid4 := "id-1"; utcnow := utcnow ExposureScenario.clock;
                 today_start := today_start ExposureScenario.clock |};
     opportunity := Fixtures.make_opportunity 70 "yes" Fixtures.make_market;
     force := false |}.

Definition request2 : request :=
  {| clock := {| uuid4 := "id-2"; utcnow := utcnow ExposureScenario.clock;
                 today_start := today_start ExposureScenario.clock |};
     opportunity := Fixtures.make_opportunity 70 "yes" Fixtures.make_market;
     force := false |}.

(** The second call reads its snapshot before the first one writes. *)
Definition racing : list turn := [First; First; Second; Second; First; Second].

(** The first call returns before the second one starts. *)
Definition one_after_the_other : list turn :=
  [First; First; First; Second; Second; Second].

Definition succeeded (t : task) : bool :=
  match t with
  | Returned (Ok r) => TradeResult.success r
  | _ => false
  end.

End Interleaving.

(** Worlds reached from a given one by calls of [execute_opportunity]
    that are not forced and run one after the other, each with its own
    clock reading and opportunity. *)
Inductive reached_by_calls (settings : Settings.t) (self : TradingEngine.t)
    (w : World) : World -> Prop :=
  | reached_start : reached_by_calls settings self w w
  | reached_call (w1 : World) (clock : Clock) (opportunity : MarketOpportunity.t) :
      reached_by_calls settings self w w1 ->
      reached_by_calls settings self w
        (snd (TradingEngine.execute_opportunity settings self clock opportunity
                false w1)).

(** Resolved trades of a given size, for the sizing rules. *)
Module SizingScenario.

Definition trade (amount : Q) (status : TradeStatus) : Trade.t :=
  {| Trade.id := "t2";
     Trade.created_at := 0%Z;
     Trade.updated_at := 0%Z;
     Trade.platform := "polymarket";
     Trade.market_id := "1";
     Trade.market_question := "Will it rain tomorrow?";
     Trade.market_category := Some "weather";
     Trade.market_end_date := None;
     Trade.side := YES;
     Trade.entry_price := 6 # 10;
     Trade.amount := amount;
     Trade.shares := None;
     Trade.strategy := "test-strategy";
     Trade.entry_context := None;
     Trade.status := status;
     Trade.resolution_date := None;
     Trade.closing_price := None;
     Trade.pnl := None;
     Trade.clv := None |}.

End SizingScenario.

(** The trades of a strategy inside the evaluation window, as
    [evaluate_strategy] selects them. *)
Definition trades_in_window (trades : list Trade.t) (utcnow : datetime)
    (strategy_name period : string) (start_date end_date : option datetime)
  : list Trade.t :=
  let end_date := match end_date with Some d => d | None => utcnow end in
  let start_date :=
    match start_date with
    | Some d => d
    | None => StrategyEvaluator._get_period_start period end_date
    end in
  List.filter (fun t => String.eqb (Trade.strategy t) strategy_name
                        && (start_date <=? Trade.created_at t)%Z
                        && (Trade.created_at t <=? end_date)%Z) trades.

(* ===================================================================== *)
(** ** Calibration ([ParameterTuner.calculate_calibration])               *)
(* ===================================================================== *)

Module CalibrationPoint.
Record t : Type := mk {
  price_bucket : fstring;
  bucket_start : Q;
  bucket_end : Q;
  total_trades : nat;
  resolved_trades : nat;
  avg_entry_price : Q;
  actual_win_rate : Q;
  calibration_error : Q;
  is_overpriced : bool;
  is_underpriced : bool;
}.
End CalibrationPoint.

Module ParameterTuner.

(** The ten price buckets, each closed below and open above. *)
Definition buckets : list (Q * Q) :=
  [(0, 1 # 10); (1 # 10, 2 # 10); (2 # 10, 3 # 10); (3 # 10, 4 # 10);
   (4 # 10, 5 # 10); (5 # 10, 6 # 10); (6 # 10, 7 # 10); (7 # 10, 8 # 10);
   (8 # 10, 9 # 10); (9 # 10, 1)].

(** [bucket_start <= t.entry_price < bucket_end]. *)
Definition in_bucket (bucket : Q * Q) (t : Trade.t) : bool :=
  Qle_bool (fst bucket) (Trade.entry_price t)
  && Qltb (Trade.entry_price t) (snd bucket).

(** The loop over the buckets; an empty bucket is skipped. *)
Fixpoint calibration_loop (resolved : list Trade.t) (buckets : list (Q * Q))
    (calibration_points : list CalibrationPoint.t)
  : result (list CalibrationPoint.t) :=
  match buckets with
  | [] => Ok calibration_points
  | bucket :: rest =>
    let bucket_start := fst bucket in
    let bucket_end := snd bucket in
    let bucket_trades := List.filter (in_bucket bucket) resolved in
    match bucket_trades with
    | [] => calibration_loop resolved rest calibration_points
    | _ :: _ =>
      let wins :=
        List.filter (StrategyEvaluator.has_status RESOLVED_WIN) bucket_trades in
      avg_entry <-? statistics.mean (List.map Trade.entry_price bucket_trades) ;
      actual_win_rate <-? match bucket_trades with
                          | [] => Ok 0
                          | _ :: _ => pydiv (Qlen wins) (Qlen bucket_trades)
                          end ;
      let calibration_error := actual_win_rate - avg_entry in
      calibration_loop resolved rest
        (calibration_points ++
         [{| CalibrationPoint.price_bucket :=
               [Fixed 2 bucket_start; Lit "-"; Fixed 2 bucket_end];
             CalibrationPoint.bucket_start := bucket_start;
             CalibrationPoint.bucket_end := bucket_end;
             CalibrationPoint.total_trades := length bucket_trades;
             CalibrationPoint.resolved_trades := length bucket_trades;
             CalibrationPoint.avg_entry_price := avg_entry;
             CalibrationPoint.actual_win_rate := actual_win_rate;
             CalibrationPoint.calibration_error := calibration_error;
             (* Paid too much *)
             CalibrationPoint.is_overpriced := Qltb calibration_error (- (5 # 100));
             (* Got value *)
             CalibrationPoint.is_underpriced := Qgtb calibration_error (5 # 100) |}])%list
    end
  end.

(** [trades or self.trades]: [None] and the empty list both fall back to
    the tuner's own trades. *)
Definition trades_or_own (self_trades : list Trade.t)
    (trades : option (list Trade.t)) : list Trade.t :=
  match trades with
  | Some (t :: l) => t :: l
  | _ => self_trades
  end.

Definition calculate_calibration (self_trades : list Trade.t)
    (trades : option (list Trade.t)) : result (list CalibrationPoint.t) :=
  let trades := trades_or_own self_trades trades in
  let resolved := List.filter StrategyEvaluator.is_resolved trades in
  calibration_loop resolved buckets [].

End ParameterTuner.

(** Resolved trades at given entry prices, for the calibration curve. *)
Module CalibrationScenario.

Definition trade (entry_price : Q) (status : TradeStatus) : Trade.t :=
  {| Trade.id := "t3";
     Trade.created_at := 0%Z;
     Trade.updated_at := 0%Z;
     Trade.platform := "polymarket";
     Trade.market_id := "1";
     Trade.market_question := "Will it rain tomorrow?";
     Trade.market_category := Some "weather";
     Trade.market_end_date := None;
     Trade.side := YES;
     Trade.entry_price := entry_price;
     Trade.amount := 10;
     Trade.shares := None;
     Trade.strategy := "test-strategy";
     Trade.entry_context := None;
     Trade.status := status;
     Trade.resolution_date := None;
     Trade.closing_price := None;
     Trade.pnl := None;
     Trade.clv := None |}.

Definition trades : list Trade.t :=
  [trade (15 # 100) RESOLVED_LOSS; trade (62 # 100) RESOLVED_WIN;
   trade (65 # 100) RESOLVED_LOSS; trade (99 # 100) RESOLVED_WIN;
   trade (30 # 100) OPEN].

End CalibrationScenario.

(** An evaluation over twelve resolved trades with one losing category. *)
Module SuggestionScenario.

Definition group (trades wins : nat) (pnl wagered : Q) : GroupMetrics.t :=
  {| GroupMetrics.trades := trades;
     GroupMetrics.wins := wins;
     GroupMetrics.win_rate := Z.of_nat wins # Pos.of_nat trades;
     GroupMetrics.pnl := pnl;
     GroupMetrics.wagered := wagered;
     GroupMetrics.roi := pnl / wagered * 100;
     GroupMetrics.avg_clv := 0 |}.

Definition performance : StrategyPerformance.t :=
  {| StrategyPerformance.strategy := "test-strategy";
     StrategyPerformance.period := "all_time";
     StrategyPerformance.start_date := 0%Z;
     StrategyPerformance.end_date := 100%Z;
     StrategyPerformance.total_trades := 12;
     StrategyPerformance.open_trades := 0;
     StrategyPerformance.resolved_trades := 12;
     StrategyPerformance.wins := 6;
     StrategyPerformance.losses := 6;
     StrategyPerformance.win_rate := 1 # 2;
     StrategyPerformance.total_wagered := 120;
     StrategyPerformance.total_pnl := -6;
     StrategyPerformance.roi := -5;
     StrategyPerformance.avg_clv := 1;
     StrategyPerformance.clv_positive_count := 6;
     StrategyPerformance.clv_positive_rate := 1 # 2;
     StrategyPerformance.max_drawdown := 20;
     StrategyPerformance.sharpe_ratio := None;
     StrategyPerformance.by_category :=
       [("sports", group 8 5 10 80); ("weather", group 4 1 (-16) 40)];
     StrategyPerformance.by_platform :=
       [("polymarket", group 12 6 (-6) 120)] |}.

End SuggestionScenario.

(** What every point of the calibration curve satisfies, for the resolved
    trades the curve is computed from: its counts are those of its bucket,
    the average entry price lies in the bucket, the win rate is a
    proportion, the error is their difference, and the two verdicts
    exclude each other. *)
Definition well_formed_point (resolved : list Trade.t) (p : CalibrationPoint.t)
  : Prop :=
  let bucket := (CalibrationPoint.bucket_start p, CalibrationPoint.bucket_end p) in
  CalibrationPoint.total_trades p
  = length (List.filter (ParameterTuner.in_bucket bucket) resolved)
  /\ CalibrationPoint.resolved_trades p = CalibrationPoint.total_trades p
  /\ (0 < CalibrationPoint.total_trades p)%nat
  /\ CalibrationPoint.bucket_start p <= CalibrationPoint.avg_entry_price p
  /\ CalibrationPoint.avg_entry_price p < CalibrationPoint.bucket_end p
  /\ 0 <= CalibrationPoint.actual_win_rate p
  /\ CalibrationPoint.actual_win_rate p <= 1
  /\ CalibrationPoint.calibration_error p
     = CalibrationPoint.actual_win_rate p - CalibrationPoint.avg_entry_price p
  /\ CalibrationPoint.is_overpriced p && CalibrationPoint.is_underpriced p = false.

(* ===================================================================== *)
(** ** The lesson rules, one by one                                       *)
(* ===================================================================== *)

(** The rules of [_identify_positives]: each constructor is one line a
    rule appends, with the condition under which it does. *)
Inductive positive_rule (trade : Trade.t) (won : bool) (clv : option Q)
  : fstring -> Prop :=
  | positive_clv (c : Q) :
      clv = Some c -> 0 < c ->
      positive_rule trade won clv
        [Lit "Positive CLV of "; Fixed 1 c; Lit "% - beat the closing line"]
  | exceptional_edge (c : Q) :
      clv = Some c -> 10 < c ->
      positive_rule trade won clv [Lit "Exceptional edge identified (>10% CLV)"]
  | resolved_in_our_favor :
      won = true ->
      positive_rule trade won clv [Lit "Trade resolved in our favor"]
  | underpriced_longshot :
      won = true -> Trade.entry_price trade < 3 # 10 ->
      positive_rule trade won clv [Lit "Correctly identified underpriced longshot"]
  | overpriced_favorite :
      won = true -> 7 # 10 < Trade.entry_price trade ->
      positive_rule trade won clv [Lit "Correctly faded overpriced favorite"]
  | contrarian_validated (c : Q) :
      Trade.strategy trade = "contrarian" -> clv = Some c -> 0 < c ->
      positive_rule trade won clv
        [Lit "Contrarian view validated - market was wrong"]
  | momentum_captured :
      Trade.strategy trade = "momentum" -> won = true ->
      positive_rule trade won clv
        [Lit "Momentum strategy captured directional move"]
  | good_timing (closing_price : Q) :
      Trade.closing_price trade = Some closing_price ->
      1 # 10 < Qabs (closing_price - Trade.entry_price trade) ->
      positive_rule trade won clv
        [Lit "Good timing - price moved ";
         Percent 0 (Qabs (closing_price - Trade.entry_price trade));
         Lit " after entry"].

(** The rules of [_suggest_trade_improvements], in the same way. *)
Inductive suggestion_rule (trade : Trade.t) (won : bool) (clv : option Q)
  : fstring -> Prop :=
  | wait_for_better_entry (c : Q) :
      clv = Some c -> c < -5 ->
      suggestion_rule trade won clv
        [Lit "Wait for better entry price - consider limit orders"]
  | already_priced_in (c : Q) :
      clv = Some c -> c < -5 ->
      suggestion_rule trade won clv
        [Lit "Check if news/info was already priced in before entering"]
  | review_sources (c : Q) :
      clv = Some c -> c < -10 ->
      suggestion_rule trade won clv
        [Lit "Review information sources - market knew something we didn't"]
  | high_entry_price :
      85 # 100 < Trade.entry_price trade ->
      suggestion_rule trade won clv
        [Lit "High entry prices leave little room for profit - require higher edge"]
  | low_entry_price :
      Trade.entry_price trade < 15 # 100 ->
      suggestion_rule trade won clv
        [Lit "Low entry prices are often longshots - ensure sufficient edge"]
  | momentum_too_late (c : Q) :
      Trade.strategy trade = "momentum" -> clv = Some c -> c < 0 ->
      suggestion_rule trade won clv
        [Lit "Momentum entry may have been too late - price already moved"]
  | contrarian_thesis (c : Q) :
      Trade.strategy trade = "contrarian" -> won = false ->
      clv = Some c -> c < 0 ->
      suggestion_rule trade won clv
        [Lit "Contrarian view may have been wrong - review thesis"]
  | contrarian_or_wrong (c : Q) :
      Trade.strategy trade = "contrarian" -> won = false ->
      clv = Some c -> c < 0 ->
      suggestion_rule trade won clv
        [Lit "Consider: was this truly contrarian or just wrong?"]
  | smaller_sizes :
      30 < Trade.amount trade -> won = false ->
      suggestion_rule trade won clv
        [Lit "Consider smaller position sizes for uncertain bets"]
  | scale_in (market_end_date : datetime) (c : Q) :
      Trade.market_end_date trade = Some market_end_date ->
      (30 < days_between market_end_date (Trade.created_at trade))%Z ->
      clv = Some c -> c < 0 ->
      suggestion_rule trade won clv
        [Lit "Long-dated markets: consider scaling in over time"].

(** A list of lessons with a placeholder: it is never empty; it holds the
    lines of the rules that fire and nothing else; when no rule fires it
    is the placeholder alone; and the placeholder never stands beside the
    line of a rule. *)
Definition lessons_with_placeholder (rule : fstring -> Prop)
    (placeholder : fstring) (lines : list fstring) : Prop :=
  lines <> []
  /\ (forall line, List.In line lines <->
        rule line \/ (line = placeholder /\ forall l, ~ rule l))
  /\ ((forall l, ~ rule l) -> lines = [placeholder])
  /\ ((exists l, rule l) -> ~ List.In placeholder lines).

(* ===================================================================== *)
(** * Properties                                                          *)
(* ===================================================================== *)

(** ** Comparisons *)

Lemma Qgtb_true x y : Qgtb x y = true <-> y < x.
Proof.
  unfold Qgtb. rewrite negb_true_iff.
  destruct (Qle_bool x y) eqn:E.
  - apply Qle_bool_iff in E. split; [discriminate | intros; lra].
  - split; [intros _ | reflexivity].
    apply Qnot_le_lt. intros H. apply Qle_bool_iff in H. congruence.
Qed.

Lemma Qgtb_false x y : Qgtb x y = false <-> x <= y.
Proof.
  unfold Qgtb. rewrite negb_false_iff. apply Qle_bool_iff.
Qed.

Lemma Qltb_true x y : Qltb x y = true <-> x < y.
Proof. unfold Qltb. apply (Qgtb_true y x). Qed.

Lemma Qltb_false x y : Qltb x y = false <-> y <= x.
Proof. unfold Qltb. apply (Qgtb_false y x). Qed.


(** ** RiskManager *)

Section RiskManagerOrder.

Import RiskManager.

Variable self : RiskManager.t.
Variable opportunity : MarketOpportunity.t.
Variable current_exposure : ExposureReport.t.
Variable existing_positions : list Position.t.

Local Abbreviation amount := (MarketOpportunity.recommended_amount opportunity).
Local Abbreviation total := (ExposureReport.total_exposure current_exposure).
Local Abbreviation daily := (ExposureReport.daily_traded current_exposure).
Local Abbreviation held :=
  (Z.of_nat (length (List.filter (same_market opportunity) existing_positions))).
Local Abbreviation outcome :=
  (check_limits self opportunity current_exposure existing_positions).

(** A denial that names exactly the limit [tag]. *)
Local Abbreviation denied_by tag :=
  (RiskCheckResult.allowed outcome = false /\ limit_tag outcome = Some (PStr tag)).

Lemma first_check_fails :
  max_position_size self < amount -> denied_by "max_position_size".
Proof.
  intros H. apply Qgtb_true in H.
  unfold check_limits, limit_tag.
  rewrite H. split; reflexivity.
Qed.

Lemma second_check_fails :
  amount <= max_position_size self ->
  max_total_exposure self < total + amount ->
  denied_by "max_total_exposure".
Proof.
  intros H1 H2. apply Qgtb_false in H1. apply Qgtb_true in H2.
  unfold check_limits, limit_tag.
  rewrite H1, H2. split; reflexivity.
Qed.

Lemma third_check_fails :
  amount <= max_position_size self ->
  total + amount <= max_total_exposure self ->
  max_daily_volume self < daily + amount ->
  denied_by "daily_volume".
Proof.
  intros H1 H2 H3.
  apply Qgtb_false in H1. apply Qgtb_false in H2. apply Qgtb_true in H3.
  unfold check_limits, limit_tag.
  rewrite H1, H2, H3. split; reflexivity.
Qed.

Lemma fourth_check_fails :
  amount <= max_position_size self ->
  total + amount <= max_total_exposure self ->
  daily + amount <= max_daily_volume self ->
  (max_positions_per_market self <= held)%Z ->
  denied_by "positions_per_market".
Proof.
  intros H1 H2 H3 H4.
  apply Qgtb_false in H1. apply Qgtb_false in H2. apply Qgtb_false in H3.
  apply Z.geb_le in H4.
  unfold check_limits, limit_tag.
  rewrite H1, H2, H3, H4.
  split; reflexivity.
Qed.

Lemma all_checks_pass :
  amount <= max_position_size self ->
  total + amount <= max_total_exposure self ->
  daily + amount <= max_daily_volume self ->
  (held < max_positions_per_market self)%Z ->
  RiskCheckResult.allowed outcome = true /\ limit_tag outcome = None.
Proof.
  intros H1 H2 H3 H4.
  apply Qgtb_false in H1. apply Qgtb_false in H2. apply Qgtb_false in H3.
  assert (H5 : (held >=? max_positions_per_market self)%Z = false)
    by (rewrite Z.geb_leb; apply Z.leb_gt; lia).
  unfold check_limits, limit_tag.
  rewrite H1, H2, H3, H5.
  split; reflexivity.
Qed.

(** C1. The four limits are evaluated in the order max_position_size,
    max_total_exposure, daily_volume, positions_per_market and the first
    one that fails is the one reported; an opportunity above both the
    per-trade cap and the remaining total-exposure headroom is reported
    with limit = "max_position_size". *)
Theorem check_limits_first_failure_wins :
  (max_position_size self < amount -> denied_by "max_position_size") /\
  (amount <= max_position_size self ->
   max_total_exposure self < total + amount ->
   denied_by "max_total_exposure") /\
  (amount <= max_position_size self ->
   total + amount <= max_total_exposure self ->
   max_daily_volume self < daily + amount ->
   denied_by "daily_volume") /\
  (amount <= max_position_size self ->
   total + amount <= max_total_exposure self ->
   daily + amount <= max_daily_volume self ->
   (max_positions_per_market self <= held)%Z ->
   denied_by "positions_per_market") /\
  (amount <= max_position_size self ->
   total + amount <= max_total_exposure self ->
   daily + amount <= max_daily_volume self ->
   (held < max_positions_per_market self)%Z ->
   RiskCheckResult.allowed outcome = true /\ limit_tag outcome = None) /\
  (max_position_size self < amount ->
   max_total_exposure self - total < amount ->
   RiskCheckResult.allowed outcome = false /\
   limit_tag outcome = Some (PStr "max_position_size")).
Proof.
  split; [exact first_check_fails |].
  split; [exact second_check_fails |].
  split; [exact third_check_fails |].
  split; [exact fourth_check_fails |].
  split; [exact all_checks_pass |].
  intros Hsize _. exact (first_check_fails Hsize).
Qed.

End RiskManagerOrder.

(** Both the per-trade cap (60 > 50) and the total-exposure cap
    (70 + 60 > 100) fail; the first is the one reported. *)
Lemma check_limits_first_failure_wins_witness :
  RiskCheckResult.allowed
    (RiskManager.check_limits Fixtures.risk_manager
       (Fixtures.make_opportunity 60 "yes" Fixtures.make_market)
       (Fixtures.make_exposure Settings.default 70 0) []) = false /\
  RiskManager.limit_tag
    (RiskManager.check_limits Fixtures.risk_manager
       (Fixtures.make_opportunity 60 "yes" Fixtures.make_market)
       (Fixtures.make_exposure Settings.default 70 0) [])
  = Some (PStr "max_position_size").
Proof.
  apply (check_limits_first_failure_wins Fixtures.risk_manager
           (Fixtures.make_opportunity 60 "yes" Fixtures.make_market)
           (Fixtures.make_exposure Settings.default 70 0) []);
    reflexivity.
Defined.

(** The scenarios of the test suite, one per limit and the allowed one. *)
Example check_limits_test_scenarios :
  let tag := fun opp exp pos =>
    RiskManager.limit_tag (RiskManager.check_limits Fixtures.risk_manager opp exp pos) in
  let opp := fun amount => Fixtures.make_opportunity amount "yes" Fixtures.make_market in
  let exposure := Fixtures.make_exposure Settings.default in
  let held :=
    {| Position.trade_id := "t1"; Position.platform := "polymarket";
       Position.market_id := "1"; Position.market_question := "Will it rain tomorrow?";
       Position.side := "yes"; Position.entry_price := 6 # 10; Position.amount := 10;
       Position.shares := 166 # 10; Position.current_value := 10;
       Position.unrealized_pnl := 0; Position.strategy := "test-strategy";
       Position.opened_at := 0%Z |} in
  tag (opp 60) (exposure 0 0) [] = Some (PStr "max_position_size") /\
  tag (opp 40) (exposure 70 0) [] = Some (PStr "max_total_exposure") /\
  tag (opp 30) (exposure 0 100) [] = Some (PStr "daily_volume") /\
  tag (opp 20) (exposure 0 0) [held] = Some (PStr "positions_per_market") /\
  RiskCheckResult.allowed
    (RiskManager.check_limits Fixtures.risk_manager (opp 20) (exposure 30 10) []) = true.
Proof. repeat split; reflexivity. Qed.

(** [max_daily_volume or max_total_exposure * 2]: every falsy argument,
    [None] or a zero, selects the default. *)
Lemma or_else_falsy (x : option Q) (d : Q) : truthy x = false -> or_else x d = d.
Proof.
  destruct x as [v|]; simpl; [|reflexivity].
  destruct (Qeq_bool v 0); [reflexivity | discriminate].
Qed.

(** C10. A manager built with max_daily_volume = 0 does not get a zero
    daily cap: the value is falsy, so the cap is 2 x max_total_exposure,
    and a trade that passes the first two checks with a positive new daily
    volume within that cap is not stopped by the daily_volume check, while
    a manager whose cap is literally zero denies it with daily_volume. *)
Theorem zero_daily_volume_not_enforced
    (max_position_size max_total_exposure : Q) (max_positions_per_market : Z)
    (opportunity : MarketOpportunity.t) (current_exposure : ExposureReport.t)
    (existing_positions : list Position.t) :
  let built :=
    RiskManager.__init__ max_position_size max_total_exposure (Some 0)
                         max_positions_per_market in
  let literal :=
    {| RiskManager.max_position_size := max_position_size;
       RiskManager.max_total_exposure := max_total_exposure;
       RiskManager.max_daily_volume := 0;
       RiskManager.max_positions_per_market := max_positions_per_market |} in
  RiskManager.max_daily_volume built = max_total_exposure * 2 /\
  (MarketOpportunity.recommended_amount opportunity <= max_position_size ->
   ExposureReport.total_exposure current_exposure
     + MarketOpportunity.recommended_amount opportunity <= max_total_exposure ->
   0 < ExposureReport.daily_traded current_exposure
       + MarketOpportunity.recommended_amount opportunity ->
   ExposureReport.daily_traded current_exposure
     + MarketOpportunity.recommended_amount opportunity <= max_total_exposure * 2 ->
   RiskManager.limit_tag
     (RiskManager.check_limits built opportunity current_exposure existing_positions)
     <> Some (PStr "daily_volume") /\
   RiskManager.limit_tag
     (RiskManager.check_limits literal opportunity current_exposure existing_positions)
     = Some (PStr "daily_volume")).
Proof.
  intros built literal. split; [reflexivity |].
  intros Hsize Htotal Hpos Hdaily. split.
  - set (held := Z.of_nat (length (List.filter (RiskManager.same_market opportunity)
                                                 existing_positions))).
    destruct (Z_lt_le_dec held max_positions_per_market) as [Hlt | Hge].
    + destruct (all_checks_pass built opportunity current_exposure existing_positions)
        as [_ Hnone]; try assumption.
      rewrite Hnone. discriminate.
    + destruct (fourth_check_fails built opportunity current_exposure existing_positions)
        as [_ Htag]; try assumption.
      rewrite Htag. discriminate.
  - apply (third_check_fails literal); assumption.
Qed.

(** With caps 50 / 100 and max_daily_volume = 0, a $20 trade on top of $10
    traded today is allowed; under a literal zero cap it is denied. *)
Lemma zero_daily_volume_not_enforced_witness :
  RiskManager.max_daily_volume (RiskManager.__init__ 50 100 (Some 0) 1) = 100 * 2 /\
  RiskCheckResult.allowed
    (RiskManager.check_limits (RiskManager.__init__ 50 100 (Some 0) 1)
       (Fixtures.make_opportunity 20 "yes" Fixtures.make_market)
       (Fixtures.make_exposure Settings.default 30 10) []) = true /\
  RiskManager.limit_tag
    (RiskManager.check_limits (RiskManager.__init__ 50 100 (Some 0) 1)
       (Fixtures.make_opportunity 20 "yes" Fixtures.make_market)
       (Fixtures.make_exposure Settings.default 30 10) [])
    <> Some (PStr "daily_volume") /\
  RiskManager.limit_tag
    (RiskManager.check_limits
       {| RiskManager.max_position_size := 50; RiskManager.max_total_exposure := 100;
          RiskManager.max_daily_volume := 0; RiskManager.max_positions_per_market := 1 |}
       (Fixtures.make_opportunity 20 "yes" Fixtures.make_market)
       (Fixtures.make_exposure Settings.default 30 10) [])
    = Some (PStr "daily_volume").
Proof.
  split; [reflexivity |]. split; [reflexivity |].
  apply (zero_daily_volume_not_enforced 50 100 1
           (Fixtures.make_opportunity 20 "yes" Fixtures.make_market)
           (Fixtures.make_exposure Settings.default 30 10) []);
    vm_compute; first [reflexivity | discriminate].
Defined.

(** ** PositionManager *)

Lemma fold_left_Qplus (l : list Q) (a : Q) :
  fold_left Qplus l a == a + fold_right Qplus 0 l.
Proof.
  revert a. induction l as [| x l IH]; intros a; simpl.
  - ring.
  - rewrite IH. ring.
Qed.

Lemma fold_right_amounts (l : list TradeDB.t) :
  fold_right Qplus 0 (List.map TradeDB.amount l) = sum_amounts l.
Proof.
  induction l as [| t l IH]; simpl; [reflexivity | now rewrite IH].
Qed.

Lemma pysum_amounts (l : list TradeDB.t) :
  pysum (List.map TradeDB.amount l) == sum_amounts l.
Proof.
  unfold pysum. rewrite fold_left_Qplus, fold_right_amounts. ring.
Qed.

Section Grouping.

Variable key : TradeDB.t -> string.

Local Abbreviation step :=
  (fun d t => PositionManager.accumulate d (key t) (TradeDB.amount t)).

Local Abbreviation group k l :=
  (List.filter (fun t => String.eqb (key t) k) l).

(** The loop [for p in positions: d[key] = d.get(key, 0) + p.amount]
    adds, under each key, the amounts of the rows that carry it. *)
Lemma accumulate_loop (k : string) (l : list TradeDB.t) (d : gmap string Q) :
  match group k l with
  | [] => fold_left step l d !! k = d !! k
  | _ :: _ =>
      exists v, fold_left step l d !! k = Some v /\
                v == default 0 (d !! k) + sum_amounts (group k l)
  end.
Proof.
  revert d. induction l as [| t l IH]; intros d; simpl; [reflexivity |].
  specialize (IH (PositionManager.accumulate d (key t) (TradeDB.amount t))).
  destruct (String.eqb_spec (key t) k) as [Heq | Hne].
  - assert (Hk : PositionManager.accumulate d (key t) (TradeDB.amount t) !! k
                 = Some (default 0 (d !! k) + TradeDB.amount t)).
    { unfold PositionManager.accumulate. rewrite Heq. apply lookup_insert_eq. }
    rewrite Hk in IH. simpl in IH.
    destruct (group k l) as [| t' l'].
    + rewrite IH. eexists; split; [reflexivity |]. simpl. ring.
    + destruct IH as [v [Hv Hsum]]. exists v; split; [exact Hv |].
      rewrite Hsum. simpl. ring.
  - assert (Hk : PositionManager.accumulate d (key t) (TradeDB.amount t) !! k = d !! k).
    { unfold PositionManager.accumulate. apply lookup_insert_ne. exact Hne. }
    rewrite Hk in IH. exact IH.
Qed.

Lemma accumulate_grouping (k : string) (l : list TradeDB.t) :
  grouping (fold_left step l ∅ !! k) (group k l).
Proof.
  pose proof (accumulate_loop k l ∅) as H.
  rewrite lookup_empty in H.
  destruct (group k l) as [| t' l'] eqn:E.
  - rewrite H. reflexivity.
  - destruct H as [v [-> Hv]]. simpl. split; [discriminate |].
    rewrite Hv. simpl. ring.
Qed.

End Grouping.

Lemma fold_left_positions {S : Type} (f : S -> Position.t -> S)
    (l : list TradeDB.t) (s : S) :
  fold_left f (List.map PositionManager.to_position l) s
  = fold_left (fun s t => f s (PositionManager.to_position t)) l s.
Proof.
  revert s. induction l as [| t l IH]; intros s; simpl; [reflexivity | apply IH].
Qed.

(** C6. For every ledger, [get_exposure] reports the sum of the amounts of
    the open trades, their number, their amounts grouped by platform and
    by strategy, and as daily volume the sum of the amounts of all trades,
    whatever their status, created since the start of the local day.  On
    the ledger of the test suite (open $100 on polymarket, open $200 on
    kalshi, a resolved $50 created yesterday) this gives 300, 2,
    {polymarket: 100, kalshi: 200} and a daily volume of 300 that leaves
    the $50 out. *)
Theorem get_exposure_aggregates :
  (forall (settings : Settings.t) (clock : Clock) (db : list TradeDB.t),
     ExposureReport.total_exposure (PositionManager.get_exposure settings clock db)
       == sum_amounts (open_trades db) /\
     ExposureReport.position_count (PositionManager.get_exposure settings clock db)
       = length (open_trades db) /\
     (forall k : string,
        grouping
          (ExposureReport.by_platform (PositionManager.get_exposure settings clock db) !! k)
          (on_platform k (open_trades db))) /\
     (forall k : string,
        grouping
          (ExposureReport.by_strategy (PositionManager.get_exposure settings clock db) !! k)
          (with_strategy k (open_trades db))) /\
     ExposureReport.daily_traded (PositionManager.get_exposure settings clock db)
       == sum_amounts (created_since (today_start clock) db)) /\
  (ExposureReport.total_exposure
     (PositionManager.get_exposure Settings.default ExposureScenario.clock
        ExposureScenario.db) = 300 /\
   ExposureReport.position_count
     (PositionManager.get_exposure Settings.default ExposureScenario.clock
        ExposureScenario.db) = 2%nat /\
   ExposureReport.by_platform
     (PositionManager.get_exposure Settings.default ExposureScenario.clock
        ExposureScenario.db) = {[ "polymarket" := 100; "kalshi" := 200 ]} /\
   ExposureReport.by_strategy
     (PositionManager.get_exposure Settings.default ExposureScenario.clock
        ExposureScenario.db) = {[ "strat-a" := 100; "strat-b" := 200 ]} /\
   ExposureReport.daily_traded
     (PositionManager.get_exposure Settings.default ExposureScenario.clock
        ExposureScenario.db) = 300 /\
   created_since (today_start ExposureScenario.clock) ExposureScenario.db
     = firstn 2 ExposureScenario.db).
Proof.
  split.
  - intros settings clock db.
    unfold PositionManager.get_exposure, PositionManager.get_positions; simpl.
    fold (open_trades db).
    repeat split.
    + rewrite List.map_map. simpl. apply pysum_amounts.
    + apply List.length_map.
    + intros k. rewrite fold_left_positions. simpl.
      apply (accumulate_grouping TradeDB.platform).
    + intros k. rewrite fold_left_positions. simpl.
      apply (accumulate_grouping TradeDB.strategy).
    + apply pysum_amounts.
  - repeat split; vm_compute; reflexivity.
Qed.

(** ** TradingEngine and PaperTrader *)

(** The price of the recommended side, as [execute_trade] selects it. *)
Local Abbreviation side_price opportunity :=
  (if String.eqb (MarketOpportunity.recommended_side opportunity) "yes"
   then Market.yes_price (MarketOpportunity.market opportunity)
   else Market.no_price (MarketOpportunity.market opportunity)).

Lemma paper_trader_invalid_price (clock : Clock) (opportunity : MarketOpportunity.t)
    (w : World) :
  PaperTrader.invalid_price (side_price opportunity) = true ->
  PaperTrader.execute_trade clock opportunity w
  = (Ok {| TradeResult.success := false;
           TradeResult.trade := None;
           TradeResult.error :=
             Some [Lit "Invalid entry price: "; Repr (side_price opportunity)];
           TradeResult.paper_trade := true |}, w).
Proof.
  unfold PaperTrader.execute_trade, PaperTrader.invalid_price.
  destruct (side_price opportunity) as [price |]; [| reflexivity].
  intros ->. reflexivity.
Qed.

(** C5. A failed execution attempt leaves the ledger (and the trade log)
    as it was: a risk denial returns a failure carrying the risk check's
    reason, a missing or non-positive price of the recommended side
    returns a failure naming the invalid price, and in both cases the
    world after the call is the world before it. *)
Theorem failed_execution_writes_nothing
    (settings : Settings.t) (self : TradingEngine.t) (clock : Clock)
    (opportunity : MarketOpportunity.t) (w : World) :
  (RiskCheckResult.allowed
     (TradingEngine.check_risk_limits settings self clock opportunity w) = false ->
   TradingEngine.execute_opportunity settings self clock opportunity false w
   = (Ok {| TradeResult.success := false;
            TradeResult.trade := None;
            TradeResult.error := Some
              (RiskCheckResult.reason
                 (TradingEngine.check_risk_limits settings self clock opportunity w));
            TradeResult.paper_trade := TradingEngine.paper_trading self |}, w)) /\
  (PaperTrader.invalid_price (side_price opportunity) = true ->
   PaperTrader.execute_trade clock opportunity w
   = (Ok {| TradeResult.success := false;
            TradeResult.trade := None;
            TradeResult.error :=
              Some [Lit "Invalid entry price: "; Repr (side_price opportunity)];
            TradeResult.paper_trade := true |}, w)) /\
  (TradingEngine.trader_of self = TradingEngine.Paper ->
   PaperTrader.invalid_price (side_price opportunity) = true ->
   forall force : bool,
   exists r : TradeResult.t,
     TradingEngine.execute_opportunity settings self clock opportunity force w
     = (Ok r, w) /\
     TradeResult.success r = false /\ TradeResult.trade r = None /\
     TradeResult.error r <> None).
Proof.
  split; [| split].
  - intros Hdenied. unfold TradingEngine.execute_opportunity.
    unfold TradingEngine.check_risk_limits in Hdenied. rewrite Hdenied. reflexivity.
  - apply paper_trader_invalid_price.
  - intros Hpaper Hprice force. unfold TradingEngine.execute_opportunity.
    destruct (negb force && negb _)%bool.
    + eexists; split; [reflexivity |]. simpl. repeat split. discriminate.
    + rewrite Hpaper. simpl. rewrite (paper_trader_invalid_price _ _ _ Hprice).
      eexists; split; [reflexivity |]. simpl. repeat split. discriminate.
Qed.

(** A $60 opportunity against the $50 cap, and an opportunity on a market
    whose YES side has no price: both fail and the empty ledger stays
    empty. *)
Lemma failed_execution_writes_nothing_witness :
  (exists r,
     TradingEngine.execute_opportunity Settings.default EngineScenario.engine
       ExposureScenario.clock
       (Fixtures.make_opportunity 60 "yes" Fixtures.make_market) false
       EngineScenario.empty = (Ok r, EngineScenario.empty) /\
     TradeResult.success r = false /\
     TradeResult.error r
     = Some [Lit "Trade amount $"; Fixed 2 60;
             Lit " exceeds max position size $"; Fixed 2 50]) /\
  (exists r,
     PaperTrader.execute_trade ExposureScenario.clock
       (Fixtures.make_opportunity 10 "yes" EngineScenario.unpriced_market)
       EngineScenario.empty = (Ok r, EngineScenario.empty) /\
     TradeResult.success r = false /\
     TradeResult.error r = Some [Lit "Invalid entry price: "; Repr None]).
Proof.
  split.
  - eexists. split.
    + apply (failed_execution_writes_nothing Settings.default EngineScenario.engine
               ExposureScenario.clock
               (Fixtures.make_opportunity 60 "yes" Fixtures.make_market)
               EngineScenario.empty).
      reflexivity.
    + split; reflexivity.
  - eexists. split.
    + apply (failed_execution_writes_nothing Settings.default EngineScenario.engine
               ExposureScenario.clock
               (Fixtures.make_opportunity 10 "yes" EngineScenario.unpriced_market)
               EngineScenario.empty).
      reflexivity.
    + split; reflexivity.
Defined.

(** ** Rounding *)

Lemma round_half_even_close (q : Q) :
  Qabs (inject_Z (round_half_even q) - q) <= 1 # 2.
Proof.
  unfold round_half_even.
  pose proof (Qfloor_le q) as Hlo.
  pose proof (Qlt_floor q) as Hhi.
  rewrite inject_Z_plus in Hhi.
  change (inject_Z 1) with 1 in Hhi.
  apply Qabs_Qle_condition.
  destruct (Qcompare (q - inject_Z (Qfloor q)) (1 # 2)) eqn:E.
  - apply Qeq_alt in E.
    destruct (Z.even (Qfloor q)).
    + split; lra.
    + rewrite inject_Z_plus. change (inject_Z 1) with 1. split; lra.
  - apply Qlt_alt in E. split; lra.
  - apply Qgt_alt in E. rewrite inject_Z_plus. change (inject_Z 1) with 1.
    split; lra.
Qed.

(** [round(x, 2)] is a multiple of 0.01 at distance at most 0.005 of [x]. *)
Lemma round2_spec (x : Q) :
  (exists n : Z, round2 x == n # 100) /\ Qabs (round2 x - x) <= 1 # 200.
Proof.
  unfold round2. split.
  - exists (round_half_even (x * 100)). apply Qred_correct.
  - rewrite Qred_correct.
    pose proof (round_half_even_close (x * 100)) as H.
    apply Qabs_Qle_condition in H. apply Qabs_Qle_condition.
    set (n := round_half_even (x * 100)) in *.
    assert (Hn : n # 100 == inject_Z n * (1 # 100)).
    { unfold Qeq. simpl. lia. }
    rewrite Hn. split; lra.
Qed.

(** ** ResolutionAnalyzer: closing line value *)

Lemma pydiv_ok (x y : Q) : ~ y == 0 -> pydiv x y = Ok (x / y).
Proof.
  intros H. unfold pydiv.
  destruct (Qeq_bool y 0) eqn:E; [| reflexivity].
  apply Qeq_bool_iff in E. contradiction.
Qed.

Lemma valid_entry_price (t : Trade.t) :
  Trade.valid t -> ~ Trade.entry_price t == 0 /\ ~ 1 - Trade.entry_price t == 0.
Proof.
  intros (Hlo & Hhi & _). split; intros H; lra.
Qed.

(** C3. The CLV is None whenever the trade has no closing price; for a
    valid trade with closing price c and entry price e it is
    round(((c - e) / e) * 100, 2) on the YES side and
    round((((1 - e) - c) / (1 - e)) * 100, 2) on the NO side, where the
    rounding yields a multiple of 0.01 within 0.005 of its argument.  A
    YES trade entered at 0.40 and closed at 0.60 has CLV 50.0; a NO trade
    entered at 0.40 with closing YES price 0.50 has CLV 16.67. *)
Theorem calculate_clv_formula :
  (forall t : Trade.t,
     Trade.closing_price t = None -> ResolutionAnalyzer._calculate_clv t = Ok None) /\
  (forall (t : Trade.t) (c : Q),
     Trade.valid t -> Trade.closing_price t = Some c -> Trade.side t = YES ->
     ResolutionAnalyzer._calculate_clv t
     = Ok (Some (round2 ((c - Trade.entry_price t) / Trade.entry_price t * 100)))) /\
  (forall (t : Trade.t) (c : Q),
     Trade.valid t -> Trade.closing_price t = Some c -> Trade.side t = NO ->
     ResolutionAnalyzer._calculate_clv t
     = Ok (Some (round2 ((1 - Trade.entry_price t - c)
                         / (1 - Trade.entry_price t) * 100)))) /\
  (forall x : Q,
     (exists n : Z, round2 x == n # 100) /\ Qabs (round2 x - x) <= 1 # 200) /\
  ResolutionAnalyzer._calculate_clv
    (ClvScenario.resolved YES RESOLVED_WIN (4 # 10) (Some (6 # 10))) = Ok (Some 50) /\
  ResolutionAnalyzer._calculate_clv
    (ClvScenario.resolved NO RESOLVED_WIN (4 # 10) (Some (5 # 10)))
  = Ok (Some (1667 # 100)).
Proof.
  split; [| split; [| split; [| split; [| split]]]].
  - intros t H. unfold ResolutionAnalyzer._calculate_clv. rewrite H. reflexivity.
  - intros t c Hv Hc Hs. destruct (valid_entry_price t Hv) as [He _].
    unfold ResolutionAnalyzer._calculate_clv. rewrite Hc, Hs.
    rewrite (pydiv_ok _ _ He). reflexivity.
  - intros t c Hv Hc Hs. destruct (valid_entry_price t Hv) as [_ He].
    unfold ResolutionAnalyzer._calculate_clv. rewrite Hc, Hs.
    rewrite (pydiv_ok _ _ He). reflexivity.
  - exact round2_spec.
  - vm_compute. reflexivity.
  - vm_compute. reflexivity.
Qed.

(** The YES example obtained from the general formula. *)
Lemma calculate_clv_formula_witness :
  ResolutionAnalyzer._calculate_clv
    (ClvScenario.resolved YES RESOLVED_WIN (4 # 10) (Some (6 # 10)))
  = Ok (Some (round2 (((6 # 10) - (4 # 10)) / (4 # 10) * 100))) /\
  round2 (((6 # 10) - (4 # 10)) / (4 # 10) * 100) = 50.
Proof.
  split; [| vm_compute; reflexivity].
  apply (proj1 (proj2 calculate_clv_formula)
           (ClvScenario.resolved YES RESOLVED_WIN (4 # 10) (Some (6 # 10)))
           (6 # 10)).
  - vm_compute. repeat split; discriminate.
  - reflexivity.
  - reflexivity.
Defined.

(** ** Closing line value in the resolution script *)

(** C4 (evaluation at the failing input). For a YES trade entered at 0.40
    whose market closes at 0.60 the resolution script stores the raw
    difference 0.20 while the analyzer computes the percentage 50.0: the
    two differ by far more than the analyzer's rounding. *)
Theorem clv_formulas_diverge :
  fst (check_resolutions.calculate_clv (ClvScenario.row "yes" (4 # 10)) (6 # 10))
    == 2 # 10 /\
  ResolutionAnalyzer._calculate_clv
    (ClvScenario.resolved YES RESOLVED_WIN (4 # 10) (Some (6 # 10))) = Ok (Some 50) /\
  ~ Qabs (fst (check_resolutions.calculate_clv (ClvScenario.row "yes" (4 # 10)) (6 # 10))
          - 50) <= 1 # 200.
Proof.
  split; [| split].
  - vm_compute. reflexivity.
  - vm_compute. reflexivity.
  - vm_compute. intros H. apply H. reflexivity.
Qed.

(** ** ResolutionAnalyzer: lessons *)

Lemma identify_positives_nonempty (t : Trade.t) (won : bool) (clv : option Q) :
  ResolutionAnalyzer._identify_positives t won clv <> [].
Proof.
  unfold ResolutionAnalyzer._identify_positives.
  match goal with
  | |- match ?l with [] => _ | _ :: _ => _ end <> [] => destruct l
  end; discriminate.
Qed.

Lemma suggest_trade_improvements_nonempty (t : Trade.t) (won : bool)
    (clv : option Q) (negatives : list fstring) :
  ResolutionAnalyzer._suggest_trade_improvements t won clv negatives <> [].
Proof.
  unfold ResolutionAnalyzer._suggest_trade_improvements.
  match goal with
  | |- match ?l with [] => _ | _ :: _ => _ end <> [] => destruct l
  end; discriminate.
Qed.

Lemma append_if_nil {A : Type} (c : bool) (x : A) (xs l : list A) :
  append_if c (x :: xs) l = [] <-> l = [] /\ c = false.
Proof.
  unfold append_if. destruct c.
  - split; [| intros [_ H]; discriminate].
    intros H. apply app_eq_nil in H. destruct H as [_ H]. discriminate.
  - tauto.
Qed.

(** No negative rule fires exactly for a won trade of at most $50 whose
    CLV is absent or not negative. *)
Lemma identify_negatives_nil (t : Trade.t) (won : bool) (clv : option Q) :
  ResolutionAnalyzer._identify_negatives t won clv = [] <->
  won = true /\ Trade.amount t <= 50 /\ (forall c, clv = Some c -> 0 <= c).
Proof.
  unfold ResolutionAnalyzer._identify_negatives.
  assert (Hcat : forall l : list fstring,
            match Trade.market_category t with
            | Some category =>
              append_if ((String.eqb category "politics" || String.eqb category "crypto")
                         && some_and (fun c => Qltb c (-5)) clv)
                [[Lit "Underperformed in "; Str category;
                  Lit " - high volatility category"]] l
            | None => l
            end = [] -> l = []).
  { intros l. destruct (Trade.market_category t); [| tauto].
    rewrite append_if_nil. tauto. }
  split.
  - intros H. apply Hcat in H.
    apply append_if_nil in H. destruct H as [H Hsize].
    apply append_if_nil in H. destruct H as [H _].
    destruct won; simpl in H.
    + split; [reflexivity |]. split; [apply Qgtb_false; exact Hsize |].
      intros c ->. destruct (Qltb c 0) eqn:E.
      * unfold append_if in H. destruct (Qltb c (-10)); discriminate.
      * apply Qltb_false. exact E.
    + exfalso. destruct (Qgtb (Trade.entry_price t) (7 # 10));
        [| destruct (Qltb (Trade.entry_price t) (3 # 10))];
        apply app_eq_nil in H; destruct H as [_ H];
        try discriminate;
        apply app_eq_nil in H; destruct H as [_ H]; discriminate.
  - intros (-> & Hsize & Hclv).
    apply Qgtb_false in Hsize. rewrite Hsize.
    assert (Hneg : some_and (fun c => Qltb c 0) clv = false).
    { destruct clv as [c |]; [| reflexivity]. simpl. apply Qltb_false. auto. }
    assert (Hfive : some_and (fun c => Qltb c (-5)) clv = false).
    { destruct clv as [c |]; [| reflexivity]. simpl. apply Qltb_false.
      specialize (Hclv c eq_refl). lra. }
    rewrite Hneg, Hfive.
    destruct (Trade.market_category t); rewrite ?andb_false_r;
      destruct clv as [c |]; simpl in *; rewrite ?Hneg; reflexivity.
Qed.

Lemma calculate_clv_total (t : Trade.t) :
  Trade.valid t -> exists clv, ResolutionAnalyzer._calculate_clv t = Ok clv.
Proof.
  intros Hv. destruct (valid_entry_price t Hv) as [Hyes Hno].
  unfold ResolutionAnalyzer._calculate_clv.
  destruct (Trade.closing_price t) as [c |]; [| eexists; reflexivity].
  destruct (Trade.side t);
    [rewrite (pydiv_ok _ _ Hyes) | rewrite (pydiv_ok _ _ Hno)];
    eexists; reflexivity.
Qed.

Lemma calculate_pnl_total (t : Trade.t) (won : bool) :
  Trade.valid t -> exists pnl, ResolutionAnalyzer._calculate_pnl t won = Ok pnl.
Proof.
  intros Hv. destruct (valid_entry_price t Hv) as [Hyes _].
  unfold ResolutionAnalyzer._calculate_pnl.
  destruct won; [rewrite (pydiv_ok _ _ Hyes) |]; eexists; reflexivity.
Qed.

Lemma In_append_if {A : Type} (c : bool) (xs l : list A) (x : A) :
  In x l -> In x (append_if c xs l).
Proof.
  intros H. unfold append_if. destruct c; [apply in_or_app; left |]; exact H.
Qed.

Lemma In_append_if_inv {A : Type} (c : bool) (xs l : list A) (x : A) :
  List.In x (append_if c xs l) -> List.In x l \/ (c = true /\ List.In x xs).
Proof.
  unfold append_if. destruct c; [| now left].
  intros H. apply List.in_app_or in H. destruct H; [now left | right; now split].
Qed.

Lemma In_append_if_here {A : Type} (c : bool) (xs l : list A) (x : A) :
  c = true -> List.In x xs -> List.In x (append_if c xs l).
Proof.
  intros -> H. unfold append_if. apply List.in_or_app. now right.
Qed.

Lemma Qeq_bool_nonzero (c : Q) : ~ c == 0 -> Qeq_bool c 0 = false.
Proof.
  intros H. destruct (Qeq_bool c 0) eqn:E; [| reflexivity].
  apply Qeq_bool_iff in E. contradiction.
Qed.

(** The list of a lesson function after its last step: the lines of the
    rules when there are some, the placeholder otherwise. *)
Lemma with_placeholder_lessons (rule : fstring -> Prop) (placeholder : fstring)
    (raw : list fstring) :
  (forall line, List.In line raw <-> rule line) ->
  ~ rule placeholder ->
  lessons_with_placeholder rule placeholder
    (match raw with [] => [placeholder] | _ :: _ => raw end).
Proof.
  intros Hraw Hplaceholder. unfold lessons_with_placeholder.
  destruct raw as [| x r].
  - assert (Hnone : forall l, ~ rule l).
    { intros l Hl. apply Hraw in Hl. destruct Hl. }
    split; [discriminate |]. split; [| split].
    + intros line. split.
      * intros [<- | []]. right. split; [reflexivity | exact Hnone].
      * intros [Hl | [-> _]]; [destruct (Hnone _ Hl) | now left].
    + reflexivity.
    + intros [l Hl]. destruct (Hnone _ Hl).
  - assert (Hx : rule x) by (apply Hraw; now left).
    split; [discriminate |]. split; [| split].
    + intros line. split.
      * intros Hin. left. apply Hraw. exact Hin.
      * intros [Hl | [_ Hnone]]; [apply Hraw; exact Hl | destruct (Hnone _ Hx)].
    + intros Hnone. destruct (Hnone _ Hx).
    + intros _ Hin. apply Hplaceholder. apply Hraw. exact Hin.
Qed.

(** Reading the conditions of the source as propositions. *)
Ltac bool_props :=
  repeat match goal with
         | H : _ && _ = true |- _ =>
           apply andb_true_iff in H; destruct H
         | H : Qgtb _ _ = true |- _ => apply Qgtb_true in H
         | H : Qgtb _ _ = false |- _ => apply Qgtb_false in H
         | H : Qltb _ _ = true |- _ => apply Qltb_true in H
         | H : Qltb _ _ = false |- _ => apply Qltb_false in H
         | H : String.eqb _ _ = true |- _ => apply String.eqb_eq in H
         | H : negb _ = true |- _ => apply negb_true_iff in H
         | H : (_ <? _)%Z = true |- _ => apply Z.ltb_lt in H
         | H : truthy_and _ _ = true |- _ =>
           unfold truthy_and, truthy, some_and in H
         | H : Some _ = Some _ |- _ => injection H as H; subst
         | H : None = Some _ |- _ => discriminate H
         | H : false = true |- _ => discriminate H
         end.

(** Taking a membership in a list built by the rules apart, keeping the
    condition of the rule the line came from. *)
Ltac which_rule H :=
  repeat match type of H with
         | List.In _ (append_if _ _ _) =>
           let Hc := fresh "Hc" in
           apply In_append_if_inv in H; destruct H as [H | [Hc H]]
         | List.In _ (if ?c then _ else _) =>
           let E := fresh "E" in destruct c eqn:E
         | List.In _ (_ ++ _)%list =>
           apply List.in_app_or in H; destruct H as [H | H]
         | List.In _ (_ :: _) => destruct H as [H | H]
         | List.In _ [] => destruct H
         end.

Ltac rule_applies :=
  solve [econstructor; solve [reflexivity | eassumption | lra | lia]].

Ltac condition_holds :=
  unfold truthy_and;
  repeat (apply andb_true_iff; split);
  unfold truthy, some_and;
  first [ reflexivity
        | assumption
        | apply Qgtb_true; lra
        | apply Qltb_true; lra
        | apply String.eqb_eq; assumption
        | apply Z.ltb_lt; assumption
        | apply negb_true_iff, Qeq_bool_nonzero; lra ].

(** Finding the line of a rule whose condition holds in the list. *)
Ltac find_line :=
  cbv beta iota;
  lazymatch goal with
  | |- List.In _ (match ?o with Some _ => _ | None => _ end) =>
    destruct o; find_line
  | |- List.In _ (append_if _ _ _) =>
    first [ apply In_append_if_here;
            [ solve [condition_holds] | solve [cbn; auto 10] ]
          | apply In_append_if; find_line ]
  | |- List.In _ (if ?c then _ else _) =>
    let E := fresh "E" in
    destruct c eqn:E;
    try (exfalso; bool_props; solve [lra | congruence]);
    find_line
  | |- List.In _ (_ ++ _)%list =>
    apply List.in_or_app;
    first [ right; solve [cbn; auto 10] | left; find_line ]
  end.

Lemma identify_positives_lessons (t : Trade.t) (won : bool) (clv : option Q) :
  lessons_with_placeholder (positive_rule t won clv)
    [Lit "No clear positives identified - review needed"]
    (ResolutionAnalyzer._identify_positives t won clv).
Proof.
  unfold ResolutionAnalyzer._identify_positives. cbv zeta.
  apply with_placeholder_lessons; [| intros H; inversion H].
  intros line. split.
  - intros H.
    destruct clv as [c |];
      destruct (Trade.closing_price t) as [closing |] eqn:Eclosing;
      which_rule H; subst line; bool_props; rule_applies.
  - intros H.
    destruct H; subst;
      repeat match goal with
             | H : Trade.closing_price _ = Some _ |- _ => rewrite H
             | H : Trade.strategy _ = _ |- _ => rewrite H
             end;
      find_line.
Qed.

Lemma suggest_trade_improvements_lessons (t : Trade.t) (won : bool)
    (clv : option Q) (negatives : list fstring) :
  lessons_with_placeholder (suggestion_rule t won clv)
    [Lit "Continue current approach - this was a reasonable trade"]
    (ResolutionAnalyzer._suggest_trade_improvements t won clv negatives).
Proof.
  unfold ResolutionAnalyzer._suggest_trade_improvements. cbv zeta.
  apply with_placeholder_lessons; [| intros H; inversion H].
  intros line. split.
  - intros H.
    destruct clv as [c |];
      destruct (Trade.market_end_date t) as [market_end_date |] eqn:Eend;
      which_rule H; subst line; bool_props; rule_applies.
  - intros H.
    destruct H; subst;
      repeat match goal with
             | H : Trade.market_end_date _ = Some _ |- _ => rewrite H
             | H : Trade.strategy _ = _ |- _ => rewrite H
             end;
      find_line.
Qed.

(** C8 (as the code has it). For every valid resolved trade the analysis
    is produced and its what_went_right and suggested_improvements lists
    are never empty.  Each holds the lines of its rules that fire and
    nothing else; when no rule fires it is the single placeholder line,
    and the placeholder never stands beside the line of a rule. *)
Theorem lessons_placeholders (t : Trade.t) :
  Trade.valid t ->
  ResolutionAnalyzer.is_resolved (Trade.status t) = true ->
  exists a : TradeAnalysis.t,
    ResolutionAnalyzer.analyze_resolved_trade t = Ok a /\
    (TradeAnalysis.won a = true <-> Trade.status t = RESOLVED_WIN) /\
    TradeAnalysis.what_went_right a <> [] /\
    TradeAnalysis.suggested_improvements a <> [] /\
    lessons_with_placeholder
      (positive_rule t (TradeAnalysis.won a) (TradeAnalysis.clv a))
      [Lit "No clear positives identified - review needed"]
      (TradeAnalysis.what_went_right a) /\
    lessons_with_placeholder
      (suggestion_rule t (TradeAnalysis.won a) (TradeAnalysis.clv a))
      [Lit "Continue current approach - this was a reasonable trade"]
      (TradeAnalysis.suggested_improvements a).
Proof.
  intros Hv Hres.
  destruct (calculate_clv_total t Hv) as [clv Hclv].
  destruct (calculate_pnl_total t (TradeStatus_eqb (Trade.status t) RESOLVED_WIN) Hv)
    as [pnl0 Hpnl].
  unfold ResolutionAnalyzer.analyze_resolved_trade.
  rewrite Hres, Hpnl, Hclv. simpl negb. cbv iota.
  assert (Hamount : Qgtb (Trade.amount t) 0 = true).
  { apply Qgtb_true. destruct Hv as (_ & _ & H). exact H. }
  assert (Hne : ~ Trade.amount t == 0).
  { destruct Hv as (_ & _ & H). intros E. lra. }
  assert (Hwon : TradeStatus_eqb (Trade.status t) RESOLVED_WIN = true
                 <-> Trade.status t = RESOLVED_WIN).
  { destruct (Trade.status t); cbn; split; congruence. }
  rewrite Hamount.
  destruct (Trade.pnl t) as [stored |]; [destruct (Qeq_bool stored 0) |];
    simpl; rewrite (pydiv_ok _ _ Hne); simpl;
    (eexists; split; [reflexivity |]; simpl;
     split; [exact Hwon |];
     split; [apply identify_positives_nonempty |];
     split; [apply suggest_trade_improvements_nonempty |];
     split; [apply identify_positives_lessons
            | apply suggest_trade_improvements_lessons]).
Qed.

(** A lost $10 trade entered at 0.60 without a closing price: no rule
    fires for either list, and each is its placeholder line alone. *)
Lemma lessons_placeholders_witness :
  exists a : TradeAnalysis.t,
    ResolutionAnalyzer.analyze_resolved_trade
      (ClvScenario.resolved YES RESOLVED_LOSS (6 # 10) None) = Ok a /\
    TradeAnalysis.what_went_right a
    = [[Lit "No clear positives identified - review needed"]] /\
    TradeAnalysis.suggested_improvements a
    = [[Lit "Continue current approach - this was a reasonable trade"]].
Proof.
  destruct (lessons_placeholders
              (ClvScenario.resolved YES RESOLVED_LOSS (6 # 10) None))
    as (a & Ha & _ & _ & _ & (_ & _ & Hright & _) & (_ & _ & Hsuggest & _)).
  - vm_compute. repeat split; discriminate.
  - reflexivity.
  - exists a. split; [exact Ha |].
    vm_compute in Ha. injection Ha as <-.
    split; [apply Hright | apply Hsuggest];
      intros l Hrule; inversion Hrule; subst;
      repeat match goal with
             | H : _ = _ |- _ => discriminate H
             | H : _ < _ |- _ => vm_compute in H; discriminate H
             end.
Defined.

(** C8 (counterexample). A won $10 trade with no closing price is
    analysed with an empty what_went_wrong list. *)
Lemma what_went_wrong_can_be_empty :
  exists a : TradeAnalysis.t,
    ResolutionAnalyzer.analyze_resolved_trade
      (ClvScenario.resolved YES RESOLVED_WIN (6 # 10) None) = Ok a /\
    TradeAnalysis.what_went_wrong a = [] /\
    ~ (TradeAnalysis.what_went_right a <> [] /\
       TradeAnalysis.what_went_wrong a <> [] /\
       TradeAnalysis.suggested_improvements a <> []).
Proof.
  eexists. split; [vm_compute; reflexivity |].
  split; [reflexivity |]. simpl. intros (_ & H & _). apply H. reflexivity.
Qed.

(** ** StrategyEvaluator: maximum drawdown *)

Section SortedByKey.

Context {A : Type} (key : A -> Z).

Local Abbreviation key_le := (fun a b : A => (key a <= key b)%Z).

Lemma insert_by_permutation (x : A) (l : list A) :
  Permutation (insert_by key x l) (x :: l).
Proof.
  induction l as [| y l IH]; simpl; [reflexivity |].
  destruct (key y <? key x)%Z; [| reflexivity].
  rewrite IH. apply perm_swap.
Qed.

Lemma sorted_permutation (l : list A) : Permutation (sorted key l) l.
Proof.
  induction l as [| x l IH]; simpl; [reflexivity |].
  rewrite insert_by_permutation. now apply perm_skip.
Qed.

Lemma insert_by_sorted (x : A) (l : list A) :
  StronglySorted key_le l -> StronglySorted key_le (insert_by key x l).
Proof.
  induction 1 as [| y l Hsorted IH Hall]; simpl.
  - constructor; constructor.
  - destruct (Z.ltb_spec (key y) (key x)) as [Hlt | Hge].
    + constructor; [exact IH |].
      apply (Permutation_Forall (Permutation_sym (insert_by_permutation x l))).
      constructor; [lia | exact Hall].
    + constructor; [constructor; assumption |].
      constructor; [exact Hge |].
      eapply List.Forall_impl; [| exact Hall]. simpl. intros a Ha. lia.
Qed.

Lemma sorted_is_sorted (l : list A) : StronglySorted key_le (sorted key l).
Proof.
  induction l as [| x l IH]; simpl; [constructor | now apply insert_by_sorted].
Qed.

End SortedByKey.

Lemma pysum_snoc (l : list Q) (p : Q) : pysum (l ++ [p]) = pysum l + p.
Proof. unfold pysum. rewrite fold_left_app. reflexivity. Qed.

Lemma running_total_prefix (k : nat) (l r : list Q) :
  (k <= length l)%nat -> running_total k (l ++ r) = running_total k l.
Proof.
  intros H. unfold running_total. rewrite firstn_app.
  replace (k - length l)%nat with 0%nat by lia.
  simpl. now rewrite app_nil_r.
Qed.

Lemma running_total_all (l : list Q) : running_total (length l) l = pysum l.
Proof. unfold running_total. now rewrite firstn_all. Qed.

Local Abbreviation drawdown_init :=
  {| StrategyEvaluator.cumulative_pnl := 0;
     StrategyEvaluator.peak := 0;
     StrategyEvaluator.max_dd := 0 |}.

(** The loop keeps the running total, the highest running total so far
    (the empty prefix included) and the largest gap between a running
    total and a later one. *)
Lemma drawdown_invariant (pnls : list Q) :
  StrategyEvaluator.cumulative_pnl
    (fold_left StrategyEvaluator.drawdown_step pnls drawdown_init) = pysum pnls /\
  (forall j, (j <= length pnls)%nat ->
     running_total j pnls
     <= StrategyEvaluator.peak
          (fold_left StrategyEvaluator.drawdown_step pnls drawdown_init)) /\
  (exists j, (j <= length pnls)%nat /\
     StrategyEvaluator.peak
       (fold_left StrategyEvaluator.drawdown_step pnls drawdown_init)
     == running_total j pnls) /\
  (forall j k, (j <= k <= length pnls)%nat ->
     running_total j pnls - running_total k pnls
     <= StrategyEvaluator.max_dd
          (fold_left StrategyEvaluator.drawdown_step pnls drawdown_init)) /\
  (exists j k, (j <= k <= length pnls)%nat /\
     StrategyEvaluator.max_dd
       (fold_left StrategyEvaluator.drawdown_step pnls drawdown_init)
     == running_total j pnls - running_total k pnls).
Proof.
  induction pnls as [| p l IH] using rev_ind.
  - simpl. split; [reflexivity |].
    split; [intros j Hj; replace j with 0%nat by lia; apply Qle_refl |].
    split; [exists 0%nat; split; [lia | reflexivity] |].
    split.
    + intros j k Hjk. replace j with 0%nat by lia. replace k with 0%nat by lia.
      unfold running_total, pysum. simpl. lra.
    + exists 0%nat, 0%nat. split; [lia |]. unfold running_total, pysum. simpl. lra.
  - rewrite fold_left_app. simpl fold_left.
    set (s := fold_left StrategyEvaluator.drawdown_step l drawdown_init) in *.
    destruct IH as (Hcum & Hpeak & (jp & Hjp & Hpeak_at) & Hdd & (jd & kd & Hjkd & Hdd_at)).
    rewrite length_app. simpl length.
    assert (Hlast : running_total (length l + 1) (l ++ [p])
                    = StrategyEvaluator.cumulative_pnl s + p).
    { replace (length l + 1)%nat with (length (l ++ [p]))
        by (rewrite length_app; reflexivity).
      rewrite running_total_all, pysum_snoc, Hcum. reflexivity. }
    unfold StrategyEvaluator.drawdown_step. simpl.
    set (c := StrategyEvaluator.cumulative_pnl s + p) in *.
    set (pk := if Qgtb c (StrategyEvaluator.peak s) then c
               else StrategyEvaluator.peak s).
    assert (Hpk : StrategyEvaluator.peak s <= pk /\ c <= pk).
    { unfold pk. destruct (Qgtb c (StrategyEvaluator.peak s)) eqn:E.
      - apply Qgtb_true in E. split; lra.
      - apply Qgtb_false in E. split; lra. }
    assert (Hpk_at : exists j, (j <= length l + 1)%nat /\
                               pk == running_total j (l ++ [p])).
    { unfold pk. destruct (Qgtb c (StrategyEvaluator.peak s)).
      - exists (length l + 1)%nat. split; [lia |]. rewrite Hlast. reflexivity.
      - exists jp. split; [lia |].
        rewrite running_total_prefix by exact Hjp. exact Hpeak_at. }
    assert (Hbelow : forall j, (j <= length l + 1)%nat ->
                               running_total j (l ++ [p]) <= pk).
    { intros j Hj. destruct (Nat.eq_dec j (length l + 1)%nat) as [-> | Hne].
      - rewrite Hlast. apply Hpk.
      - rewrite running_total_prefix by lia.
        apply Qle_trans with (StrategyEvaluator.peak s); [apply Hpeak; lia | apply Hpk]. }
    set (m := if Qgtb (pk - c) (StrategyEvaluator.max_dd s) then pk - c
              else StrategyEvaluator.max_dd s).
    assert (Hm : StrategyEvaluator.max_dd s <= m /\ pk - c <= m).
    { unfold m. destruct (Qgtb (pk - c) (StrategyEvaluator.max_dd s)) eqn:E.
      - apply Qgtb_true in E. split; lra.
      - apply Qgtb_false in E. split; lra. }
    split; [rewrite pysum_snoc, <- Hcum; reflexivity |].
    split; [exact Hbelow |].
    split; [exact Hpk_at |].
    split.
    + intros j k Hjk. destruct (Nat.eq_dec k (length l + 1)%nat) as [-> | Hne].
      * rewrite Hlast. fold c. specialize (Hbelow j ltac:(lia)). lra.
      * rewrite !running_total_prefix by lia.
        specialize (Hdd j k ltac:(lia)). lra.
    + unfold m. destruct (Qgtb (pk - c) (StrategyEvaluator.max_dd s)).
      * destruct Hpk_at as (j & Hj & Hat).
        exists j, (length l + 1)%nat. split; [lia |].
        rewrite Hlast. fold c. rewrite Hat. reflexivity.
      * exists jd, kd. split; [lia |].
        rewrite !running_total_prefix by lia. exact Hdd_at.
Qed.

Lemma calculate_max_drawdown_loop (trades : list Trade.t) :
  StrategyEvaluator._calculate_max_drawdown trades
  = StrategyEvaluator.max_dd
      (fold_left StrategyEvaluator.drawdown_step
         (List.map StrategyEvaluator.pnl_or_0
            (sorted StrategyEvaluator.resolution_key trades))
         drawdown_init).
Proof. destruct trades; reflexivity. Qed.

(** C2 (as the code computes it). The trades are put in the order of
    their resolution date, the creation date standing in for a missing
    one; over the PnLs in that order the result is the largest amount by
    which a running total exceeds a later running total, the empty prefix
    included: it bounds every such gap and is one of them.  On the PnL
    sequence +10, +5, -20, +3 the running peak is 15, the trough after it
    is -5, and the result is 20. *)
Theorem max_drawdown_largest_gap :
  (forall trades : list Trade.t,
     Permutation (sorted StrategyEvaluator.resolution_key trades) trades /\
     StronglySorted
       (fun a b => (StrategyEvaluator.resolution_key a
                    <= StrategyEvaluator.resolution_key b)%Z)
       (sorted StrategyEvaluator.resolution_key trades) /\
     (forall j k, (j <= k <= length trades)%nat ->
        running_total j
          (List.map StrategyEvaluator.pnl_or_0
             (sorted StrategyEvaluator.resolution_key trades))
        - running_total k
            (List.map StrategyEvaluator.pnl_or_0
               (sorted StrategyEvaluator.resolution_key trades))
        <= StrategyEvaluator._calculate_max_drawdown trades) /\
     (exists j k, (j <= k <= length trades)%nat /\
        StrategyEvaluator._calculate_max_drawdown trades
        == running_total j
             (List.map StrategyEvaluator.pnl_or_0
                (sorted StrategyEvaluator.resolution_key trades))
           - running_total k
               (List.map StrategyEvaluator.pnl_or_0
                  (sorted StrategyEvaluator.resolution_key trades)))) /\
  List.map StrategyEvaluator.pnl_or_0
    (sorted StrategyEvaluator.resolution_key DrawdownScenario.trades)
  = [10; 5; -20; 3] /\
  StrategyEvaluator.peak
    (fold_left StrategyEvaluator.drawdown_step [10; 5; -20; 3] drawdown_init) = 15 /\
  StrategyEvaluator._calculate_max_drawdown DrawdownScenario.trades = 20.
Proof.
  split; [| repeat split; vm_compute; reflexivity].
  intros trades.
  split; [apply sorted_permutation |].
  split; [apply (sorted_is_sorted StrategyEvaluator.resolution_key) |].
  rewrite calculate_max_drawdown_loop.
  set (pnls := List.map StrategyEvaluator.pnl_or_0
                 (sorted StrategyEvaluator.resolution_key trades)).
  assert (Hlen : length pnls = length trades).
  { unfold pnls. rewrite List.length_map.
    apply Permutation_length, sorted_permutation. }
  destruct (drawdown_invariant pnls) as (_ & _ & _ & Hbound & Hattained).
  rewrite Hlen in Hbound, Hattained.
  split; assumption.
Qed.

(** C2 (counterexample). On the PnL sequence +10, +5, -20, +3 the code
    does not return 35. *)
Lemma max_drawdown_is_not_35 :
  List.map StrategyEvaluator.pnl_or_0
    (sorted StrategyEvaluator.resolution_key DrawdownScenario.trades)
  = [10; 5; -20; 3] /\
  ~ StrategyEvaluator._calculate_max_drawdown DrawdownScenario.trades == 35.
Proof.
  split; [vm_compute; reflexivity |].
  vm_compute. discriminate.
Qed.

(** The bound and its reading on the example: the gap between the running
    total after two trades (15) and after three (-5) is within the result. *)
Lemma max_drawdown_largest_gap_witness :
  running_total 2 [10; 5; -20; 3] - running_total 3 [10; 5; -20; 3]
  <= StrategyEvaluator._calculate_max_drawdown DrawdownScenario.trades.
Proof.
  apply (proj1 (proj2 (proj2 (proj1 max_drawdown_largest_gap DrawdownScenario.trades)))
           2%nat 3%nat).
  simpl. lia.
Defined.

(** ** StrategyEvaluator: guarded divisions *)

Lemma Qlen_nonzero {A : Type} (x : A) (l : list A) : ~ Qlen (x :: l) == 0.
Proof.
  unfold Qlen, Qeq. simpl. lia.
Qed.

Lemma Qgtb_nonzero (x : Q) : Qgtb x 0 = true -> ~ x == 0.
Proof. intros H E. apply Qgtb_true in H. lra. Qed.

Lemma map_result_total {A B : Type} (f : A -> result B) (xs : list A) :
  (forall x, exists y, f x = Ok y) -> exists ys, map_result f xs = Ok ys.
Proof.
  intros Hf. induction xs as [| x xs [ys IH]]; simpl.
  - eexists; reflexivity.
  - destruct (Hf x) as [y ->]. simpl. rewrite IH. simpl. eexists; reflexivity.
Qed.

Lemma guarded_roi_total (total_pnl total_wagered : Q) :
  exists roi,
    (if Qgtb total_wagered 0
     then r <-? pydiv total_pnl total_wagered ; Ok (r * 100)
     else Ok 0) = Ok roi.
Proof.
  destruct (Qgtb total_wagered 0) eqn:E; [| eexists; reflexivity].
  rewrite (pydiv_ok _ _ (Qgtb_nonzero _ E)). eexists; reflexivity.
Qed.

Lemma guarded_mean_total (values : list Q) :
  exists m,
    match values with
    | [] => Ok 0
    | _ :: _ => statistics.mean values
    end = Ok m.
Proof. destruct values; eexists; reflexivity. Qed.

Lemma group_metrics_total (group_trades : list Trade.t) :
  exists m, StrategyEvaluator.group_metrics group_trades = Ok m.
Proof.
  unfold StrategyEvaluator.group_metrics.
  assert (Hrate : exists r,
            match group_trades with
            | [] => Ok 0
            | _ :: _ =>
              pydiv (inject_Z (Z.of_nat (length (List.filter
                       (StrategyEvaluator.has_status RESOLVED_WIN) group_trades))))
                    (Qlen group_trades)
            end = Ok r).
  { destruct group_trades as [| t l]; [eexists; reflexivity |].
    rewrite (pydiv_ok _ _ (Qlen_nonzero t l)). eexists; reflexivity. }
  destruct Hrate as [r ->]. simpl.
  destruct (guarded_roi_total
              (pysum (List.map StrategyEvaluator.pnl_or_0 group_trades))
              (pysum (List.map Trade.amount group_trades))) as [roi ->].
  simpl.
  destruct (guarded_mean_total (StrategyEvaluator.clv_values group_trades)) as [m ->].
  simpl. eexists; reflexivity.
Qed.

Lemma group_by_field_total (trades : list Trade.t) (field : group_field) :
  exists groups, StrategyEvaluator._group_by_field trades field = Ok groups.
Proof.
  unfold StrategyEvaluator._group_by_field. apply map_result_total.
  intros [name members]. simpl.
  destruct (group_metrics_total members) as [m ->]. simpl. eexists; reflexivity.
Qed.

Section Sharpe.

Variable sqrt : Q -> Q.

Local Abbreviation pnls trades := (List.map StrategyEvaluator.pnl_or_0 trades).

Lemma statistics_defined (data : list Q) :
  (2 <= length data)%nat ->
  exists avg std, statistics.mean data = Ok avg /\ statistics.stdev sqrt data = Ok std.
Proof.
  intros H. unfold statistics.stdev, statistics.variance.
  destruct (Nat.ltb_spec (length data) 2) as [Hlt | _]; [lia |].
  destruct data as [| x l]; [simpl in H; lia |].
  simpl. eexists; eexists; split; reflexivity.
Qed.

Lemma calculate_sharpe_few (trades : list Trade.t) :
  (length trades < 2)%nat -> StrategyEvaluator._calculate_sharpe sqrt trades = Ok None.
Proof.
  intros H. unfold StrategyEvaluator._calculate_sharpe.
  destruct (Nat.ltb_spec (length trades) 2) as [_ | Hge]; [reflexivity | lia].
Qed.

Lemma calculate_sharpe_zero (trades : list Trade.t) (avg std : Q) :
  statistics.mean (pnls trades) = Ok avg ->
  statistics.stdev sqrt (pnls trades) = Ok std ->
  std == 0 ->
  StrategyEvaluator._calculate_sharpe sqrt trades = Ok None.
Proof.
  intros Havg Hstd Hzero. unfold StrategyEvaluator._calculate_sharpe.
  destruct (length trades <? 2)%nat; [reflexivity |].
  rewrite Havg, Hstd. simpl.
  apply Qeq_bool_iff in Hzero. rewrite Hzero. reflexivity.
Qed.

Lemma calculate_sharpe_ratio (trades : list Trade.t) (avg std : Q) :
  statistics.mean (pnls trades) = Ok avg ->
  statistics.stdev sqrt (pnls trades) = Ok std ->
  ~ std == 0 ->
  StrategyEvaluator._calculate_sharpe sqrt trades = Ok (Some (round2 (avg / std))).
Proof.
  intros Havg Hstd Hnz. unfold StrategyEvaluator._calculate_sharpe.
  destruct (Nat.ltb_spec (length trades) 2) as [Hlt | _].
  - exfalso. unfold statistics.stdev, statistics.variance in Hstd.
    rewrite List.length_map in Hstd.
    destruct (Nat.ltb_spec (length trades) 2) as [_ | Hge]; [discriminate | lia].
  - rewrite Havg, Hstd. simpl.
    destruct (Qeq_bool std 0) eqn:E; [apply Qeq_bool_iff in E; contradiction |].
    rewrite (pydiv_ok _ _ Hnz). reflexivity.
Qed.

Lemma calculate_sharpe_total (trades : list Trade.t) :
  exists r, StrategyEvaluator._calculate_sharpe sqrt trades = Ok r.
Proof.
  destruct (Nat.lt_ge_cases (length trades) 2) as [Hlt | Hge].
  - rewrite (calculate_sharpe_few _ Hlt). eexists; reflexivity.
  - destruct (statistics_defined (pnls trades)) as (avg & std & Havg & Hstd).
    { now rewrite List.length_map. }
    destruct (Qeq_dec std 0) as [Hz | Hnz].
    + rewrite (calculate_sharpe_zero _ _ _ Havg Hstd Hz). eexists; reflexivity.
    + rewrite (calculate_sharpe_ratio _ _ _ Havg Hstd Hnz). eexists; reflexivity.
Qed.

End Sharpe.

Section EvaluateStrategy.

Variable sqrt : Q -> Q.
Variable trades : list Trade.t.
Variable utcnow : datetime.
Variables strategy_name period : string.
Variables start_date end_date : option datetime.

Local Abbreviation resolved :=
  (resolved_in_window trades utcnow strategy_name period start_date end_date).
Local Abbreviation evaluation :=
  (StrategyEvaluator.evaluate_strategy sqrt trades utcnow strategy_name period
     start_date end_date).

(** The evaluation always returns; its win rate and Sharpe ratio are the
    guarded expressions of the code over the resolved trades. *)
Lemma evaluate_strategy_returns :
  exists perf : StrategyPerformance.t,
    evaluation = Ok perf /\
    StrategyEvaluator._calculate_sharpe sqrt resolved
      = Ok (StrategyPerformance.sharpe_ratio perf) /\
    (resolved = [] -> StrategyPerformance.win_rate perf = 0) /\
    (resolved <> [] ->
     StrategyPerformance.win_rate perf
     = Qlen (List.filter (StrategyEvaluator.has_status RESOLVED_WIN) resolved)
       / Qlen resolved).
Proof.
  unfold StrategyEvaluator.evaluate_strategy, resolved_in_window.
  set (window_end := match end_date with Some d => d | None => utcnow end).
  set (window_start := match start_date with
                       | Some d => d
                       | None => StrategyEvaluator._get_period_start period window_end
                       end).
  set (strategy_trades := List.filter _ trades).
  destruct strategy_trades as [| t0 l0] eqn:Est.
  - eexists. split; [reflexivity |]. simpl.
    split; [reflexivity |]. split; [reflexivity | congruence].
  - rewrite <- Est. clear Est.
    set (res := List.filter StrategyEvaluator.is_resolved strategy_trades).
    destruct (guarded_mean_total (StrategyEvaluator.clv_values res)) as [avg_clv ->].
    simpl rbind.
    destruct (group_by_field_total res market_category) as [by_category ->].
    destruct (group_by_field_total res platform) as [by_platform ->].
    simpl rbind.
    assert (Hrate : exists r,
              match res with
              | [] => Ok 0
              | _ :: _ =>
                pydiv (Qlen (List.filter (StrategyEvaluator.has_status RESOLVED_WIN) res))
                      (Qlen res)
              end = Ok r /\
              (res = [] -> r = 0) /\
              (res <> [] ->
               r = Qlen (List.filter (StrategyEvaluator.has_status RESOLVED_WIN) res)
                   / Qlen res)).
    { destruct res as [| t l] eqn:Eres.
      - eexists. split; [reflexivity |]. split; [reflexivity | congruence].
      - rewrite (pydiv_ok _ _ (Qlen_nonzero t l)).
        eexists. split; [reflexivity |]. split; [discriminate | reflexivity]. }
    destruct Hrate as (rate & -> & Hnil & Hcons). simpl rbind.
    destruct (guarded_roi_total
                (pysum (List.map StrategyEvaluator.pnl_or_0 res))
                (pysum (List.map Trade.amount strategy_trades))) as [roi ->].
    simpl rbind.
    assert (Hclv : exists r,
              match StrategyEvaluator.clv_values res with
              | [] => Ok 0
              | _ :: _ =>
                pydiv (Qlen (List.filter (fun c => Qgtb c 0)
                               (StrategyEvaluator.clv_values res)))
                      (Qlen (StrategyEvaluator.clv_values res))
              end = Ok r).
    { destruct (StrategyEvaluator.clv_values res) as [| c l];
        [eexists; reflexivity |].
      rewrite (pydiv_ok _ _ (Qlen_nonzero c l)). eexists; reflexivity. }
    destruct Hclv as [clv_rate ->]. simpl rbind.
    destruct (calculate_sharpe_total sqrt res) as [sharpe Hsharpe].
    rewrite Hsharpe. simpl rbind.
    eexists. split; [reflexivity |]. simpl.
    split; [reflexivity |]. split; assumption.
Qed.

(** C9 (as the code computes it). The evaluation never raises, whatever
    the trades: the win rate is 0 when the window holds no resolved
    trade; the Sharpe-like ratio is None with fewer than two resolved
    trades or when the standard deviation of their PnLs is 0, and is
    otherwise mean(PnL) / stdev(PnL) rounded to two decimals, both
    statistics being defined as soon as two trades are resolved. *)
Theorem evaluate_strategy_guards_divisions :
  exists perf : StrategyPerformance.t,
    evaluation = Ok perf /\
    (resolved = [] -> StrategyPerformance.win_rate perf = 0) /\
    ((length resolved < 2)%nat -> StrategyPerformance.sharpe_ratio perf = None) /\
    (forall avg std : Q,
       statistics.mean (List.map StrategyEvaluator.pnl_or_0 resolved) = Ok avg ->
       statistics.stdev sqrt (List.map StrategyEvaluator.pnl_or_0 resolved) = Ok std ->
       (std == 0 -> StrategyPerformance.sharpe_ratio perf = None) /\
       (~ std == 0 ->
        StrategyPerformance.sharpe_ratio perf = Some (round2 (avg / std)))) /\
    ((2 <= length resolved)%nat ->
     exists avg std : Q,
       statistics.mean (List.map StrategyEvaluator.pnl_or_0 resolved) = Ok avg /\
       statistics.stdev sqrt (List.map StrategyEvaluator.pnl_or_0 resolved) = Ok std).
Proof.
  destruct evaluate_strategy_returns as (perf & Heval & Hsharpe & Hrate & _).
  exists perf. split; [exact Heval |]. split; [exact Hrate |].
  split; [| split].
  - intros Hfew. rewrite (calculate_sharpe_few sqrt _ Hfew) in Hsharpe. congruence.
  - intros avg std Havg Hstd. split; intros Hz.
    + rewrite (calculate_sharpe_zero sqrt _ _ _ Havg Hstd Hz) in Hsharpe. congruence.
    + rewrite (calculate_sharpe_ratio sqrt _ _ _ Havg Hstd Hz) in Hsharpe. congruence.
  - intros Hge. apply statistics_defined. now rewrite List.length_map.
Qed.

End EvaluateStrategy.

(** Three resolved trades with PnLs 4, 6, -7 (mean 1, standard deviation
    7): the evaluation returns and its ratio is the rounded quotient. *)
Lemma evaluate_strategy_guards_divisions_witness :
  exists perf : StrategyPerformance.t,
    StrategyEvaluator.evaluate_strategy decimal_sqrt SharpeScenario.trades 100%Z
      "test-strategy" "all_time" (Some 0%Z) None = Ok perf /\
    StrategyPerformance.sharpe_ratio perf = Some (round2 ((3 # 3) / 7)).
Proof.
  destruct (evaluate_strategy_guards_divisions decimal_sqrt SharpeScenario.trades
              100%Z "test-strategy" "all_time" (Some 0%Z) None)
    as (perf & Heval & _ & _ & Hratio & _).
  exists perf. split; [exact Heval |].
  apply (Hratio (3 # 3) 7).
  - vm_compute. reflexivity.
  - vm_compute. reflexivity.
  - vm_compute. discriminate.
Defined.

(** C9 (counterexample). With PnLs 4, 6, -7 the mean is 1 and the
    standard deviation 7, and the reported ratio is 7/50 = 0.14, not 1/7. *)
Lemma sharpe_ratio_is_rounded :
  exists perf : StrategyPerformance.t,
    StrategyEvaluator.evaluate_strategy decimal_sqrt SharpeScenario.trades 100%Z
      "test-strategy" "all_time" (Some 0%Z) None = Ok perf /\
    statistics.mean (List.map StrategyEvaluator.pnl_or_0 SharpeScenario.trades)
      = Ok (3 # 3) /\
    statistics.stdev decimal_sqrt
      (List.map StrategyEvaluator.pnl_or_0 SharpeScenario.trades) = Ok 7 /\
    StrategyPerformance.sharpe_ratio perf = Some (7 # 50) /\
    ~ (7 # 50) == (3 # 3) / 7.
Proof.
  eexists. split; [vm_compute; reflexivity |].
  split; [vm_compute; reflexivity |].
  split; [vm_compute; reflexivity |].
  split; [vm_compute; reflexivity |].
  vm_compute. discriminate.
Qed.

(** ** Successive and interleaved executions *)

Lemma total_exposure_open (settings : Settings.t) (clock : Clock) (db : list TradeDB.t) :
  ExposureReport.total_exposure (PositionManager.get_exposure settings clock db)
  == sum_amounts (open_trades db).
Proof.
  unfold PositionManager.get_exposure, PositionManager.get_positions. simpl.
  rewrite List.map_map. apply pysum_amounts.
Qed.

Lemma sum_amounts_snoc (l : list TradeDB.t) (row : TradeDB.t) :
  sum_amounts (l ++ [row]) == sum_amounts l + TradeDB.amount row.
Proof.
  unfold sum_amounts.
  induction l as [| t l IH]; cbn [app fold_right].
  - ring.
  - rewrite IH. ring.
Qed.

Lemma check_limits_allowed (self : RiskManager.t) (opportunity : MarketOpportunity.t)
    (exposure : ExposureReport.t) (positions : list Position.t) :
  RiskCheckResult.allowed
    (RiskManager.check_limits self opportunity exposure positions) = true ->
  ExposureReport.total_exposure exposure
    + MarketOpportunity.recommended_amount opportunity
    <= RiskManager.max_total_exposure self /\
  (Z.of_nat (length (List.filter (RiskManager.same_market opportunity) positions))
   < RiskManager.max_positions_per_market self)%Z.
Proof.
  unfold RiskManager.check_limits.
  destruct (Qgtb _ (RiskManager.max_position_size self)); [discriminate |].
  destruct (Qgtb _ (RiskManager.max_total_exposure self)) eqn:Htotal; [discriminate |].
  destruct (Qgtb _ (RiskManager.max_daily_volume self)); [discriminate |].
  destruct (Z.geb_spec
              (Z.of_nat (length (List.filter (RiskManager.same_market opportunity)
                                             positions)))
              (RiskManager.max_positions_per_market self)) as [Hge | Hlt];
    [discriminate |].
  intros _. split; [apply Qgtb_false; exact Htotal | lia].
Qed.

(** A call that is never suspended: its three resumptions in a row are
    [execute_opportunity]. *)
Lemma uninterrupted_call (settings : Settings.t) (self : TradingEngine.t)
    (req : Interleaving.request) (w : World) :
  Interleaving.step settings self req
    (fst (Interleaving.step settings self req
            (fst (Interleaving.step settings self req Interleaving.Start w))
            (snd (Interleaving.step settings self req Interleaving.Start w))))
    (snd (Interleaving.step settings self req
            (fst (Interleaving.step settings self req Interleaving.Start w))
            (snd (Interleaving.step settings self req Interleaving.Start w))))
  = (Interleaving.Returned
       (fst (TradingEngine.execute_opportunity settings self (Interleaving.clock req)
               (Interleaving.opportunity req) (Interleaving.force req) w)),
     snd (TradingEngine.execute_opportunity settings self (Interleaving.clock req)
            (Interleaving.opportunity req) (Interleaving.force req) w)).
Proof.
  unfold TradingEngine.execute_opportunity. simpl.
  destruct (negb (Interleaving.force req) && negb _)%bool; [reflexivity |].
  destruct (TradingEngine.trader_execute _ _ _ w). reflexivity.
Qed.

(** An execution that is not forced and runs on its own either leaves the
    world as it was or adds one row and stays within the total-exposure
    cap and the per-market position limit. *)
Lemma uninterrupted_execution_within_limits
    (settings : Settings.t) (self : TradingEngine.t) (clock : Clock)
    (opportunity : MarketOpportunity.t) (w : World)
    (r : result TradeResult.t) (w' : World) :
  TradingEngine.execute_opportunity settings self clock opportunity false w = (r, w') ->
  w' = w \/
  (length (ledger w') = S (length (ledger w)) /\
   ExposureReport.total_exposure
     (PositionManager.get_exposure settings clock (ledger w'))
   <= RiskManager.max_total_exposure (TradingEngine.risk_manager self) /\
   (Z.of_nat (length (List.filter (RiskManager.same_market opportunity)
                        (PositionManager.get_positions (ledger w'))))
    <= RiskManager.max_positions_per_market (TradingEngine.risk_manager self))%Z).
Proof.
  unfold TradingEngine.execute_opportunity. simpl negb. rewrite andb_true_l.
  destruct (RiskCheckResult.allowed _) eqn:Hallowed; simpl negb; cbv iota;
    [| intros [= _ <-]; left; reflexivity].
  apply check_limits_allowed in Hallowed. destruct Hallowed as [Htotal Hheld].
  destruct (TradingEngine.trader_of self); cbn [TradingEngine.trader_execute];
    [| unfold LiveTrader.execute_trade; intros [= _ <-]; left; reflexivity].
  unfold PaperTrader.execute_trade.
  destruct (if String.eqb (MarketOpportunity.recommended_side opportunity) "yes"
            then Market.yes_price (MarketOpportunity.market opportunity)
            else Market.no_price (MarketOpportunity.market opportunity))
    as [price |]; [| intros [= _ <-]; left; reflexivity].
  destruct (Qle_bool price 0); [intros [= _ <-]; left; reflexivity |].
  match goal with
  | |- context [Trade_of_row ?row] => set (db_trade := row)
  end.
  intros Hrun. right.
  assert (Hw : ledger w' = (ledger w ++ [db_trade])%list).
  { destruct (Trade_of_row db_trade); injection Hrun as _ <-; reflexivity. }
  assert (Hamount : TradeDB.amount db_trade
                    = MarketOpportunity.recommended_amount opportunity)
    by reflexivity.
  assert (Hopen : PositionManager.is_open db_trade = true) by reflexivity.
  assert (Hsame : RiskManager.same_market opportunity
                    (PositionManager.to_position db_trade) = true).
  { unfold RiskManager.same_market. simpl. now rewrite !String.eqb_refl. }
  clearbody db_trade. clear Hrun. rewrite Hw. split; [| split].
  - rewrite length_app. simpl. lia.
  - pose proof (total_exposure_open settings clock (ledger w ++ [db_trade])) as Hnew.
    unfold open_trades in Hnew. rewrite List.filter_app in Hnew.
    cbn [List.filter] in Hnew. rewrite Hopen in Hnew.
    fold (open_trades (ledger w)) in Hnew.
    pose proof (sum_amounts_snoc (open_trades (ledger w)) db_trade) as Hsum.
    pose proof (total_exposure_open settings clock (ledger w)) as Hold.
    rewrite Hamount in Hsum. lra.
  - unfold PositionManager.get_positions in *.
    rewrite List.filter_app, List.map_app, List.filter_app.
    cbn [List.filter List.map]. rewrite Hopen. cbn [List.filter List.map].
    rewrite Hsame. rewrite length_app. simpl length. lia.
Qed.

Local Abbreviation in_turn :=
  (Interleaving.run Settings.default Interleaving.engine Interleaving.request1
     Interleaving.request2 Interleaving.one_after_the_other EngineScenario.empty).

Local Abbreviation raced :=
  (Interleaving.run Settings.default Interleaving.engine Interleaving.request1
     Interleaving.request2 Interleaving.racing EngineScenario.empty).

(** C7 (as the code behaves). One call at a time: an execution that is
    not forced and is not interleaved with another either leaves the
    world unchanged or adds one row and keeps the total exposure within
    max_total_exposure and the market's open positions within
    max_positions_per_market; such a call is the three resumptions of the
    coroutine run in a row; and two $70 opportunities run one after the
    other against a $100 cap, from an empty ledger, record exactly one
    trade, the second call being denied for max_total_exposure. *)
Theorem successive_executions_respect_limits :
  (forall (settings : Settings.t) (self : TradingEngine.t) (clock : Clock)
          (opportunity : MarketOpportunity.t) (w : World)
          (r : result TradeResult.t) (w' : World),
     TradingEngine.execute_opportunity settings self clock opportunity false w
       = (r, w') ->
     w' = w \/
     (length (ledger w') = S (length (ledger w)) /\
      ExposureReport.total_exposure
        (PositionManager.get_exposure settings clock (ledger w'))
      <= RiskManager.max_total_exposure (TradingEngine.risk_manager self) /\
      (Z.of_nat (length (List.filter (RiskManager.same_market opportunity)
                           (PositionManager.get_positions (ledger w'))))
       <= RiskManager.max_positions_per_market (TradingEngine.risk_manager self))%Z)) /\
  (forall (settings : Settings.t) (self : TradingEngine.t)
          (req : Interleaving.request) (w : World),
     Interleaving.step settings self req
       (fst (Interleaving.step settings self req
               (fst (Interleaving.step settings self req Interleaving.Start w))
               (snd (Interleaving.step settings self req Interleaving.Start w))))
       (snd (Interleaving.step settings self req
               (fst (Interleaving.step settings self req Interleaving.Start w))
               (snd (Interleaving.step settings self req Interleaving.Start w))))
     = (Interleaving.Returned
          (fst (TradingEngine.execute_opportunity settings self
                  (Interleaving.clock req) (Interleaving.opportunity req)
                  (Interleaving.force req) w)),
        snd (TradingEngine.execute_opportunity settings self
               (Interleaving.clock req) (Interleaving.opportunity req)
               (Interleaving.force req) w))) /\
  (Interleaving.succeeded (Interleaving.first in_turn) = true /\
   Interleaving.second in_turn
   = Interleaving.Returned
       (Ok {| TradeResult.success := false;
              TradeResult.trade := None;
              TradeResult.error := Some
                [Lit "Trade would exceed max total exposure. Current: $"; Fixed 2 70;
                 Lit ", After: $"; Fixed 2 140; Lit ", Max: $"; Fixed 2 100];
              TradeResult.paper_trade := true |}) /\
   length (ledger (Interleaving.world in_turn)) = 1%nat /\
   RiskManager.limit_tag
     (TradingEngine.check_risk_limits Settings.default Interleaving.engine
        (Interleaving.clock Interleaving.request2)
        (Interleaving.opportunity Interleaving.request2)
        (Interleaving.world in_turn))
   = Some (PStr "max_total_exposure")).
Proof.
  split; [exact uninterrupted_execution_within_limits |].
  split; [exact uninterrupted_call |].
  repeat split; vm_compute; reflexivity.
Qed.

(** The first $70 opportunity on the empty ledger: one row is added and
    the exposure, 70, is within the cap of 100. *)
Lemma successive_executions_respect_limits_witness :
  EngineScenario.empty <> snd (TradingEngine.execute_opportunity Settings.default
                                 Interleaving.engine
                                 (Interleaving.clock Interleaving.request1)
                                 (Interleaving.opportunity Interleaving.request1)
                                 false EngineScenario.empty) /\
  ExposureReport.total_exposure
    (PositionManager.get_exposure Settings.default
       (Interleaving.clock Interleaving.request1)
       (ledger (snd (TradingEngine.execute_opportunity Settings.default
                       Interleaving.engine
                       (Interleaving.clock Interleaving.request1)
                       (Interleaving.opportunity Interleaving.request1)
                       false EngineScenario.empty))))
  <= 100.
Proof.
  split; [vm_compute; discriminate |].
  destruct (proj1 successive_executions_respect_limits Settings.default
              Interleaving.engine (Interleaving.clock Interleaving.request1)
              (Interleaving.opportunity Interleaving.request1) EngineScenario.empty
              (fst (TradingEngine.execute_opportunity Settings.default
                      Interleaving.engine
                      (Interleaving.clock Interleaving.request1)
                      (Interleaving.opportunity Interleaving.request1)
                      false EngineScenario.empty))
              (snd (TradingEngine.execute_opportunity Settings.default
                      Interleaving.engine
                      (Interleaving.clock Interleaving.request1)
                      (Interleaving.opportunity Interleaving.request1)
                      false EngineScenario.empty)))
    as [Hsame | (_ & Hcap & _)].
  - vm_compute. reflexivity.
  - vm_compute in Hsame. discriminate.
  - exact Hcap.
Defined.

(** C7 (counterexample). When the second call reads its snapshot before
    the first one writes, both $70 opportunities are admitted: two rows
    are recorded on the same market, and the exposure is 140 against a
    cap of 100 and a limit of one position per market. *)
Lemma interleaved_executions_overshoot :
  Interleaving.succeeded (Interleaving.first raced) = true /\
  Interleaving.succeeded (Interleaving.second raced) = true /\
  length (ledger (Interleaving.world raced)) = 2%nat /\
  ExposureReport.total_exposure
    (PositionManager.get_exposure Settings.default ExposureScenario.clock
       (ledger (Interleaving.world raced))) = 140 /\
  ~ 140 <= RiskManager.max_total_exposure
             (TradingEngine.risk_manager Interleaving.engine) /\
  length (List.filter
            (RiskManager.same_market (Interleaving.opportunity Interleaving.request2))
            (PositionManager.get_positions (ledger (Interleaving.world raced))))
  = 2%nat /\
  RiskManager.max_positions_per_market
    (TradingEngine.risk_manager Interleaving.engine) = 1%Z.
Proof.
  repeat split; try (vm_compute; reflexivity).
  vm_compute. intros H. apply H. reflexivity.
Qed.

(* ===================================================================== *)
(** * Further properties of the modelled code                             *)
(* ===================================================================== *)

(** ** RiskManager: admission *)

Lemma check_limits_allowed_all (self : RiskManager.t)
    (opportunity : MarketOpportunity.t) (exposure : ExposureReport.t)
    (positions : list Position.t) :
  RiskCheckResult.allowed
    (RiskManager.check_limits self opportunity exposure positions) = true ->
  MarketOpportunity.recommended_amount opportunity
    <= RiskManager.max_position_size self /\
  ExposureReport.total_exposure exposure
    + MarketOpportunity.recommended_amount opportunity
    <= RiskManager.max_total_exposure self /\
  ExposureReport.daily_traded exposure
    + MarketOpportunity.recommended_amount opportunity
    <= RiskManager.max_daily_volume self /\
  (Z.of_nat (length (List.filter (RiskManager.same_market opportunity) positions))
   < RiskManager.max_positions_per_market self)%Z.
Proof.
  unfold RiskManager.check_limits.
  destruct (Qgtb _ (RiskManager.max_position_size self)) eqn:H1; [discriminate |].
  destruct (Qgtb _ (RiskManager.max_total_exposure self)) eqn:H2; [discriminate |].
  destruct (Qgtb _ (RiskManager.max_daily_volume self)) eqn:H3; [discriminate |].
  destruct (Z.geb_spec
              (Z.of_nat (length (List.filter (RiskManager.same_market opportunity)
                                             positions)))
              (RiskManager.max_positions_per_market self)) as [Hge | Hlt];
    [discriminate |].
  intros _. apply Qgtb_false in H1, H2, H3. repeat split; assumption.
Qed.

(** X1. A trade is allowed exactly when it passes all four limits. *)
Theorem check_limits_allowed_iff (self : RiskManager.t)
    (opportunity : MarketOpportunity.t) (exposure : ExposureReport.t)
    (positions : list Position.t) :
  RiskCheckResult.allowed
    (RiskManager.check_limits self opportunity exposure positions) = true <->
  MarketOpportunity.recommended_amount opportunity
    <= RiskManager.max_position_size self /\
  ExposureReport.total_exposure exposure
    + MarketOpportunity.recommended_amount opportunity
    <= RiskManager.max_total_exposure self /\
  ExposureReport.daily_traded exposure
    + MarketOpportunity.recommended_amount opportunity
    <= RiskManager.max_daily_volume self /\
  (Z.of_nat (length (List.filter (RiskManager.same_market opportunity) positions))
   < RiskManager.max_positions_per_market self)%Z.
Proof.
  split.
  - apply check_limits_allowed_all.
  - intros (H1 & H2 & H3 & H4).
    apply (all_checks_pass self opportunity exposure positions); assumption.
Qed.

(** X2. Admission is monotone in the amount: if an opportunity is
    allowed, an opportunity on the same market for a smaller amount is
    allowed against the same exposure and positions. *)
Theorem check_limits_monotone (self : RiskManager.t)
    (opportunity smaller : MarketOpportunity.t) (exposure : ExposureReport.t)
    (positions : list Position.t) :
  MarketOpportunity.market smaller = MarketOpportunity.market opportunity ->
  MarketOpportunity.recommended_amount smaller
    <= MarketOpportunity.recommended_amount opportunity ->
  RiskCheckResult.allowed
    (RiskManager.check_limits self opportunity exposure positions) = true ->
  RiskCheckResult.allowed
    (RiskManager.check_limits self smaller exposure positions) = true.
Proof.
  intros Hmarket Hle Hallowed.
  apply check_limits_allowed_all in Hallowed.
  destruct Hallowed as (H1 & H2 & H3 & H4).
  assert (Hsame : List.filter (RiskManager.same_market smaller) positions
                  = List.filter (RiskManager.same_market opportunity) positions).
  { apply List.filter_ext. intros p. unfold RiskManager.same_market.
    now rewrite Hmarket. }
  apply (all_checks_pass self smaller exposure positions);
    try lra. rewrite Hsame. exact H4.
Qed.

Lemma check_limits_monotone_witness :
  RiskCheckResult.allowed
    (RiskManager.check_limits Fixtures.risk_manager
       (Fixtures.make_opportunity 10 "no" Fixtures.make_market)
       (Fixtures.make_exposure Settings.default 30 10) []) = true.
Proof.
  apply (check_limits_monotone Fixtures.risk_manager
           (Fixtures.make_opportunity 20 "yes" Fixtures.make_market)
           (Fixtures.make_opportunity 10 "no" Fixtures.make_market)
           (Fixtures.make_exposure Settings.default 30 10) []).
  - reflexivity.
  - vm_compute. discriminate.
  - reflexivity.
Defined.

(** ** PaperTrader: what a call writes *)

(** The row and the log entry written by a paper trade at a valid price. *)
Lemma paper_trade_written (clock : Clock) (opportunity : MarketOpportunity.t)
    (w : World) (price : Q) :
  side_price opportunity = Some price ->
  0 < price ->
  exists (row : TradeDB.t) (entry : list (string * pyval)),
    snd (PaperTrader.execute_trade clock opportunity w)
    = {| ledger := (ledger w ++ [row])%list;
         trade_log := (trade_log w ++ [entry])%list |} /\
    (fst (PaperTrader.execute_trade clock opportunity w)
     = match Trade_of_row row with
       | Ok trade => Ok {| TradeResult.success := true;
                           TradeResult.trade := Some trade;
                           TradeResult.error := None;
                           TradeResult.paper_trade := true |}
       | Raise e => Raise e
       end) /\
    TradeDB.id row = uuid4 clock /\
    TradeDB.created_at row = utcnow clock /\
    TradeDB.platform row = Market.platform (MarketOpportunity.market opportunity) /\
    TradeDB.market_id row = Market.market_id (MarketOpportunity.market opportunity) /\
    TradeDB.strategy row = MarketOpportunity.strategy opportunity /\
    TradeDB.side row = MarketOpportunity.recommended_side opportunity /\
    TradeDB.entry_price row = price /\
    TradeDB.amount row = MarketOpportunity.recommended_amount opportunity /\
    TradeDB.shares row
      = Some (MarketOpportunity.recommended_amount opportunity / price) /\
    TradeDB.status row = "open".
Proof.
  intros Hprice Hpos. unfold PaperTrader.execute_trade. rewrite Hprice.
  assert (Hle : Qle_bool price 0 = false).
  { destruct (Qle_bool price 0) eqn:E; [| reflexivity].
    apply Qle_bool_iff in E. lra. }
  rewrite Hle.
  match goal with
  | |- context [Trade_of_row ?r] => set (row := r)
  end.
  match goal with
  | |- context [(trade_log w ++ [?e])%list] => set (entry := e)
  end.
  exists row, entry.
  split; [destruct (Trade_of_row row); reflexivity |].
  split; [destruct (Trade_of_row row); reflexivity |].
  repeat split; reflexivity.
Qed.

(** X3. A paper trade at a positive price of the recommended side adds
    exactly one open row to the ledger, with the clock's id and time, the
    opportunity's market, side, strategy and amount, the side's price as
    entry price and shares = amount / entry price, and appends exactly
    one entry to the trade log, whether the call then returns or raises. *)
Theorem paper_trade_writes_one_row (clock : Clock)
    (opportunity : MarketOpportunity.t) (w : World) (price : Q) :
  side_price opportunity = Some price ->
  0 < price ->
  exists row : TradeDB.t,
    ledger (snd (PaperTrader.execute_trade clock opportunity w))
      = (ledger w ++ [row])%list /\
    length (trade_log (snd (PaperTrader.execute_trade clock opportunity w)))
      = S (length (trade_log w)) /\
    TradeDB.id row = uuid4 clock /\
    TradeDB.created_at row = utcnow clock /\
    TradeDB.platform row = Market.platform (MarketOpportunity.market opportunity) /\
    TradeDB.market_id row = Market.market_id (MarketOpportunity.market opportunity) /\
    TradeDB.strategy row = MarketOpportunity.strategy opportunity /\
    TradeDB.side row = MarketOpportunity.recommended_side opportunity /\
    TradeDB.entry_price row = price /\
    TradeDB.amount row = MarketOpportunity.recommended_amount opportunity /\
    TradeDB.shares row
      = Some (MarketOpportunity.recommended_amount opportunity / price) /\
    TradeDB.status row = "open".
Proof.
  intros Hprice Hpos.
  destruct (paper_trade_written clock opportunity w price Hprice Hpos)
    as (row & entry & Hw & _ & Hfields).
  exists row. rewrite Hw. simpl.
  split; [reflexivity |].
  split; [rewrite length_app; simpl; lia | exact Hfields].
Qed.

Lemma paper_trade_writes_one_row_witness :
  exists row : TradeDB.t,
    ledger (snd (PaperTrader.execute_trade ExposureScenario.clock
                   (Fixtures.make_opportunity 25 "yes" Fixtures.make_market)
                   EngineScenario.empty)) = [row] /\
    TradeDB.shares row = Some (25 / (6 # 10)) /\
    TradeDB.status row = "open".
Proof.
  destruct (paper_trade_writes_one_row ExposureScenario.clock
              (Fixtures.make_opportunity 25 "yes" Fixtures.make_market)
              EngineScenario.empty (6 # 10))
    as (row & Hledger & _ & _ & _ & _ & _ & _ & _ & _ & _ & Hshares & Hstatus).
  - reflexivity.
  - reflexivity.
  - exists row. repeat split; assumption.
Defined.

(** X4. With a recommended side of yes or no, a price of that side within
    [0.01, 0.99] and a positive amount, the paper trade succeeds and
    returns the trade it recorded, with shares = amount / entry price. *)
Theorem paper_trade_succeeds (clock : Clock) (opportunity : MarketOpportunity.t)
    (w : World) (price : Q) :
  MarketOpportunity.recommended_side opportunity = "yes"
  \/ MarketOpportunity.recommended_side opportunity = "no" ->
  side_price opportunity = Some price ->
  (1 # 100) <= price -> price <= (99 # 100) ->
  0 < MarketOpportunity.recommended_amount opportunity ->
  exists trade : Trade.t,
    fst (PaperTrader.execute_trade clock opportunity w)
    = Ok {| TradeResult.success := true;
            TradeResult.trade := Some trade;
            TradeResult.error := None;
            TradeResult.paper_trade := true |} /\
    Trade.valid trade /\
    Trade.status trade = OPEN /\
    TradeSide_value (Trade.side trade)
      = MarketOpportunity.recommended_side opportunity /\
    Trade.entry_price trade = price /\
    Trade.amount trade = MarketOpportunity.recommended_amount opportunity /\
    Trade.shares trade
      = Some (MarketOpportunity.recommended_amount opportunity / price).
Proof.
  intros Hside Hprice Hlo Hhi Hamount.
  destruct (paper_trade_written clock opportunity w price Hprice ltac:(lra))
    as (row & entry & _ & Hres & _ & _ & _ & _ & _ & Hs & He & Ha & Hsh & Hst).
  rewrite Hres. unfold Trade_of_row. rewrite Hs, Hst, He, Ha.
  assert (Hside' : exists s, TradeSide_of_value
                               (MarketOpportunity.recommended_side opportunity) = Ok s
                             /\ TradeSide_value s
                                = MarketOpportunity.recommended_side opportunity).
  { destruct Hside as [-> | ->]; [exists YES | exists NO]; split; reflexivity. }
  destruct Hside' as (s & -> & Hvalue).
  assert (H1 : Qle_bool (1 # 100) price = true) by (apply Qle_bool_iff; exact Hlo).
  assert (H2 : Qle_bool price (99 # 100) = true) by (apply Qle_bool_iff; exact Hhi).
  assert (H3 : Qltb 0 (MarketOpportunity.recommended_amount opportunity) = true)
    by (apply Qltb_true; exact Hamount).
  simpl. rewrite H1, H2, H3. simpl.
  eexists. split; [reflexivity |]. simpl.
  split; [unfold Trade.valid; simpl; repeat split; assumption |].
  split; [reflexivity |]. split; [exact Hvalue |].
  split; [reflexivity |]. split; [reflexivity | exact Hsh].
Qed.

Lemma paper_trade_succeeds_witness :
  exists trade : Trade.t,
    fst (PaperTrader.execute_trade ExposureScenario.clock
           (Fixtures.make_opportunity 25 "yes" Fixtures.make_market)
           EngineScenario.empty)
    = Ok {| TradeResult.success := true;
            TradeResult.trade := Some trade;
            TradeResult.error := None;
            TradeResult.paper_trade := true |} /\
    Trade.amount trade = 25.
Proof.
  destruct (paper_trade_succeeds ExposureScenario.clock
              (Fixtures.make_opportunity 25 "yes" Fixtures.make_market)
              EngineScenario.empty (6 # 10))
    as (trade & Hres & _ & _ & _ & _ & Hamount & _).
  - left. reflexivity.
  - reflexivity.
  - vm_compute. discriminate.
  - vm_compute. discriminate.
  - reflexivity.
  - exists trade. split; assumption.
Defined.

(** X5. Raising after the write: when the recommended side has a positive
    price but the recorded row cannot be turned into a [Trade] (the side
    is neither yes nor no, or the price is outside [0.01, 0.99], or the
    amount is not positive), the call raises, and the row is in the
    ledger all the same. *)
Theorem paper_trade_raises_after_write (clock : Clock)
    (opportunity : MarketOpportunity.t) (w : World) (price : Q) :
  side_price opportunity = Some price ->
  0 < price ->
  (MarketOpportunity.recommended_side opportunity <> "yes"
   /\ MarketOpportunity.recommended_side opportunity <> "no")
  \/ price < (1 # 100) \/ (99 # 100) < price
  \/ MarketOpportunity.recommended_amount opportunity <= 0 ->
  exists (e : exn) (row : TradeDB.t),
    fst (PaperTrader.execute_trade clock opportunity w) = Raise e /\
    ledger (snd (PaperTrader.execute_trade clock opportunity w))
      = (ledger w ++ [row])%list /\
    TradeDB.status row = "open" /\
    TradeDB.amount row = MarketOpportunity.recommended_amount opportunity.
Proof.
  intros Hprice Hpos Hbad.
  destruct (paper_trade_written clock opportunity w price Hprice Hpos)
    as (row & entry & Hw & Hres & _ & _ & _ & _ & _ & Hs & He & Ha & _ & Hst).
  assert (Hraise : exists e, Trade_of_row row = Raise e).
  { unfold Trade_of_row. rewrite Hs, Hst, He, Ha.
    destruct Hbad as [[Hyes Hno] | Hbad].
    - unfold TradeSide_of_value.
      apply String.eqb_neq in Hyes, Hno. rewrite Hyes, Hno.
      eexists; reflexivity.
    - destruct (TradeSide_of_value _) as [s | e]; [| eexists; reflexivity].
      simpl.
      destruct Hbad as [Hlow | [Hhigh | Hamount]].
      + assert (H : Qle_bool (1 # 100) price = false).
        { destruct (Qle_bool (1 # 100) price) eqn:E; [| reflexivity].
          apply Qle_bool_iff in E. lra. }
        rewrite H. simpl. eexists; reflexivity.
      + assert (H : Qle_bool price (99 # 100) = false).
        { destruct (Qle_bool price (99 # 100)) eqn:E; [| reflexivity].
          apply Qle_bool_iff in E. lra. }
        rewrite H. rewrite andb_false_r. simpl. eexists; reflexivity.
      + apply Qltb_false in Hamount. rewrite Hamount.
        destruct (Qle_bool (1 # 100) price && Qle_bool price (99 # 100));
          simpl; eexists; reflexivity. }
  destruct Hraise as [e Hraise].
  exists e, row. rewrite Hres, Hraise, Hw. simpl.
  repeat split; assumption.
Qed.

(** An opportunity whose side is written in upper case: the NO price is
    used, the row is written, and the call raises. *)
Lemma paper_trade_raises_after_write_witness :
  exists (e : exn) (row : TradeDB.t),
    fst (PaperTrader.execute_trade ExposureScenario.clock
           (Fixtures.make_opportunity 25 "YES" Fixtures.make_market)
           EngineScenario.empty) = Raise e /\
    ledger (snd (PaperTrader.execute_trade ExposureScenario.clock
                   (Fixtures.make_opportunity 25 "YES" Fixtures.make_market)
                   EngineScenario.empty)) = [row] /\
    TradeDB.amount row = 25.
Proof.
  destruct (paper_trade_raises_after_write ExposureScenario.clock
              (Fixtures.make_opportunity 25 "YES" Fixtures.make_market)
              EngineScenario.empty (4 # 10))
    as (e & row & Hres & Hledger & _ & Hamount).
  - reflexivity.
  - reflexivity.
  - left. split; discriminate.
  - exists e, row. repeat split; assumption.
Defined.

(** ** PositionManager: the report after a trade *)

Lemma daily_traded_since (settings : Settings.t) (clock : Clock) (db : list TradeDB.t) :
  ExposureReport.daily_traded (PositionManager.get_exposure settings clock db)
  == sum_amounts (created_since (today_start clock) db).
Proof.
  unfold PositionManager.get_exposure. simpl. apply pysum_amounts.
Qed.

(** X6. Recording an open row raises the reported total exposure by the
    row's amount and the position count by one; the daily volume rises by
    the amount when the row was created since the start of the local day
    and is unchanged otherwise. *)
Theorem exposure_after_open_row (settings : Settings.t) (clock : Clock)
    (db : list TradeDB.t) (row : TradeDB.t) :
  TradeDB.status row = "open" ->
  ExposureReport.total_exposure
    (PositionManager.get_exposure settings clock (db ++ [row]))
  == ExposureReport.total_exposure (PositionManager.get_exposure settings clock db)
     + TradeDB.amount row /\
  ExposureReport.position_count
    (PositionManager.get_exposure settings clock (db ++ [row]))
  = S (ExposureReport.position_count (PositionManager.get_exposure settings clock db)) /\
  ExposureReport.daily_traded
    (PositionManager.get_exposure settings clock (db ++ [row]))
  == ExposureReport.daily_traded (PositionManager.get_exposure settings clock db)
     + (if (today_start clock <=? TradeDB.created_at row)%Z
        then TradeDB.amount row else 0).
Proof.
  intros Hstatus.
  assert (Hopen : PositionManager.is_open row = true).
  { unfold PositionManager.is_open. rewrite Hstatus. reflexivity. }
  split; [| split].
  - pose proof (total_exposure_open settings clock (db ++ [row])) as Hnew.
    pose proof (total_exposure_open settings clock db) as Hold.
    unfold open_trades in Hnew. rewrite List.filter_app in Hnew.
    cbn [List.filter] in Hnew. rewrite Hopen in Hnew.
    fold (open_trades db) in Hnew.
    pose proof (sum_amounts_snoc (open_trades db) row) as Hsum. lra.
  - unfold PositionManager.get_exposure, PositionManager.get_positions. simpl.
    rewrite List.filter_app, List.map_app, length_app.
    cbn [List.filter]. rewrite Hopen. simpl. lia.
  - pose proof (daily_traded_since settings clock (db ++ [row])) as Hnew.
    pose proof (daily_traded_since settings clock db) as Hold.
    unfold created_since in Hnew. rewrite List.filter_app in Hnew.
    cbn [List.filter] in Hnew. fold (created_since (today_start clock) db) in Hnew.
    destruct (today_start clock <=? TradeDB.created_at row)%Z.
    + pose proof (sum_amounts_snoc (created_since (today_start clock) db) row) as Hsum.
      lra.
    + rewrite app_nil_r in Hnew. lra.
Qed.

Lemma exposure_after_open_row_witness :
  ExposureReport.total_exposure
    (PositionManager.get_exposure Settings.default ExposureScenario.clock
       (ExposureScenario.db
        ++ [Fixtures.insert_trade "d" 40 "kalshi" "strat-b" "open"
              (utcnow ExposureScenario.clock)]))
  == ExposureReport.total_exposure
       (PositionManager.get_exposure Settings.default ExposureScenario.clock
          ExposureScenario.db) + 40.
Proof.
  apply (exposure_after_open_row Settings.default ExposureScenario.clock
           ExposureScenario.db
           (Fixtures.insert_trade "d" 40 "kalshi" "strat-b" "open"
              (utcnow ExposureScenario.clock))).
  reflexivity.
Defined.

(** X7. The capital figures of the report are never negative, and the
    available capital is the exact headroom under the cap while the
    exposure is within it. *)
Theorem exposure_report_headroom (settings : Settings.t) (clock : Clock)
    (db : list TradeDB.t) :
  0 <= ExposureReport.available_capital (PositionManager.get_exposure settings clock db) /\
  0 <= ExposureReport.daily_remaining (PositionManager.get_exposure settings clock db) /\
  (ExposureReport.total_exposure (PositionManager.get_exposure settings clock db)
     <= Settings.max_total_exposure settings ->
   ExposureReport.available_capital (PositionManager.get_exposure settings clock db)
   + ExposureReport.total_exposure (PositionManager.get_exposure settings clock db)
   == Settings.max_total_exposure settings) /\
  (Settings.max_total_exposure settings
     <= ExposureReport.total_exposure (PositionManager.get_exposure settings clock db) ->
   ExposureReport.available_capital (PositionManager.get_exposure settings clock db)
   == 0).
Proof.
  assert (Hmax : forall x, 0 <= max0 x /\ (0 <= x -> max0 x == x)
                           /\ (x <= 0 -> max0 x == 0)).
  { intros x. unfold max0. destruct (Qgtb x 0) eqn:E.
    - apply Qgtb_true in E. repeat split; intros; lra.
    - apply Qgtb_false in E. repeat split; intros; lra. }
  unfold PositionManager.get_exposure. simpl.
  set (total := pysum _).
  split; [apply Hmax |]. split; [apply Hmax |].
  split; intros H.
  - destruct (Hmax (Settings.max_total_exposure settings - total)) as (_ & Heq & _).
    rewrite Heq by lra. ring.
  - destruct (Hmax (Settings.max_total_exposure settings - total)) as (_ & _ & Heq).
    apply Heq. lra.
Qed.

(** ** TradingEngine: live mode and successive calls *)

(** X8. An engine in live mode never changes the ledger or the trade
    log: a call either returns the failure of the risk check or raises
    NotImplementedError. *)
Theorem live_engine_writes_nothing (settings : Settings.t) (self : TradingEngine.t)
    (clock : Clock) (opportunity : MarketOpportunity.t) (force : bool) (w : World) :
  TradingEngine.trader_of self = TradingEngine.Live ->
  snd (TradingEngine.execute_opportunity settings self clock opportunity force w) = w /\
  (fst (TradingEngine.execute_opportunity settings self clock opportunity force w)
     = Raise NotImplementedError
   \/ (force = false /\
       RiskCheckResult.allowed
         (TradingEngine.check_risk_limits settings self clock opportunity w) = false /\
       exists r, fst (TradingEngine.execute_opportunity settings self clock
                        opportunity force w) = Ok r
                 /\ TradeResult.success r = false)).
Proof.
  intros Hlive. unfold TradingEngine.execute_opportunity, TradingEngine.check_risk_limits.
  rewrite Hlive.
  destruct force; simpl.
  - split; [reflexivity | left; reflexivity].
  - destruct (RiskCheckResult.allowed _) eqn:E; simpl.
    + split; [reflexivity | left; reflexivity].
    + split; [reflexivity |]. right. split; [reflexivity |].
      split; [reflexivity |]. eexists; split; reflexivity.
Qed.

Lemma live_engine_writes_nothing_witness :
  snd (TradingEngine.execute_opportunity Settings.default
         (TradingEngine.__init__ Settings.default false) ExposureScenario.clock
         (Fixtures.make_opportunity 25 "yes" Fixtures.make_market) false
         EngineScenario.empty) = EngineScenario.empty.
Proof.
  apply (live_engine_writes_nothing Settings.default
           (TradingEngine.__init__ Settings.default false) ExposureScenario.clock
           (Fixtures.make_opportunity 25 "yes" Fixtures.make_market) false
           EngineScenario.empty).
  reflexivity.
Defined.

(** X9. Calls that are not forced and run one after the other keep the
    exposure within the cap: if the open trades of the ledger sum to at
    most max_total_exposure, they still do after any number of such
    calls. *)
Theorem successive_calls_keep_cap (settings : Settings.t) (self : TradingEngine.t)
    (w w' : World) :
  sum_amounts (open_trades (ledger w))
    <= RiskManager.max_total_exposure (TradingEngine.risk_manager self) ->
  reached_by_calls settings self w w' ->
  sum_amounts (open_trades (ledger w'))
    <= RiskManager.max_total_exposure (TradingEngine.risk_manager self).
Proof.
  intros Hstart Hreach.
  induction Hreach as [| w1 clock opportunity Hreach IH]; [exact Hstart |].
  destruct (uninterrupted_execution_within_limits settings self clock opportunity w1
              (fst (TradingEngine.execute_opportunity settings self clock opportunity
                      false w1))
              (snd (TradingEngine.execute_opportunity settings self clock opportunity
                      false w1)))
    as [Hsame | (_ & Hcap & _)].
  - destruct (TradingEngine.execute_opportunity _ _ _ _ _ _); reflexivity.
  - rewrite Hsame. exact IH.
  - pose proof (total_exposure_open settings clock
                  (ledger (snd (TradingEngine.execute_opportunity settings self clock
                                  opportunity false w1)))) as Heq.
    lra.
Qed.

(** Two $70 calls in a row on the empty ledger stay within the cap of 100. *)
Lemma successive_calls_keep_cap_witness :
  sum_amounts
    (open_trades
       (ledger
          (snd (TradingEngine.execute_opportunity Settings.default Interleaving.engine
                  (Interleaving.clock Interleaving.request2)
                  (Interleaving.opportunity Interleaving.request2) false
                  (snd (TradingEngine.execute_opportunity Settings.default
                          Interleaving.engine
                          (Interleaving.clock Interleaving.request1)
                          (Interleaving.opportunity Interleaving.request1) false
                          EngineScenario.empty))))))
  <= 100.
Proof.
  apply (successive_calls_keep_cap Settings.default Interleaving.engine
           EngineScenario.empty).
  - vm_compute. discriminate.
  - apply reached_call. apply reached_call. apply reached_start.
Defined.

(** ** ResolutionAnalyzer: figures of an analysis *)

Lemma analysis_of_resolved (t : Trade.t) :
  Trade.valid t ->
  ResolutionAnalyzer.is_resolved (Trade.status t) = true ->
  exists (pnl : Q) (clv : option Q),
    ResolutionAnalyzer._calculate_clv t = Ok clv /\
    match Trade.pnl t with
    | Some stored => if Qeq_bool stored 0
                     then ResolutionAnalyzer._calculate_pnl t
                            (TradeStatus_eqb (Trade.status t) RESOLVED_WIN)
                     else Ok stored
    | None => ResolutionAnalyzer._calculate_pnl t
                (TradeStatus_eqb (Trade.status t) RESOLVED_WIN)
    end = Ok pnl /\
    ResolutionAnalyzer.analyze_resolved_trade t
    = Ok {| TradeAnalysis.trade_id := Trade.id t;
            TradeAnalysis.strategy := Trade.strategy t;
            TradeAnalysis.won := TradeStatus_eqb (Trade.status t) RESOLVED_WIN;
            TradeAnalysis.pnl := pnl;
            TradeAnalysis.roi := pnl / Trade.amount t * 100;
            TradeAnalysis.entry_price := Trade.entry_price t;
            TradeAnalysis.closing_price := Trade.closing_price t;
            TradeAnalysis.clv := clv;
            TradeAnalysis.beat_closing_line := option_map (fun c => Qgtb c 0) clv;
            TradeAnalysis.was_good_entry :=
              ResolutionAnalyzer._assess_entry_quality t clv;
            TradeAnalysis.was_good_sizing :=
              ResolutionAnalyzer._assess_sizing_quality t;
            TradeAnalysis.what_went_right :=
              ResolutionAnalyzer._identify_positives t
                (TradeStatus_eqb (Trade.status t) RESOLVED_WIN) clv;
            TradeAnalysis.what_went_wrong :=
              ResolutionAnalyzer._identify_negatives t
                (TradeStatus_eqb (Trade.status t) RESOLVED_WIN) clv;
            TradeAnalysis.suggested_improvements :=
              ResolutionAnalyzer._suggest_trade_improvements t
                (TradeStatus_eqb (Trade.status t) RESOLVED_WIN) clv
                (ResolutionAnalyzer._identify_negatives t
                   (TradeStatus_eqb (Trade.status t) RESOLVED_WIN) clv) |}.
Proof.
  intros Hv Hres.
  destruct (calculate_clv_total t Hv) as [clv Hclv].
  destruct (calculate_pnl_total t (TradeStatus_eqb (Trade.status t) RESOLVED_WIN) Hv)
    as [pnl0 Hpnl].
  assert (Hamount : Qgtb (Trade.amount t) 0 = true).
  { apply Qgtb_true. destruct Hv as (_ & _ & H). exact H. }
  assert (Hne : ~ Trade.amount t == 0).
  { destruct Hv as (_ & _ & H). intros E. lra. }
  unfold ResolutionAnalyzer.analyze_resolved_trade.
  rewrite Hres, Hclv, Hamount. simpl negb. cbv iota.
  destruct (Trade.pnl t) as [stored |]; [destruct (Qeq_bool stored 0) |];
    rewrite ?Hpnl; simpl; rewrite (pydiv_ok _ _ Hne); simpl;
    eexists; exists clv; (split; [reflexivity |]); split; reflexivity.
Qed.

(** X10. A valid trade is analysed exactly when it is resolved: the
    analysis of a resolved trade is returned, and for an open or
    cancelled trade the call raises ValueError naming the trade. *)
Theorem analysis_requires_resolution (t : Trade.t) :
  Trade.valid t ->
  ((exists a, ResolutionAnalyzer.analyze_resolved_trade t = Ok a) <->
   Trade.status t = RESOLVED_WIN \/ Trade.status t = RESOLVED_LOSS) /\
  (Trade.status t = OPEN \/ Trade.status t = CANCELLED ->
   ResolutionAnalyzer.analyze_resolved_trade t
   = Raise (ValueError [Lit "Trade "; Str (Trade.id t); Lit " is not resolved"])).
Proof.
  intros Hv.
  assert (Hraise : Trade.status t = OPEN \/ Trade.status t = CANCELLED ->
            ResolutionAnalyzer.analyze_resolved_trade t
            = Raise (ValueError [Lit "Trade "; Str (Trade.id t);
                                 Lit " is not resolved"])).
  { unfold ResolutionAnalyzer.analyze_resolved_trade.
    intros [-> | ->]; reflexivity. }
  split; [| exact Hraise]. split.
  - intros [a Ha].
    destruct (Trade.status t) eqn:Hs; auto;
      rewrite Hraise in Ha by auto; discriminate.
  - intros Hs.
    destruct (analysis_of_resolved t Hv) as (pnl & clv & _ & _ & Ha).
    + destruct Hs as [-> | ->]; reflexivity.
    + eexists. exact Ha.
Qed.

Lemma analysis_requires_resolution_witness :
  ResolutionAnalyzer.analyze_resolved_trade
    (ClvScenario.resolved YES OPEN (4 # 10) None)
  = Raise (ValueError [Lit "Trade "; Str "t1"; Lit " is not resolved"]).
Proof.
  apply (analysis_requires_resolution (ClvScenario.resolved YES OPEN (4 # 10) None)).
  - vm_compute. repeat split; discriminate.
  - left. reflexivity.
Defined.

(** X11. For a valid resolved trade without a stored PnL, the analysis
    of a win reports the positive PnL amount * (1 - e) / e and the ROI
    (1 - e) / e * 100 for entry price e, and the analysis of a loss
    reports the PnL -amount and an ROI of -100. *)
Theorem analysis_pnl_and_roi (t : Trade.t) :
  Trade.valid t ->
  Trade.pnl t = None ->
  (Trade.status t = RESOLVED_WIN ->
   exists a, ResolutionAnalyzer.analyze_resolved_trade t = Ok a /\
     TradeAnalysis.won a = true /\
     TradeAnalysis.pnl a
       == Trade.amount t * (1 - Trade.entry_price t) / Trade.entry_price t /\
     0 < TradeAnalysis.pnl a /\
     TradeAnalysis.roi a
       == (1 - Trade.entry_price t) / Trade.entry_price t * 100) /\
  (Trade.status t = RESOLVED_LOSS ->
   exists a, ResolutionAnalyzer.analyze_resolved_trade t = Ok a /\
     TradeAnalysis.won a = false /\
     TradeAnalysis.pnl a = - Trade.amount t /\
     TradeAnalysis.roi a == - (100)).
Proof.
  intros Hv Hnone.
  pose proof Hv as (Hlo & Hhi & Hpos).
  destruct (valid_entry_price t Hv) as [He _].
  split; intros Hstatus.
  - destruct (analysis_of_resolved t Hv) as (pnl & clv & _ & Hpnl & Ha).
    { rewrite Hstatus. reflexivity. }
    rewrite Hnone, Hstatus in Hpnl. simpl in Hpnl.
    unfold ResolutionAnalyzer._calculate_pnl in Hpnl.
    rewrite (pydiv_ok _ _ He) in Hpnl. simpl in Hpnl. injection Hpnl as <-.
    eexists. split; [exact Ha |]. simpl. rewrite Hstatus. simpl.
    assert (Heq : Trade.amount t / Trade.entry_price t * (1 - Trade.entry_price t)
                  == Trade.amount t * (1 - Trade.entry_price t) / Trade.entry_price t)
      by (field; exact He).
    split; [reflexivity |]. split; [exact Heq |]. split.
    + rewrite Heq. apply Qlt_shift_div_l; [lra |]. nra.
    + field. split; [exact He | lra].
  - destruct (analysis_of_resolved t Hv) as (pnl & clv & _ & Hpnl & Ha).
    { rewrite Hstatus. reflexivity. }
    rewrite Hnone, Hstatus in Hpnl. simpl in Hpnl. injection Hpnl as <-.
    eexists. split; [exact Ha |]. simpl. rewrite Hstatus. simpl.
    split; [reflexivity |]. split; [reflexivity |]. field. lra.
Qed.

Lemma analysis_pnl_and_roi_witness :
  exists a,
    ResolutionAnalyzer.analyze_resolved_trade
      (ClvScenario.resolved YES RESOLVED_LOSS (4 # 10) None) = Ok a /\
    TradeAnalysis.roi a == - (100).
Proof.
  destruct (proj2 (analysis_pnl_and_roi
                     (ClvScenario.resolved YES RESOLVED_LOSS (4 # 10) None)
                     ltac:(vm_compute; repeat split; discriminate)
                     eq_refl) eq_refl)
    as (a & Ha & _ & _ & Hroi).
  exists a. split; assumption.
Defined.

(** X12. The entry verdict follows the closing line.  Without a closing
    price the analysis has no CLV, beat_closing_line is None and the
    entry gets the benefit of the doubt; with a closing price the
    analysis has a CLV, and was_good_entry and beat_closing_line both say
    whether it is positive.  The same holds read from the CLV of the
    analysis. *)
Theorem entry_quality_follows_closing_line (t : Trade.t) :
  Trade.valid t ->
  ResolutionAnalyzer.is_resolved (Trade.status t) = true ->
  exists a, ResolutionAnalyzer.analyze_resolved_trade t = Ok a /\
    match TradeAnalysis.clv a with
    | Some c =>
      TradeAnalysis.beat_closing_line a = Some (Qgtb c 0) /\
      TradeAnalysis.was_good_entry a = Qgtb c 0
    | None =>
      Trade.closing_price t = None /\
      TradeAnalysis.beat_closing_line a = None /\
      TradeAnalysis.was_good_entry a = true
    end /\
    (Trade.closing_price t = None ->
     TradeAnalysis.clv a = None /\
     TradeAnalysis.beat_closing_line a = None /\
     TradeAnalysis.was_good_entry a = true) /\
    (forall closing : Q,
       Trade.closing_price t = Some closing ->
       exists c : Q,
         TradeAnalysis.clv a = Some c /\
         TradeAnalysis.beat_closing_line a = Some (Qgtb c 0) /\
         TradeAnalysis.was_good_entry a = Qgtb c 0).
Proof.
  intros Hv Hres.
  destruct (analysis_of_resolved t Hv Hres) as (pnl & clv & Hclv & _ & Ha).
  eexists. split; [exact Ha |]. simpl.
  unfold ResolutionAnalyzer._calculate_clv in Hclv.
  split; [| split].
  - destruct clv as [c |]; [split; reflexivity |].
    split; [| split; reflexivity].
    destruct (Trade.closing_price t) as [closing |]; [| reflexivity].
    destruct (Trade.side t); destruct (pydiv _ _); simpl in Hclv; discriminate.
  - intros Hnone. rewrite Hnone in Hclv. injection Hclv as <-.
    repeat split.
  - intros closing Hsome. rewrite Hsome in Hclv.
    destruct (Trade.side t); destruct (pydiv _ _); simpl in Hclv;
      try discriminate; injection Hclv as <-;
      eexists; repeat split.
Qed.

(** A lost NO trade entered at 0.40 with the YES price closing at 0.50,
    and a won YES trade entered at 0.60 without a closing price. *)
Lemma entry_quality_follows_closing_line_witness :
  (exists a,
     ResolutionAnalyzer.analyze_resolved_trade
       (ClvScenario.resolved NO RESOLVED_LOSS (4 # 10) (Some (5 # 10))) = Ok a /\
     exists c : Q,
       TradeAnalysis.clv a = Some c /\
       TradeAnalysis.beat_closing_line a = Some (Qgtb c 0) /\
       TradeAnalysis.was_good_entry a = Qgtb c 0) /\
  (exists a,
     ResolutionAnalyzer.analyze_resolved_trade
       (ClvScenario.resolved YES RESOLVED_WIN (6 # 10) None) = Ok a /\
     TradeAnalysis.clv a = None /\
     TradeAnalysis.beat_closing_line a = None /\
     TradeAnalysis.was_good_entry a = true).
Proof.
  split.
  - destruct (entry_quality_follows_closing_line
                (ClvScenario.resolved NO RESOLVED_LOSS (4 # 10) (Some (5 # 10))))
      as (a & Ha & _ & _ & Hsome).
    + vm_compute. repeat split; discriminate.
    + reflexivity.
    + exists a. split; [exact Ha |]. apply (Hsome (5 # 10)). reflexivity.
  - destruct (entry_quality_follows_closing_line
                (ClvScenario.resolved YES RESOLVED_WIN (6 # 10) None))
      as (a & Ha & _ & Hnone & _).
    + vm_compute. repeat split; discriminate.
    + reflexivity.
    + exists a. split; [exact Ha |]. apply Hnone. reflexivity.
Defined.

(** The sign of a number survives [round(x, 2)]. *)
Lemma round2_sign (x : Q) :
  (0 <= x -> 0 <= round2 x) /\ (x <= 0 -> round2 x <= 0).
Proof.
  destruct (round2_spec x) as [[n Hn] Hclose].
  apply Qabs_Qle_condition in Hclose. rewrite Hn in *.
  split; intros Hx.
  - assert (H : - (1 # 200) <= n # 100) by lra.
    unfold Qle in *. simpl in *. lia.
  - assert (H : n # 100 <= 1 # 200) by lra.
    unfold Qle in *. simpl in *. lia.
Qed.

Lemma calculate_clv_yes (t : Trade.t) (c : Q) :
  Trade.valid t -> Trade.closing_price t = Some c -> Trade.side t = YES ->
  ResolutionAnalyzer._calculate_clv t
  = Ok (Some (round2 ((c - Trade.entry_price t) / Trade.entry_price t * 100))).
Proof.
  intros Hv Hc Hs. destruct (valid_entry_price t Hv) as [He _].
  unfold ResolutionAnalyzer._calculate_clv. rewrite Hc, Hs.
  rewrite (pydiv_ok _ _ He). reflexivity.
Qed.

Lemma calculate_clv_no (t : Trade.t) (c : Q) :
  Trade.valid t -> Trade.closing_price t = Some c -> Trade.side t = NO ->
  ResolutionAnalyzer._calculate_clv t
  = Ok (Some (round2 ((1 - Trade.entry_price t - c)
                      / (1 - Trade.entry_price t) * 100))).
Proof.
  intros Hv Hc Hs. destruct (valid_entry_price t Hv) as [_ He].
  unfold ResolutionAnalyzer._calculate_clv. rewrite Hc, Hs.
  rewrite (pydiv_ok _ _ He). reflexivity.
Qed.

Lemma ratio_sign (d e : Q) :
  0 < e -> (0 <= d -> 0 <= d / e * 100) /\ (d <= 0 -> d / e * 100 <= 0).
Proof.
  intros He. pose proof (Qinv_lt_0_compat e He) as Hinv.
  unfold Qdiv. split; intros Hd; nra.
Qed.

(** X13. The sign of the CLV never contradicts the price move.  For a
    valid YES trade the CLV is not negative when the market closed at or
    above the entry price and not positive when it closed at or below;
    for a valid NO trade the same holds with the closing YES price
    compared to 1 - entry price, in the other direction. *)
Theorem clv_sign_follows_price (t : Trade.t) (c : Q) :
  Trade.valid t ->
  Trade.closing_price t = Some c ->
  exists v : Q,
    ResolutionAnalyzer._calculate_clv t = Ok (Some v) /\
    match Trade.side t with
    | YES => (Trade.entry_price t <= c -> 0 <= v) /\
             (c <= Trade.entry_price t -> v <= 0)
    | NO => (c <= 1 - Trade.entry_price t -> 0 <= v) /\
            (1 - Trade.entry_price t <= c -> v <= 0)
    end.
Proof.
  intros Hv Hc. pose proof Hv as (Hlo & Hhi & _).
  destruct (Trade.side t) eqn:Hs.
  - rewrite (calculate_clv_yes t c Hv Hc Hs). eexists. split; [reflexivity |].
    destruct (ratio_sign (c - Trade.entry_price t) (Trade.entry_price t)
                ltac:(lra)) as [Hup Hdown].
    split; intros H; apply round2_sign; [apply Hup | apply Hdown]; lra.
  - rewrite (calculate_clv_no t c Hv Hc Hs). eexists. split; [reflexivity |].
    destruct (ratio_sign (1 - Trade.entry_price t - c) (1 - Trade.entry_price t)
                ltac:(lra)) as [Hup Hdown].
    split; intros H; apply round2_sign; [apply Hup | apply Hdown]; lra.
Qed.

Lemma clv_sign_follows_price_witness :
  exists v : Q,
    ResolutionAnalyzer._calculate_clv
      (ClvScenario.resolved YES RESOLVED_WIN (4 # 10) (Some (6 # 10))) = Ok (Some v) /\
    0 <= v.
Proof.
  destruct (clv_sign_follows_price
              (ClvScenario.resolved YES RESOLVED_WIN (4 # 10) (Some (6 # 10)))
              (6 # 10))
    as (v & Hv & Hup & _).
  - vm_compute. repeat split; discriminate.
  - reflexivity.
  - exists v. split; [exact Hv |]. apply Hup. vm_compute. discriminate.
Defined.

(** ** ResolutionAnalyzer: the lessons *)

(** X14. The what_went_wrong list of an analysis is empty exactly when
    the trade was won, its amount is at most $50 and its CLV is absent
    or not negative. *)
Theorem what_went_wrong_empty_iff (t : Trade.t) :
  Trade.valid t ->
  ResolutionAnalyzer.is_resolved (Trade.status t) = true ->
  exists a, ResolutionAnalyzer.analyze_resolved_trade t = Ok a /\
    (TradeAnalysis.what_went_wrong a = [] <->
     Trade.status t = RESOLVED_WIN /\ Trade.amount t <= 50 /\
     (forall c, TradeAnalysis.clv a = Some c -> 0 <= c)).
Proof.
  intros Hv Hres.
  destruct (analysis_of_resolved t Hv Hres) as (pnl & clv & _ & _ & Ha).
  eexists. split; [exact Ha |]. simpl.
  rewrite identify_negatives_nil.
  destruct (Trade.status t); simpl in *; try discriminate;
    split; intros (H1 & H2 & H3); repeat split; auto; discriminate.
Qed.

Lemma what_went_wrong_empty_iff_witness :
  exists a,
    ResolutionAnalyzer.analyze_resolved_trade
      (ClvScenario.resolved YES RESOLVED_WIN (4 # 10) (Some (6 # 10))) = Ok a /\
    TradeAnalysis.what_went_wrong a = [].
Proof.
  destruct (what_went_wrong_empty_iff
              (ClvScenario.resolved YES RESOLVED_WIN (4 # 10) (Some (6 # 10))))
    as (a & Ha & Hiff).
  - vm_compute. repeat split; discriminate.
  - reflexivity.
  - exists a. split; [exact Ha |]. apply Hiff.
    split; [reflexivity |]. split; [vm_compute; discriminate |].
    vm_compute in Ha. injection Ha as <-. simpl.
    intros c [= <-]. vm_compute. discriminate.
Defined.


(** X15. The sizing verdict is true exactly for amounts between $1 and
    $50, and a trade above $50 always carries the position-size line in
    what_went_wrong. *)
Theorem oversized_trade_is_flagged (t : Trade.t) (won : bool) (clv : option Q) :
  (ResolutionAnalyzer._assess_sizing_quality t = true <->
   1 <= Trade.amount t /\ Trade.amount t <= 50) /\
  (50 < Trade.amount t ->
   In [Lit "Position size $"; Fixed 0 (Trade.amount t); Lit " may be too large"]
      (ResolutionAnalyzer._identify_negatives t won clv)).
Proof.
  split.
  - unfold ResolutionAnalyzer._assess_sizing_quality.
    destruct (Qgtb (Trade.amount t) 50) eqn:Hbig;
      [apply Qgtb_true in Hbig | apply Qgtb_false in Hbig].
    + split; [discriminate | intros [_ H]; lra].
    + destruct (Qltb (Trade.amount t) 1) eqn:Hsmall;
        [apply Qltb_true in Hsmall | apply Qltb_false in Hsmall].
      * split; [discriminate | intros [H _]; lra].
      * split; [intros _; split; assumption | reflexivity].
  - intros Hbig. apply Qgtb_true in Hbig.
    unfold ResolutionAnalyzer._identify_negatives. rewrite Hbig.
    match goal with
    | |- In ?line match _ with Some _ => _ | None => ?l end =>
      assert (Hin : In line l)
    end.
    { unfold append_if at 1. apply in_or_app. right. left. reflexivity. }
    destruct (Trade.market_category t); [apply In_append_if |]; exact Hin.
Qed.

Lemma oversized_trade_is_flagged_witness :
  In [Lit "Position size $"; Fixed 0 60; Lit " may be too large"]
     (ResolutionAnalyzer._identify_negatives
        (SizingScenario.trade 60 RESOLVED_WIN) true None).
Proof.
  apply (proj2 (oversized_trade_is_flagged
                  (SizingScenario.trade 60 RESOLVED_WIN) true None)).
  vm_compute. reflexivity.
Defined.

(** ** Resolution script: P&L *)

(** X16. On a row as a paper trade records it (positive entry price and
    amount, shares missing or equal to amount / entry price), the
    script's P&L of a win is the analyzer's, amount * (1 - e) / e, with
    ROI (1 - e) / e * 100; a loss costs the amount, with ROI -100, as in
    the analyzer. *)
Theorem script_pnl_agrees_with_analyzer (row : TradeDB.t) (t : Trade.t)
    (outcome : string) :
  Trade.valid t ->
  TradeDB.entry_price row = Trade.entry_price t ->
  TradeDB.amount row = Trade.amount t ->
  TradeDB.shares row = None
  \/ TradeDB.shares row = Some (TradeDB.amount row / TradeDB.entry_price row) ->
  ((TradeDB.side row = "yes" /\ outcome = "yes")
   \/ (TradeDB.side row = "no" /\ outcome = "no") ->
   exists pnl roi p,
     check_resolutions.calculate_pnl row outcome = Ok (pnl, roi) /\
     ResolutionAnalyzer._calculate_pnl t true = Ok p /\
     pnl == p /\
     pnl == Trade.amount t * (1 - Trade.entry_price t) / Trade.entry_price t /\
     roi == (1 - Trade.entry_price t) / Trade.entry_price t * 100) /\
  (TradeDB.side row <> outcome ->
   exists roi,
     check_resolutions.calculate_pnl row outcome = Ok (- Trade.amount t, roi) /\
     ResolutionAnalyzer._calculate_pnl t false = Ok (- Trade.amount t) /\
     roi == - (100)).
Proof.
  intros Hv He Ha Hshares.
  pose proof Hv as (Hlo & Hhi & Hpos).
  destruct (valid_entry_price t Hv) as [Hne _].
  assert (Hamount : ~ Trade.amount t == 0) by (intros E; lra).
  assert (Hgt : Qgtb (Trade.amount t) 0 = true) by (apply Qgtb_true; exact Hpos).
  assert (Hshare_val :
            (if truthy (TradeDB.shares row)
             then Ok (or_else (TradeDB.shares row) 0)
             else pydiv (TradeDB.amount row) (TradeDB.entry_price row))
            = Ok (Trade.amount t / Trade.entry_price t)).
  { destruct Hshares as [-> | ->]; simpl; rewrite He, Ha.
    - apply pydiv_ok. exact Hne.
    - destruct (Qeq_bool (Trade.amount t / Trade.entry_price t) 0) eqn:E;
        [| reflexivity].
      exfalso. apply Qeq_bool_iff in E.
      assert (H : Trade.amount t == Trade.amount t / Trade.entry_price t
                                    * Trade.entry_price t) by (field; exact Hne).
      rewrite E in H. apply Hamount. rewrite H. ring. }
  split.
  - intros Hwon. unfold check_resolutions.calculate_pnl.
    assert (Hw : (String.eqb (TradeDB.side row) "yes" && String.eqb outcome "yes")
                 || (String.eqb (TradeDB.side row) "no" && String.eqb outcome "no")
                 = true).
    { destruct Hwon as [[-> ->] | [-> ->]]; reflexivity. }
    rewrite Hw, Hshare_val. simpl. rewrite Ha, Hgt.
    rewrite (pydiv_ok _ _ Hamount). simpl.
    unfold ResolutionAnalyzer._calculate_pnl. rewrite (pydiv_ok _ _ Hne). simpl.
    do 3 eexists. split; [reflexivity |]. split; [reflexivity |].
    split; [field; exact Hne |]. split; field; try split; assumption.
  - intros Hlost. unfold check_resolutions.calculate_pnl.
    assert (Hw : (String.eqb (TradeDB.side row) "yes" && String.eqb outcome "yes")
                 || (String.eqb (TradeDB.side row) "no" && String.eqb outcome "no")
                 = false).
    { destruct (String.eqb_spec (TradeDB.side row) "yes") as [Hy | _];
        destruct (String.eqb_spec outcome "yes") as [Hoy | _];
        destruct (String.eqb_spec (TradeDB.side row) "no") as [Hn | _];
        destruct (String.eqb_spec outcome "no") as [Hon | _];
        try reflexivity; exfalso; apply Hlost; congruence. }
    rewrite Hw. simpl. rewrite Ha, Hgt. rewrite (pydiv_ok _ _ Hamount). simpl.
    eexists. split; [reflexivity |]. split; [reflexivity |]. field. exact Hamount.
Qed.

Lemma script_pnl_agrees_with_analyzer_witness :
  exists pnl roi p,
    check_resolutions.calculate_pnl (ClvScenario.row "yes" (4 # 10)) "yes"
      = Ok (pnl, roi) /\
    ResolutionAnalyzer._calculate_pnl
      (ClvScenario.resolved YES RESOLVED_WIN (4 # 10) None) true = Ok p /\
    pnl == p /\ roi == 150.
Proof.
  destruct (proj1 (script_pnl_agrees_with_analyzer
                     (ClvScenario.row "yes" (4 # 10))
                     (ClvScenario.resolved YES RESOLVED_WIN (4 # 10) None) "yes"
                     ltac:(vm_compute; repeat split; discriminate)
                     eq_refl eq_refl (or_introl eq_refl))
             (or_introl (conj eq_refl eq_refl)))
    as (pnl & roi & p & Hscript & Hanalyzer & Hsame & _ & Hroi).
  exists pnl, roi, p. repeat split; try assumption.
  rewrite Hroi. vm_compute. reflexivity.
Defined.

(** ** StrategyEvaluator: drawdown *)

Lemma pysum_cons (x : Q) (l : list Q) : pysum (x :: l) == x + pysum l.
Proof.
  unfold pysum. simpl. rewrite !fold_left_Qplus. ring.
Qed.

Lemma running_total_monotone (l : list Q) :
  List.Forall (fun x => 0 <= x) l ->
  forall j k, (j <= k)%nat -> running_total j l <= running_total k l.
Proof.
  induction 1 as [| x l Hx Hall IH]; intros j k Hjk.
  - unfold running_total. rewrite !firstn_nil. apply Qle_refl.
  - destruct k as [| k].
    + replace j with 0%nat by lia. apply Qle_refl.
    + unfold running_total in *. destruct j as [| j]; simpl firstn.
      * rewrite pysum_cons. specialize (IH 0%nat k ltac:(lia)).
        change (firstn 0 l) with (@nil Q) in IH.
        change (pysum []) with 0 in *. lra.
      * rewrite !pysum_cons. specialize (IH j k ltac:(lia)). lra.
Qed.

(** X17. The maximum drawdown is never negative, and it is zero when no
    resolved trade lost money. *)
Theorem max_drawdown_nonnegative (trades : list Trade.t) :
  0 <= StrategyEvaluator._calculate_max_drawdown trades /\
  (List.Forall (fun t => 0 <= StrategyEvaluator.pnl_or_0 t) trades ->
   StrategyEvaluator._calculate_max_drawdown trades == 0).
Proof.
  rewrite calculate_max_drawdown_loop.
  set (pnls := List.map StrategyEvaluator.pnl_or_0
                 (sorted StrategyEvaluator.resolution_key trades)).
  destruct (drawdown_invariant pnls) as (_ & _ & _ & Hbound & (j & k & Hjk & Hat)).
  assert (Hnonneg : 0 <= StrategyEvaluator.max_dd
                           (fold_left StrategyEvaluator.drawdown_step pnls
                              drawdown_init)).
  { specialize (Hbound 0%nat 0%nat ltac:(lia)). lra. }
  split; [exact Hnonneg |].
  intros Hall.
  assert (Hpnls : List.Forall (fun x => 0 <= x) pnls).
  { unfold pnls. apply List.Forall_map.
    apply (Permutation_Forall
             (Permutation_sym
                (sorted_permutation StrategyEvaluator.resolution_key trades))).
    exact Hall. }
  pose proof (running_total_monotone pnls Hpnls j k ltac:(lia)) as Hmono.
  lra.
Qed.

Lemma max_drawdown_nonnegative_witness :
  StrategyEvaluator._calculate_max_drawdown
    [DrawdownScenario.resolved_trade "a" 10 1%Z None;
     DrawdownScenario.resolved_trade "b" 5 2%Z None] == 0.
Proof.
  apply (max_drawdown_nonnegative
           [DrawdownScenario.resolved_trade "a" 10 1%Z None;
            DrawdownScenario.resolved_trade "b" 5 2%Z None]).
  repeat constructor; vm_compute; discriminate.
Defined.

(** ** StrategyEvaluator: counts *)

Section EvaluateCounts.

Variable sqrt : Q -> Q.
Variable trades : list Trade.t.
Variable utcnow : datetime.
Variables strategy_name period : string.
Variables start_date end_date : option datetime.

Local Abbreviation selected :=
  (trades_in_window trades utcnow strategy_name period start_date end_date).
Local Abbreviation settled := (List.filter StrategyEvaluator.is_resolved selected).

(** The counting fields of the evaluation, read off the selected trades. *)
Lemma evaluate_strategy_fields :
  exists perf : StrategyPerformance.t,
    StrategyEvaluator.evaluate_strategy sqrt trades utcnow strategy_name period
      start_date end_date = Ok perf /\
    StrategyPerformance.total_trades perf = length selected /\
    StrategyPerformance.open_trades perf
      = length (List.filter (StrategyEvaluator.has_status OPEN) selected) /\
    StrategyPerformance.resolved_trades perf = length settled /\
    StrategyPerformance.wins perf
      = length (List.filter (StrategyEvaluator.has_status RESOLVED_WIN) settled) /\
    StrategyPerformance.losses perf
      = length (List.filter (StrategyEvaluator.has_status RESOLVED_LOSS) settled) /\
    (settled = [] -> StrategyPerformance.win_rate perf = 0) /\
    (settled <> [] ->
     StrategyPerformance.win_rate perf
     = Qlen (List.filter (StrategyEvaluator.has_status RESOLVED_WIN) settled)
       / Qlen settled).
Proof.
  unfold StrategyEvaluator.evaluate_strategy, trades_in_window.
  set (window_end := match end_date with Some d => d | None => utcnow end).
  set (window_start := match start_date with
                       | Some d => d
                       | None => StrategyEvaluator._get_period_start period window_end
                       end).
  set (strategy_trades := List.filter _ trades).
  destruct strategy_trades as [| t0 l0] eqn:Est.
  - eexists. split; [reflexivity |]. simpl.
    repeat split; try reflexivity; try congruence.
  - rewrite <- Est. clear Est.
    set (res := List.filter StrategyEvaluator.is_resolved strategy_trades).
    destruct (guarded_mean_total (StrategyEvaluator.clv_values res)) as [avg_clv ->].
    simpl rbind.
    destruct (group_by_field_total res market_category) as [by_category ->].
    destruct (group_by_field_total res platform) as [by_platform ->].
    simpl rbind.
    assert (Hrate : exists r,
              match res with
              | [] => Ok 0
              | _ :: _ =>
                pydiv (Qlen (List.filter (StrategyEvaluator.has_status RESOLVED_WIN) res))
                      (Qlen res)
              end = Ok r /\
              (res = [] -> r = 0) /\
              (res <> [] ->
               r = Qlen (List.filter (StrategyEvaluator.has_status RESOLVED_WIN) res)
                   / Qlen res)).
    { destruct res as [| t l] eqn:Eres.
      - eexists. split; [reflexivity |]. split; [reflexivity | congruence].
      - rewrite (pydiv_ok _ _ (Qlen_nonzero t l)).
        eexists. split; [reflexivity |]. split; [discriminate | reflexivity]. }
    destruct Hrate as (rate & -> & Hnil & Hcons). simpl rbind.
    destruct (guarded_roi_total
                (pysum (List.map StrategyEvaluator.pnl_or_0 res))
                (pysum (List.map Trade.amount strategy_trades))) as [roi ->].
    simpl rbind.
    assert (Hclv : exists r,
              match StrategyEvaluator.clv_values res with
              | [] => Ok 0
              | _ :: _ =>
                pydiv (Qlen (List.filter (fun c => Qgtb c 0)
                               (StrategyEvaluator.clv_values res)))
                      (Qlen (StrategyEvaluator.clv_values res))
              end = Ok r).
    { destruct (StrategyEvaluator.clv_values res) as [| c l];
        [eexists; reflexivity |].
      rewrite (pydiv_ok _ _ (Qlen_nonzero c l)). eexists; reflexivity. }
    destruct Hclv as [clv_rate ->]. simpl rbind.
    destruct (calculate_sharpe_total sqrt res) as [sharpe ->]. simpl rbind.
    eexists. split; [reflexivity |]. simpl.
    repeat split; try reflexivity; assumption.
Qed.

Lemma status_tests (t : Trade.t) :
  StrategyEvaluator.is_resolved t
    = (StrategyEvaluator.has_status RESOLVED_WIN t
       || StrategyEvaluator.has_status RESOLVED_LOSS t) /\
  (StrategyEvaluator.has_status RESOLVED_WIN t
   && StrategyEvaluator.has_status RESOLVED_LOSS t = false) /\
  (StrategyEvaluator.has_status OPEN t && StrategyEvaluator.is_resolved t = false).
Proof.
  unfold StrategyEvaluator.is_resolved, StrategyEvaluator.has_status.
  destruct (Trade.status t); repeat split.
Qed.

Lemma resolved_wins_losses (l : list Trade.t) :
  length (List.filter StrategyEvaluator.is_resolved l)
  = (length (List.filter (StrategyEvaluator.has_status RESOLVED_WIN)
               (List.filter StrategyEvaluator.is_resolved l))
     + length (List.filter (StrategyEvaluator.has_status RESOLVED_LOSS)
                 (List.filter StrategyEvaluator.is_resolved l)))%nat.
Proof.
  induction l as [| t l IH]; [reflexivity |].
  cbn [List.filter].
  destruct (status_tests t) as (Hres & Hexcl & _).
  destruct (StrategyEvaluator.is_resolved t); [| exact IH].
  cbn [List.filter length].
  destruct (StrategyEvaluator.has_status RESOLVED_WIN t);
    destruct (StrategyEvaluator.has_status RESOLVED_LOSS t);
    try discriminate; cbn [length]; lia.
Qed.

Lemma open_and_resolved (l : list Trade.t) :
  (length (List.filter (StrategyEvaluator.has_status OPEN) l)
   + length (List.filter StrategyEvaluator.is_resolved l) <= length l)%nat.
Proof.
  induction l as [| t l IH]; [reflexivity |].
  cbn [List.filter].
  destruct (status_tests t) as (_ & _ & Hexcl).
  destruct (StrategyEvaluator.has_status OPEN t);
    destruct (StrategyEvaluator.is_resolved t);
    try discriminate; cbn [length]; lia.
Qed.

(** X18. In every evaluation the resolved trades are the wins plus the
    losses, open and resolved trades together do not exceed the total,
    and the win rate lies between 0 and 1 and is wins / resolved_trades
    whenever a trade is resolved. *)
Theorem evaluate_strategy_counts :
  exists perf : StrategyPerformance.t,
    StrategyEvaluator.evaluate_strategy sqrt trades utcnow strategy_name period
      start_date end_date = Ok perf /\
    StrategyPerformance.resolved_trades perf
      = (StrategyPerformance.wins perf + StrategyPerformance.losses perf)%nat /\
    (StrategyPerformance.open_trades perf + StrategyPerformance.resolved_trades perf
     <= StrategyPerformance.total_trades perf)%nat /\
    0 <= StrategyPerformance.win_rate perf /\
    StrategyPerformance.win_rate perf <= 1 /\
    StrategyPerformance.win_rate perf
      * inject_Z (Z.of_nat (StrategyPerformance.resolved_trades perf))
    == inject_Z (Z.of_nat (StrategyPerformance.wins perf)).
Proof.
  destruct evaluate_strategy_fields
    as (perf & Heval & Htotal & Hopen & Hres & Hwins & Hlosses & Hnil & Hcons).
  exists perf. split; [exact Heval |].
  rewrite Htotal, Hopen, Hres, Hwins, Hlosses.
  split; [apply resolved_wins_losses |].
  split; [apply open_and_resolved |].
  destruct settled as [| t l] eqn:Es.
  - rewrite (Hnil eq_refl). simpl. repeat split; try lra; reflexivity.
  - rewrite (Hcons ltac:(discriminate)).
    set (wins := List.filter (StrategyEvaluator.has_status RESOLVED_WIN) (t :: l)).
    assert (Hle : (length wins <= length (t :: l))%nat) by apply List.filter_length_le.
    assert (Hpos : 0 < Qlen (t :: l)).
    { unfold Qlen, Qlt. simpl. lia. }
    assert (Hw : 0 <= Qlen wins <= Qlen (t :: l)).
    { unfold Qlen, Qle, inject_Z. cbn [Qnum Qden]. lia. }
    fold (Qlen (t :: l)). fold (Qlen wins).
    split; [apply Qle_shift_div_l; lra |].
    split; [apply Qle_shift_div_r; lra |].
    field. lra.
Qed.

End EvaluateCounts.

Lemma filter_absorbs {A : Type} (p s : A -> bool) (l : list A) :
  (forall x, p x = true -> s x = true) ->
  List.filter p (List.filter s l) = List.filter p l.
Proof.
  intros Himp. induction l as [| x l IH]; [reflexivity |].
  cbn [List.filter]. destruct (s x) eqn:Hs.
  - cbn [List.filter]. now rewrite IH.
  - destruct (p x) eqn:Hp; [| exact IH].
    apply Himp in Hp. congruence.
Qed.

(** X19. The evaluation of a strategy depends only on that strategy's
    trades: evaluating over the whole ledger gives the same result as
    evaluating over the trades of the strategy alone. *)
Theorem evaluate_strategy_ignores_others (sqrt : Q -> Q) (trades : list Trade.t)
    (utcnow : datetime) (strategy_name period : string)
    (start_date end_date : option datetime) :
  StrategyEvaluator.evaluate_strategy sqrt
    (List.filter (fun t => String.eqb (Trade.strategy t) strategy_name) trades)
    utcnow strategy_name period start_date end_date
  = StrategyEvaluator.evaluate_strategy sqrt trades utcnow strategy_name period
      start_date end_date.
Proof.
  unfold StrategyEvaluator.evaluate_strategy. cbv zeta.
  rewrite filter_absorbs; [reflexivity |].
  intros t Ht. apply andb_true_iff in Ht. destruct Ht as [Ht _].
  apply andb_true_iff in Ht. destruct Ht as [Ht _]. exact Ht.
Qed.

Section GroupByField.

Variable field : group_field.

Local Abbreviation key := (StrategyEvaluator.group_key field).
Local Abbreviation with_key name :=
  (List.filter (fun t => String.eqb (key t) name)).
Local Abbreviation collect trades :=
  (fold_left (fun groups trade =>
                StrategyEvaluator.group_append (key trade) trade groups)
             trades []).

Lemma group_append_names (v : string) (t : Trade.t)
    (groups : list (string * list Trade.t)) (n : string) :
  List.In n (List.map fst (StrategyEvaluator.group_append v t groups))
  <-> n = v \/ List.In n (List.map fst groups).
Proof.
  induction groups as [| [name members] rest IH]; cbn.
  - intuition.
  - destruct (String.eqb name v) eqn:E; cbn.
    + apply String.eqb_eq in E. subst name. intuition.
    + rewrite IH. intuition.
Qed.

Lemma group_append_NoDup (v : string) (t : Trade.t)
    (groups : list (string * list Trade.t)) :
  List.NoDup (List.map fst groups) ->
  List.NoDup (List.map fst (StrategyEvaluator.group_append v t groups)).
Proof.
  induction groups as [| [name members] rest IH]; cbn; intros Hnd.
  - constructor; [intros [] | constructor].
  - inversion Hnd as [| ? ? Hnotin Hrest]; subst.
    destruct (String.eqb name v) eqn:E; cbn.
    + constructor; assumption.
    + constructor; [| apply IH; assumption].
      rewrite group_append_names. intros [-> | Hin]; [| contradiction].
      rewrite String.eqb_refl in E. discriminate.
Qed.

Lemma group_append_members (v : string) (t : Trade.t)
    (groups : list (string * list Trade.t)) (n : string) (ms : list Trade.t) :
  List.NoDup (List.map fst groups) ->
  List.In (n, ms) (StrategyEvaluator.group_append v t groups) ->
  (n <> v /\ List.In (n, ms) groups)
  \/ (n = v /\ exists m0, ms = (m0 ++ [t])%list /\
        (List.In (v, m0) groups
         \/ (m0 = [] /\ ~ List.In v (List.map fst groups)))).
Proof.
  induction groups as [| [name members] rest IH]; cbn; intros Hnd Hin.
  - destruct Hin as [Heq | []]. injection Heq as <- <-.
    right. split; [reflexivity |]. exists []. split; [reflexivity |].
    right. split; [reflexivity | tauto].
  - inversion Hnd as [| ? ? Hnotin Hrest]; subst.
    destruct (String.eqb name v) eqn:E; cbn in Hin.
    + apply String.eqb_eq in E. subst name.
      destruct Hin as [Heq | Hin].
      * injection Heq as <- <-. right. split; [reflexivity |].
        exists members. split; [reflexivity |]. left. now left.
      * left. split; [| now right].
        intros ->. apply Hnotin.
        change v with (fst (v, ms)). now apply List.in_map.
    + apply String.eqb_neq in E.
      destruct Hin as [Heq | Hin].
      * injection Heq as <- <-. left. split; [exact E | now left].
      * destruct (IH Hrest Hin) as [[Hne Hin'] | [-> [m0 [-> Hm0]]]].
        -- left. split; [exact Hne | now right].
        -- right. split; [reflexivity |]. exists m0. split; [reflexivity |].
           destruct Hm0 as [Hm0 | [-> Hm0]]; [left; now right |].
           right. split; [reflexivity |]. intros [Heq | Hin']; auto.
Qed.

Lemma with_key_none (name : string) (trades : list Trade.t) :
  (forall t, List.In t trades -> key t <> name) -> with_key name trades = [].
Proof.
  induction trades as [| t l IH]; [reflexivity |]. intros Hall. cbn.
  destruct (String.eqb (key t) name) eqn:E.
  - apply String.eqb_eq in E. exfalso. apply (Hall t); [now left | exact E].
  - apply IH. intros t' Ht'. apply Hall. now right.
Qed.

(** The loop invariant of the grouping pass: the keys are distinct, each
    group holds, in order, the trades seen so far that carry its key, and
    every trade seen has its group. *)
Lemma collect_invariant (trades : list Trade.t) :
  List.NoDup (List.map fst (collect trades))
  /\ (forall n ms, List.In (n, ms) (collect trades) ->
        ms = with_key n trades /\ ms <> [])
  /\ (forall t, List.In t trades -> List.In (key t) (List.map fst (collect trades))).
Proof.
  induction trades as [| t l [Hnd [Hmem Hcov]]] using rev_ind.
  - cbn. split; [constructor |]. split; [intros ? ? [] | intros ? []].
  - rewrite fold_left_app. cbn [fold_left].
    split; [apply group_append_NoDup; exact Hnd |]. split.
    + intros n ms Hin.
      apply group_append_members in Hin; [| exact Hnd].
      rewrite List.filter_app. cbn [List.filter].
      destruct Hin as [[Hne Hin] | [-> [m0 [-> Hm0]]]].
      * destruct (Hmem n ms Hin) as [Hms Hnonempty].
        assert (E : String.eqb (key t) n = false)
          by (apply String.eqb_neq; congruence).
        rewrite E, app_nil_r. split; assumption.
      * rewrite String.eqb_refl. split; [| now destruct m0].
        f_equal. destruct Hm0 as [Hm0 | [-> Hm0]].
        -- apply (Hmem _ _ Hm0).
        -- symmetry. apply with_key_none. intros t' Ht' Heq.
           apply Hm0. rewrite <- Heq. apply Hcov. exact Ht'.
    + intros t' Ht'. rewrite group_append_names.
      apply List.in_app_or in Ht'. destruct Ht' as [Ht' | [<- | []]].
      * right. apply Hcov. exact Ht'.
      * left. reflexivity.
Qed.

Lemma map_result_In {A B : Type} (f : A -> result B) (xs : list A) (ys : list B) :
  map_result f xs = Ok ys ->
  forall y, List.In y ys -> exists x, List.In x xs /\ f x = Ok y.
Proof.
  revert ys. induction xs as [| x xs IH]; cbn; intros ys H y Hy.
  - injection H as <-. destruct Hy.
  - destruct (f x) as [y0 | e] eqn:Efx; [| discriminate]. cbn in H.
    destruct (map_result f xs) as [ys0 | e] eqn:Exs; [| discriminate]. cbn in H.
    injection H as <-. destruct Hy as [<- | Hy].
    + exists x. split; [now left | exact Efx].
    + destruct (IH ys0 eq_refl y Hy) as [x' [Hx' Hfx']].
      exists x'. split; [now right | exact Hfx'].
Qed.

Lemma map_result_fst {A B C : Type} (f : A -> result B) (ka : A -> C) (kb : B -> C)
    (xs : list A) (ys : list B) :
  (forall x y, f x = Ok y -> kb y = ka x) ->
  map_result f xs = Ok ys -> List.map kb ys = List.map ka xs.
Proof.
  intros Hk. revert ys. induction xs as [| x xs IH]; cbn; intros ys H.
  - injection H as <-. reflexivity.
  - destruct (f x) as [y0 | e] eqn:Efx; [| discriminate]. cbn in H.
    destruct (map_result f xs) as [ys0 | e] eqn:Exs; [| discriminate]. cbn in H.
    injection H as <-. cbn. rewrite (Hk _ _ Efx), (IH ys0 eq_refl). reflexivity.
Qed.

(** X20. Grouping partitions the trades by key: the call returns; the
    group names are distinct; every trade's key ("unknown" for a missing
    or empty value) names a group; and each group's metrics are those of
    exactly the trades carrying its name, of which there is at least one. *)
Theorem group_by_field_partitions (trades : list Trade.t) :
  exists result,
    StrategyEvaluator._group_by_field trades field = Ok result
    /\ List.NoDup (List.map fst result)
    /\ (forall t, List.In t trades -> List.In (key t) (List.map fst result))
    /\ (forall name m, List.In (name, m) result ->
          StrategyEvaluator.group_metrics (with_key name trades) = Ok m
          /\ GroupMetrics.trades m = length (with_key name trades)
          /\ (0 < GroupMetrics.trades m)%nat).
Proof.
  destruct (group_by_field_total trades field) as [result Hres].
  exists result. split; [exact Hres |].
  unfold StrategyEvaluator._group_by_field in Hres. cbv zeta in Hres.
  destruct (collect_invariant trades) as [Hnd [Hmem Hcov]].
  assert (Hnames : List.map fst result = List.map fst (collect trades)).
  { refine (map_result_fst _ _ _ _ _ _ Hres).
    intros [n ms] y Hy. cbn in Hy.
    destruct (StrategyEvaluator.group_metrics ms); cbn in Hy; [| discriminate].
    injection Hy as <-. reflexivity. }
  rewrite Hnames. split; [exact Hnd |]. split; [exact Hcov |].
  intros name m Hin.
  destruct (map_result_In _ _ _ Hres _ Hin) as [[n ms] [Hg Hm]]. cbn in Hm.
  destruct (StrategyEvaluator.group_metrics ms) as [m' | e] eqn:Em;
    [| discriminate].
  cbn in Hm. injection Hm as <- <-.
  destruct (Hmem _ _ Hg) as [Hms Hne]. rewrite <- Hms.
  split; [exact Em |].
  assert (Htrades : GroupMetrics.trades m' = length ms).
  { unfold StrategyEvaluator.group_metrics in Em. cbv zeta in Em.
    repeat match type of Em with
           | rbind ?r _ = _ => destruct r; cbn [rbind] in Em; [| discriminate]
           end.
    injection Em as <-. reflexivity. }
  split; [exact Htrades |]. rewrite Htrades.
  destruct ms; [congruence | cbn; lia].
Qed.

End GroupByField.

(** ** Strategy suggestions *)

Lemma min_from_In {A : Type} (key : A -> Q) (items : list A) (best : A) :
  List.In (StrategyEvaluator.min_from key best items) (best :: items).
Proof.
  revert best.
  induction items as [| x rest IH]; intros best;
    cbn [StrategyEvaluator.min_from].
  - now left.
  - destruct (IH (if Qltb (key x) (key best) then x else best)) as [H | H].
    + destruct (Qltb (key x) (key best)); rewrite <- H; [right | ]; now left.
    + right. now right.
Qed.

Lemma min_from_le {A : Type} (key : A -> Q) (items : list A) (best : A) :
  forall x, List.In x (best :: items) ->
  key (StrategyEvaluator.min_from key best items) <= key x.
Proof.
  revert best.
  induction items as [| y rest IH]; intros best x Hin;
    cbn [StrategyEvaluator.min_from].
  - destruct Hin as [<- | []]. lra.
  - assert (Hnew : key (if Qltb (key y) (key best) then y else best) <= key y
                   /\ key (if Qltb (key y) (key best) then y else best) <= key best).
    { destruct (Qltb (key y) (key best)) eqn:E.
      - apply Qltb_true in E. lra.
      - apply Qltb_false in E. lra. }
    destruct Hnew as [Hy Hbest].
    pose proof (IH (if Qltb (key y) (key best) then y else best) _
                   (or_introl eq_refl)) as Hmin.
    destruct Hin as [<- | [<- | Hin]]; [lra | lra |].
    apply IH. now right.
Qed.


Lemma length_append_if {A : Type} (c : bool) (xs l : list A) :
  (length l <= length (append_if c xs l) <= length l + length xs)%nat.
Proof.
  unfold append_if. destruct c; [rewrite length_app |]; lia.
Qed.

Ltac peel H :=
  match type of H with
  | List.In _ (append_if _ _ _) =>
    apply In_append_if_inv in H; destruct H as [H | [_ H]]
  | List.In _ (if ?c then _ else _) => destruct c
  | List.In _ (_ ++ _)%list => apply List.in_app_or in H; destruct H as [H | H]
  | List.In _ (_ :: _) => destruct H as [H | H]
  | List.In _ [] => destruct H
  | _ = _ => discriminate H
  end.

(** X21. The suggestions for a strategy are never empty and never more
    than six. *)
Theorem strategy_suggestions_between_one_and_six (performance : StrategyPerformance.t) :
  (1 <= length (StrategyEvaluator.get_strategy_suggestions performance) <= 6)%nat.
Proof.
  unfold StrategyEvaluator.get_strategy_suggestions. cbv zeta.
  destruct (_ <? 10)%nat; [cbn; lia |].
  set (clv := StrategyPerformance.avg_clv performance).
  set (low := Qltb (StrategyPerformance.win_rate performance) (3 # 10) && Qgtb clv 0).
  set (high := Qgtb (StrategyPerformance.win_rate performance) (7 # 10) && Qltb clv 0).
  assert (Hex : low && high = false).
  { subst low high. destruct (Qgtb clv 0) eqn:Hpos; [| now rewrite andb_false_r].
    destruct (Qltb clv 0) eqn:Hneg; [| now rewrite !andb_false_r].
    apply Qgtb_true in Hpos. apply Qltb_true in Hneg. lra. }
  clearbody low high.
  destruct (StrategyPerformance.by_category performance) as [| first rest];
    unfold append_if;
    repeat match goal with
           | |- context [if ?c then _ else _] =>
             match type of c with bool => destruct c end
           end;
    cbn in Hex; try discriminate Hex; cbn; lia.
Qed.

(** X22. A strategy with fewer than ten resolved trades in the period gets
    exactly one suggestion from its evaluation, the request for more data
    carrying the number of resolved trades. *)
Theorem few_resolved_trades_need_more_data (sqrt : Q -> Q) (trades : list Trade.t)
    (utcnow : datetime) (strategy_name period : string)
    (start_date end_date : option datetime) :
  (length (resolved_in_window trades utcnow strategy_name period
             start_date end_date) < 10)%nat ->
  exists perf : StrategyPerformance.t,
    StrategyEvaluator.evaluate_strategy sqrt trades utcnow strategy_name period
      start_date end_date = Ok perf /\
    StrategyEvaluator.get_strategy_suggestions perf
    = [[Lit "Only ";
        Int (Z.of_nat (length (resolved_in_window trades utcnow strategy_name
                                 period start_date end_date)));
        Lit " resolved trades - need more data for reliable analysis"]].
Proof.
  intros Hfew.
  destruct (evaluate_strategy_fields sqrt trades utcnow strategy_name period
              start_date end_date) as (perf & Heval & _ & _ & Hres & _).
  exists perf. split; [exact Heval |].
  change (List.filter StrategyEvaluator.is_resolved
            (trades_in_window trades utcnow strategy_name period
               start_date end_date))
    with (resolved_in_window trades utcnow strategy_name period
            start_date end_date) in Hres.
  unfold StrategyEvaluator.get_strategy_suggestions. cbv zeta.
  rewrite Hres.
  destruct (Nat.ltb_spec
              (length (resolved_in_window trades utcnow strategy_name period
                         start_date end_date)) 10); [reflexivity | lia].
Qed.

(** Three resolved trades of the strategy, created at times 1, 2 and 3,
    evaluated over the window from 0 to 100. *)
Lemma few_resolved_trades_need_more_data_witness :
  length (resolved_in_window SharpeScenario.trades 100%Z "test-strategy"
            "all_time" (Some 0%Z) (Some 100%Z)) = 3%nat /\
  exists perf : StrategyPerformance.t,
    StrategyEvaluator.evaluate_strategy decimal_sqrt SharpeScenario.trades 100%Z
      "test-strategy" "all_time" (Some 0%Z) (Some 100%Z) = Ok perf /\
    StrategyEvaluator.get_strategy_suggestions perf
    = [[Lit "Only "; Int 3;
        Lit " resolved trades - need more data for reliable analysis"]].
Proof.
  split; [reflexivity |].
  apply (few_resolved_trades_need_more_data decimal_sqrt SharpeScenario.trades
           100%Z "test-strategy" "all_time" (Some 0%Z) (Some 100%Z)).
  vm_compute. lia.
Defined.

(** X23. A category is named as underperforming only if it is a category
    of the evaluation with a non-empty name whose ROI is below -20 and no
    greater than the ROI of any other category. *)
Theorem flagged_category_is_worst (performance : StrategyPerformance.t)
    (category : string) (roi : Q) :
  List.In [Lit "Underperforming in "; Str category; Lit " ("; Fixed 0 roi;
           Lit "% ROI) - consider avoiding this category"]
          (StrategyEvaluator.get_strategy_suggestions performance) ->
  category <> EmptyString /\ roi < -20 /\
  exists m : GroupMetrics.t,
    List.In (category, m) (StrategyPerformance.by_category performance) /\
    GroupMetrics.roi m = roi /\
    forall (other : string) (m' : GroupMetrics.t),
      List.In (other, m') (StrategyPerformance.by_category performance) ->
      roi <= GroupMetrics.roi m'.
Proof.
  unfold StrategyEvaluator.get_strategy_suggestions. cbv zeta.
  destruct (_ <? 10)%nat; [intros H; repeat peel H |].
  match goal with
  | |- List.In _ (match ?S with [] => _ | _ :: _ => _ end) -> _ =>
    set (suggestions := S);
    intros H;
    assert (Hin : List.In [Lit "Underperforming in "; Str category; Lit " (";
                           Fixed 0 roi;
                           Lit "% ROI) - consider avoiding this category"]
                          suggestions)
      by (destruct suggestions; [repeat peel H | exact H]);
    clear H; subst suggestions
  end.
  destruct (StrategyPerformance.by_category performance) as [| first rest] eqn:Ecat;
    [repeat peel Hin |].
  apply In_append_if_inv in Hin. destruct Hin as [Hin | [Hc Hin]];
    [repeat peel Hin |].
  destruct Hin as [Heq | []]. injection Heq as <- <-.
  apply andb_true_iff in Hc. destruct Hc as [Hname Hroi].
  apply negb_true_iff, String.eqb_neq in Hname. apply Qltb_true in Hroi.
  split; [exact Hname |]. split; [exact Hroi |].
  set (worst := StrategyEvaluator.min_from
                  (fun x => GroupMetrics.roi (snd x)) first rest) in *.
  exists (snd worst). split; [| split; [reflexivity |]].
  - rewrite <- surjective_pairing. apply min_from_In.
  - intros other m' Hother.
    apply (min_from_le (fun x => GroupMetrics.roi (snd x)) rest first (other, m')).
    exact Hother.
Qed.

Lemma flagged_category_is_worst_witness :
  "weather" <> EmptyString /\ -16 / 40 * 100 < -20 /\
  exists m : GroupMetrics.t,
    List.In ("weather", m)
            (StrategyPerformance.by_category SuggestionScenario.performance) /\
    GroupMetrics.roi m = -16 / 40 * 100 /\
    forall (other : string) (m' : GroupMetrics.t),
      List.In (other, m')
              (StrategyPerformance.by_category SuggestionScenario.performance) ->
      -16 / 40 * 100 <= GroupMetrics.roi m'.
Proof.
  apply (flagged_category_is_worst SuggestionScenario.performance "weather"
           (-16 / 40 * 100)).
  left. reflexivity.
Defined.

(** ** Calibration *)

Lemma Qle_bool_false (x y : Q) : Qle_bool x y = false -> y < x.
Proof. intros H. apply (Qgtb_true x y). unfold Qgtb. now rewrite H. Qed.

Lemma Qlen_cons {A : Type} (x : A) (l : list A) : Qlen (x :: l) == 1 + Qlen l.
Proof.
  unfold Qlen. cbn [length]. rewrite Nat2Z.inj_succ, <- Z.add_1_l, inject_Z_plus.
  reflexivity.
Qed.

Lemma Qlen_nonneg {A : Type} (l : list A) : 0 <= Qlen l.
Proof. unfold Qlen, Qle, inject_Z. cbn [Qnum Qden]. lia. Qed.

Lemma Qlen_filter {A : Type} (p : A -> bool) (l : list A) :
  Qlen (List.filter p l) <= Qlen l.
Proof.
  pose proof (List.filter_length_le p l).
  unfold Qlen, Qle, inject_Z. cbn [Qnum Qden]. lia.
Qed.

Lemma pysum_bounds (a b : Q) (data : list Q) :
  List.Forall (fun x => a <= x /\ x < b) data ->
  a * Qlen data <= pysum data /\
  (data <> [] -> pysum data < b * Qlen data).
Proof.
  induction 1 as [| x l [Hlo Hhi] _ [IHlo IHhi]].
  - split; [| congruence]. change (a * 0 <= 0). lra.
  - pose proof (pysum_cons x l) as Hsum. pose proof (Qlen_cons x l) as Hlen.
    split.
    + rewrite Hsum, Hlen. lra.
    + intros _. rewrite Hsum, Hlen. destruct l as [| y l'].
      * change (pysum []) with 0. change (Qlen (@nil Q)) with 0. lra.
      * specialize (IHhi ltac:(discriminate)). lra.
Qed.

Lemma mean_in_range (a b : Q) (x : Q) (l : list Q) :
  List.Forall (fun y => a <= y /\ y < b) (x :: l) ->
  a <= pysum (x :: l) / Qlen (x :: l) /\ pysum (x :: l) / Qlen (x :: l) < b.
Proof.
  intros Hall. destruct (pysum_bounds a b _ Hall) as [Hlo Hhi].
  specialize (Hhi ltac:(discriminate)).
  assert (Hpos : 0 < Qlen (x :: l)).
  { pose proof (Qlen_cons x l). pose proof (Qlen_nonneg l). lra. }
  split.
  - apply Qle_shift_div_l; assumption.
  - apply Qlt_shift_div_r; assumption.
Qed.

Lemma win_rate_in_range {A : Type} (p : A -> bool) (x : A) (l : list A) :
  0 <= Qlen (List.filter p (x :: l)) / Qlen (x :: l) /\
  Qlen (List.filter p (x :: l)) / Qlen (x :: l) <= 1.
Proof.
  assert (Hpos : 0 < Qlen (x :: l)).
  { pose proof (Qlen_cons x l). pose proof (Qlen_nonneg l). lra. }
  pose proof (Qlen_nonneg (List.filter p (x :: l))) as Hnonneg.
  pose proof (Qlen_filter p (x :: l)) as Hle.
  split.
  - apply Qle_shift_div_l; [exact Hpos | lra].
  - apply Qle_shift_div_r; [exact Hpos | lra].
Qed.

Section Calibration.

Import ParameterTuner.

Variable resolved : list Trade.t.

Local Abbreviation well_formed_point := (well_formed_point resolved).

Lemma calibration_loop_spec (bs : list (Q * Q)) :
  forall acc : list CalibrationPoint.t,
    List.Forall well_formed_point acc ->
    exists points,
      calibration_loop resolved bs acc = Ok points
      /\ List.Forall well_formed_point points
      /\ (length points <= length acc + length bs)%nat
      /\ list_sum (List.map CalibrationPoint.total_trades points)
         = (list_sum (List.map CalibrationPoint.total_trades acc)
            + list_sum (List.map (fun b => length (List.filter (in_bucket b) resolved))
                                 bs))%nat.
Proof.
  induction bs as [| [bucket_start bucket_end] rest IH]; intros acc Hacc.
  - exists acc. cbn. repeat split; [exact Hacc | lia | lia].
  - cbn [calibration_loop fst snd]. cbv zeta.
    destruct (List.filter (in_bucket (bucket_start, bucket_end)) resolved)
      as [| t l] eqn:Ebucket.
    + destruct (IH acc Hacc) as (points & Hrun & Hall & Hlen & Hsum).
      exists points. repeat split; [exact Hrun | exact Hall | cbn; lia |].
      rewrite Hsum. cbn [List.map]. rewrite Ebucket.
      unfold list_sum. cbn [fold_right length]. lia.
    + cbn [statistics.mean List.map rbind].
      rewrite (pydiv_ok _ _ (Qlen_nonzero t l)). cbn [rbind].
      match goal with
      | |- context [calibration_loop resolved rest (acc ++ [?p])%list] =>
        set (point := p)
      end.
      assert (Hpoint : well_formed_point point).
      { assert (Hprices : List.Forall
                            (fun y => bucket_start <= y /\ y < bucket_end)
                            (List.map Trade.entry_price (t :: l))).
        { apply List.Forall_map. rewrite <- Ebucket.
          apply List.Forall_forall. intros t' Ht'.
          apply List.filter_In in Ht'. destruct Ht' as [_ Ht'].
          unfold in_bucket in Ht'. cbn [fst snd] in Ht'.
          apply andb_true_iff in Ht'. destruct Ht' as [Hlo Hhi].
          apply Qle_bool_iff in Hlo. apply Qltb_true in Hhi. split; assumption. }
        destruct (mean_in_range _ _ _ _ Hprices) as [Havg_lo Havg_hi].
        destruct (win_rate_in_range (StrategyEvaluator.has_status RESOLVED_WIN) t l)
          as [Hrate_lo Hrate_hi].
        unfold well_formed_point. subst point.
        cbn [CalibrationPoint.total_trades CalibrationPoint.resolved_trades
             CalibrationPoint.bucket_start CalibrationPoint.bucket_end
             CalibrationPoint.avg_entry_price CalibrationPoint.actual_win_rate
             CalibrationPoint.calibration_error CalibrationPoint.is_overpriced
             CalibrationPoint.is_underpriced].
        cbv zeta. rewrite Ebucket.
        repeat split; try assumption; try reflexivity; [cbn; lia |].
        match goal with
        | |- Qltb ?e _ && Qgtb ?e _ = false =>
          destruct (Qltb e (- (5 # 100))) eqn:Hover; [| reflexivity];
          destruct (Qgtb e (5 # 100)) eqn:Hunder; [| reflexivity];
          apply Qltb_true in Hover; apply Qgtb_true in Hunder; lra
        end. }
      assert (Hacc' : List.Forall well_formed_point (acc ++ [point])%list).
      { apply List.Forall_app. split; [exact Hacc |]. now constructor. }
      destruct (IH _ Hacc') as (points & Hrun & Hall & Hlen & Hsum).
      exists points. repeat split; [exact Hrun | exact Hall | |].
      * rewrite length_app in Hlen. cbn in Hlen |- *. lia.
      * rewrite Hsum, List.map_app, list_sum_app. cbn [List.map].
        rewrite Ebucket. subst point.
        unfold list_sum. cbn [fold_right CalibrationPoint.total_trades]. lia.
Qed.

End Calibration.

Lemma list_sum_map_add {A : Type} (g h : A -> nat) (l : list A) :
  list_sum (List.map (fun x => g x + h x)%nat l)
  = (list_sum (List.map g l) + list_sum (List.map h l))%nat.
Proof.
  induction l as [| x l IH]; [reflexivity |].
  cbn [List.map]. unfold list_sum in *. cbn [fold_right]. lia.
Qed.

Ltac case_le c p :=
  let E := fresh "E" in
  destruct (Qle_bool c p) eqn:E;
  [apply Qle_bool_iff in E | apply Qle_bool_false in E];
  try (exfalso; lra).

(** A price from 0 up to, but not including, 1 lies in exactly one of the
    ten buckets. *)
Lemma one_bucket_per_price (t : Trade.t) :
  0 <= Trade.entry_price t -> Trade.entry_price t < 1 ->
  list_sum (List.map (fun b => if ParameterTuner.in_bucket b t then 1 else 0)%nat
                     ParameterTuner.buckets) = 1%nat.
Proof.
  intros Hlo Hhi.
  unfold ParameterTuner.buckets, ParameterTuner.in_bucket, Qltb.
  cbn [List.map fst snd].
  set (p := Trade.entry_price t) in *.
  assert (H0 : Qle_bool 0 p = true) by (apply Qle_bool_iff; exact Hlo).
  assert (H10 : Qle_bool 1 p = false).
  { destruct (Qle_bool 1 p) eqn:E; [| reflexivity].
    apply Qle_bool_iff in E. lra. }
  rewrite H0, H10.
  case_le (1 # 10) p.
  all: case_le (2 # 10) p.
  all: case_le (3 # 10) p.
  all: case_le (4 # 10) p.
  all: case_le (5 # 10) p.
  all: case_le (6 # 10) p.
  all: case_le (7 # 10) p.
  all: case_le (8 # 10) p.
  all: case_le (9 # 10) p.
  all: reflexivity.
Qed.

Lemma buckets_cover (l : list Trade.t) :
  List.Forall (fun t => 0 <= Trade.entry_price t /\ Trade.entry_price t < 1) l ->
  list_sum (List.map (fun b => length (List.filter (ParameterTuner.in_bucket b) l))
                     ParameterTuner.buckets) = length l.
Proof.
  induction 1 as [| t l [Hlo Hhi] _ IH]; [reflexivity |].
  rewrite (List.map_ext
             (fun b => length (List.filter (ParameterTuner.in_bucket b) (t :: l)))
             (fun b => (if ParameterTuner.in_bucket b t then 1 else 0)
                       + length (List.filter (ParameterTuner.in_bucket b) l))%nat).
  - rewrite list_sum_map_add, IH, (one_bucket_per_price t Hlo Hhi). reflexivity.
  - intros b. cbn [List.filter]. now destruct (ParameterTuner.in_bucket b t).
Qed.

(** X24. The calibration curve is always computed, without an error; it
    has at most ten points, and in each point the counts are those of a
    non-empty bucket of resolved trades, the average entry price lies
    inside the bucket, the win rate lies between 0 and 1, the error is
    their difference and the point is not both overpriced and
    underpriced. *)
Theorem calibration_points_well_formed (self_trades : list Trade.t)
    (trades : option (list Trade.t)) :
  exists points : list CalibrationPoint.t,
    ParameterTuner.calculate_calibration self_trades trades = Ok points
    /\ (length points <= 10)%nat
    /\ List.Forall
         (well_formed_point
            (List.filter StrategyEvaluator.is_resolved
               (ParameterTuner.trades_or_own self_trades trades)))
         points.
Proof.
  unfold ParameterTuner.calculate_calibration. cbv zeta.
  destruct (calibration_loop_spec
              (List.filter StrategyEvaluator.is_resolved
                 (ParameterTuner.trades_or_own self_trades trades))
              ParameterTuner.buckets [] (List.Forall_nil _))
    as (points & Hrun & Hall & Hlen & _).
  exists points. split; [exact Hrun |]. split; [exact Hlen | exact Hall].
Qed.

(** X25. When every entry price lies from 0 up to, but not including, 1,
    as validated trades' prices do, the points of the calibration curve
    together count every resolved trade exactly once. *)
Theorem calibration_counts_every_resolved_trade (self_trades : list Trade.t)
    (trades : option (list Trade.t)) :
  List.Forall (fun t => 0 <= Trade.entry_price t /\ Trade.entry_price t < 1)
              (ParameterTuner.trades_or_own self_trades trades) ->
  exists points : list CalibrationPoint.t,
    ParameterTuner.calculate_calibration self_trades trades = Ok points
    /\ list_sum (List.map CalibrationPoint.total_trades points)
       = length (List.filter StrategyEvaluator.is_resolved
                   (ParameterTuner.trades_or_own self_trades trades)).
Proof.
  intros Hprices.
  unfold ParameterTuner.calculate_calibration. cbv zeta.
  set (resolved := List.filter StrategyEvaluator.is_resolved
                     (ParameterTuner.trades_or_own self_trades trades)).
  destruct (calibration_loop_spec resolved ParameterTuner.buckets []
              (List.Forall_nil _)) as (points & Hrun & _ & _ & Hsum).
  exists points. split; [exact Hrun |].
  rewrite Hsum. cbn [List.map list_sum]. cbn [Nat.add].
  apply buckets_cover.
  apply List.Forall_forall. intros t Ht.
  apply List.filter_In in Ht. destruct Ht as [Ht _].
  revert t Ht. apply List.Forall_forall. exact Hprices.
Qed.

Lemma calibration_counts_every_resolved_trade_witness :
  exists points : list CalibrationPoint.t,
    ParameterTuner.calculate_calibration CalibrationScenario.trades (Some [])
    = Ok points
    /\ list_sum (List.map CalibrationPoint.total_trades points)
       = length (List.filter StrategyEvaluator.is_resolved
                   (ParameterTuner.trades_or_own CalibrationScenario.trades
                      (Some []))).
Proof.
  apply (calibration_counts_every_resolved_trade CalibrationScenario.trades
           (Some [])).
  repeat constructor; vm_compute; discriminate.
Defined.

(** ** Breakdowns add up *)

Lemma group_metrics_fields (ms : list Trade.t) (m : GroupMetrics.t) :
  StrategyEvaluator.group_metrics ms = Ok m ->
  GroupMetrics.trades m = length ms
  /\ GroupMetrics.wins m
     = length (List.filter (StrategyEvaluator.has_status RESOLVED_WIN) ms)
  /\ GroupMetrics.pnl m = pysum (List.map StrategyEvaluator.pnl_or_0 ms).
Proof.
  unfold StrategyEvaluator.group_metrics. cbv zeta. intros Em.
  repeat match type of Em with
         | rbind ?r _ = _ => destruct r; cbn [rbind] in Em; [| discriminate]
         end.
  injection Em as <-. repeat split.
Qed.

Section GroupTotals.

Variable field : group_field.

Local Abbreviation collect trades :=
  (fold_left (fun groups trade =>
                StrategyEvaluator.group_append
                  (StrategyEvaluator.group_key field trade) trade groups)
             trades []).

Lemma group_append_count (f : list Trade.t -> nat) (w : Trade.t -> nat)
    (v : string) (t : Trade.t) (groups : list (string * list Trade.t)) :
  f [] = 0%nat -> (forall l x, f (l ++ [x])%list = (f l + w x)%nat) ->
  list_sum (List.map (fun g => f (snd g)) (StrategyEvaluator.group_append v t groups))
  = (list_sum (List.map (fun g => f (snd g)) groups) + w t)%nat.
Proof.
  intros Hnil Hsnoc.
  induction groups as [| [name members] rest IH];
    cbn [StrategyEvaluator.group_append].
  - cbn [List.map snd]. change [t] with ([] ++ [t])%list.
    rewrite (Hsnoc [] t), Hnil. unfold list_sum. cbn. lia.
  - destruct (String.eqb name v); cbn [List.map snd].
    + rewrite Hsnoc. unfold list_sum. cbn [fold_right]. lia.
    + unfold list_sum in *. cbn [fold_right]. rewrite IH. lia.
Qed.

Lemma collect_count (f : list Trade.t -> nat) (w : Trade.t -> nat)
    (trades : list Trade.t) :
  f [] = 0%nat -> (forall l x, f (l ++ [x])%list = (f l + w x)%nat) ->
  list_sum (List.map (fun g => f (snd g)) (collect trades)) = f trades.
Proof.
  intros Hnil Hsnoc. induction trades as [| t l IH] using rev_ind.
  - cbn. symmetry. exact Hnil.
  - rewrite fold_left_app. cbn [fold_left].
    rewrite (group_append_count f w _ _ _ Hnil Hsnoc), IH, Hsnoc. reflexivity.
Qed.

Lemma group_append_amount (f : Trade.t -> Q) (v : string) (t : Trade.t)
    (groups : list (string * list Trade.t)) :
  pysum (List.map (fun g => pysum (List.map f (snd g)))
                  (StrategyEvaluator.group_append v t groups))
  == pysum (List.map (fun g => pysum (List.map f (snd g))) groups) + f t.
Proof.
  induction groups as [| [name members] rest IH];
    cbn [StrategyEvaluator.group_append].
  - cbn [List.map snd]. rewrite !pysum_cons. change (pysum []) with 0. ring.
  - destruct (String.eqb name v); cbn [List.map snd].
    + rewrite !pysum_cons, List.map_app. cbn [List.map]. rewrite pysum_snoc. ring.
    + rewrite !pysum_cons, IH. ring.
Qed.

Lemma collect_amount (f : Trade.t -> Q) (trades : list Trade.t) :
  pysum (List.map (fun g => pysum (List.map f (snd g))) (collect trades))
  == pysum (List.map f trades).
Proof.
  induction trades as [| t l IH] using rev_ind.
  - reflexivity.
  - rewrite fold_left_app. cbn [fold_left].
    rewrite group_append_amount, IH, List.map_app. cbn [List.map].
    rewrite pysum_snoc. reflexivity.
Qed.

Lemma group_by_field_sums (trades : list Trade.t) :
  exists result,
    StrategyEvaluator._group_by_field trades field = Ok result
    /\ list_sum (List.map (fun g => GroupMetrics.trades (snd g)) result)
       = length trades
    /\ list_sum (List.map (fun g => GroupMetrics.wins (snd g)) result)
       = length (List.filter (StrategyEvaluator.has_status RESOLVED_WIN) trades)
    /\ pysum (List.map (fun g => GroupMetrics.pnl (snd g)) result)
       == pysum (List.map StrategyEvaluator.pnl_or_0 trades).
Proof.
  destruct (group_by_field_total trades field) as [result Hres].
  exists result. split; [exact Hres |].
  unfold StrategyEvaluator._group_by_field in Hres. cbv zeta in Hres.
  assert (Hfields : forall (g : string * list Trade.t) (r : string * GroupMetrics.t),
            (m <-? StrategyEvaluator.group_metrics (snd g) ; Ok (fst g, m)) = Ok r ->
            StrategyEvaluator.group_metrics (snd g) = Ok (snd r)).
  { intros [n ms] r Hr. cbn [fst snd] in *.
    destruct (StrategyEvaluator.group_metrics ms); cbn [rbind] in Hr;
      [| discriminate].
    injection Hr as <-. reflexivity. }
  split; [| split].
  - rewrite (map_result_fst _ (fun g => length (snd g))
               (fun r => GroupMetrics.trades (snd r)) _ _
               (fun g r Hr => proj1 (group_metrics_fields _ _ (Hfields g r Hr)))
               Hres).
    apply (collect_count (@length Trade.t) (fun _ => 1%nat)); [reflexivity |].
    intros l x. now rewrite length_app.
  - rewrite (map_result_fst _
               (fun g => length (List.filter
                                   (StrategyEvaluator.has_status RESOLVED_WIN) (snd g)))
               (fun r => GroupMetrics.wins (snd r)) _ _
               (fun g r Hr =>
                  proj1 (proj2 (group_metrics_fields _ _ (Hfields g r Hr))))
               Hres).
    apply (collect_count
             (fun l => length (List.filter
                                 (StrategyEvaluator.has_status RESOLVED_WIN) l))
             (fun t => if StrategyEvaluator.has_status RESOLVED_WIN t
                       then 1%nat else 0%nat)); [reflexivity |].
    intros l x. rewrite List.filter_app, length_app. cbn [List.filter].
    now destruct (StrategyEvaluator.has_status RESOLVED_WIN x).
  - rewrite (map_result_fst _
               (fun g => pysum (List.map StrategyEvaluator.pnl_or_0 (snd g)))
               (fun r => GroupMetrics.pnl (snd r)) _ _
               (fun g r Hr =>
                  proj2 (proj2 (group_metrics_fields _ _ (Hfields g r Hr))))
               Hres).
    apply collect_amount.
Qed.

(** X26. The groups of a breakdown add up to the whole: their trade
    counts sum to the number of trades grouped, their wins to the number
    of winning trades and their PnL to the total PnL. *)
Theorem group_by_field_adds_up (trades : list Trade.t) :
  exists result,
    StrategyEvaluator._group_by_field trades field = Ok result
    /\ list_sum (List.map (fun g => GroupMetrics.trades (snd g)) result)
       = length trades
    /\ list_sum (List.map (fun g => GroupMetrics.wins (snd g)) result)
       = length (List.filter (StrategyEvaluator.has_status RESOLVED_WIN) trades)
    /\ pysum (List.map (fun g => GroupMetrics.pnl (snd g)) result)
       == pysum (List.map StrategyEvaluator.pnl_or_0 trades).
Proof. exact (group_by_field_sums trades). Qed.

End GroupTotals.

Section EvaluateBreakdowns.

Variable sqrt : Q -> Q.
Variable trades : list Trade.t.
Variable utcnow : datetime.
Variables strategy_name period : string.
Variables start_date end_date : option datetime.

Local Abbreviation adds_up perf breakdown :=
  (list_sum (List.map (fun g => GroupMetrics.trades (snd g)) breakdown)
   = StrategyPerformance.resolved_trades perf
   /\ list_sum (List.map (fun g => GroupMetrics.wins (snd g)) breakdown)
      = StrategyPerformance.wins perf
   /\ pysum (List.map (fun g => GroupMetrics.pnl (snd g)) breakdown)
      == StrategyPerformance.total_pnl perf).

(** The breakdowns of an evaluation are the groupings of its resolved
    trades, from which its totals are computed as well. *)
Lemma evaluate_strategy_groupings :
  exists perf : StrategyPerformance.t,
    StrategyEvaluator.evaluate_strategy sqrt trades utcnow strategy_name period
      start_date end_date = Ok perf /\
    ((StrategyPerformance.by_category perf = []
      /\ StrategyPerformance.by_platform perf = []
      /\ StrategyPerformance.resolved_trades perf = 0%nat
      /\ StrategyPerformance.wins perf = 0%nat
      /\ StrategyPerformance.total_pnl perf = 0)
     \/ exists res : list Trade.t,
          StrategyEvaluator._group_by_field res market_category
          = Ok (StrategyPerformance.by_category perf)
          /\ StrategyEvaluator._group_by_field res platform
             = Ok (StrategyPerformance.by_platform perf)
          /\ StrategyPerformance.resolved_trades perf = length res
          /\ StrategyPerformance.wins perf
             = length (List.filter (StrategyEvaluator.has_status RESOLVED_WIN) res)
          /\ StrategyPerformance.total_pnl perf
             = pysum (List.map StrategyEvaluator.pnl_or_0 res)).
Proof.
  unfold StrategyEvaluator.evaluate_strategy.
  set (window_end := match end_date with Some d => d | None => utcnow end).
  set (window_start := match start_date with
                       | Some d => d
                       | None => StrategyEvaluator._get_period_start period window_end
                       end).
  set (strategy_trades := List.filter _ trades).
  destruct strategy_trades as [| t0 l0] eqn:Est.
  - eexists. split; [reflexivity |]. left. cbn. repeat split.
  - rewrite <- Est. clear Est.
    set (res := List.filter StrategyEvaluator.is_resolved strategy_trades).
    destruct (guarded_mean_total (StrategyEvaluator.clv_values res)) as [avg_clv ->].
    simpl rbind.
    destruct (group_by_field_total res market_category) as [by_category Hcat].
    destruct (group_by_field_total res platform) as [by_platform Hplat].
    rewrite Hcat, Hplat. simpl rbind.
    assert (Hrate : exists r,
              match res with
              | [] => Ok 0
              | _ :: _ =>
                pydiv (Qlen (List.filter (StrategyEvaluator.has_status RESOLVED_WIN) res))
                      (Qlen res)
              end = Ok r).
    { destruct res as [| t l]; [eexists; reflexivity |].
      rewrite (pydiv_ok _ _ (Qlen_nonzero t l)). eexists; reflexivity. }
    destruct Hrate as (rate & ->). simpl rbind.
    destruct (guarded_roi_total
                (pysum (List.map StrategyEvaluator.pnl_or_0 res))
                (pysum (List.map Trade.amount strategy_trades))) as [roi ->].
    simpl rbind.
    assert (Hclv : exists r,
              match StrategyEvaluator.clv_values res with
              | [] => Ok 0
              | _ :: _ =>
                pydiv (Qlen (List.filter (fun c => Qgtb c 0)
                               (StrategyEvaluator.clv_values res)))
                      (Qlen (StrategyEvaluator.clv_values res))
              end = Ok r).
    { destruct (StrategyEvaluator.clv_values res) as [| c l];
        [eexists; reflexivity |].
      rewrite (pydiv_ok _ _ (Qlen_nonzero c l)). eexists; reflexivity. }
    destruct Hclv as [clv_rate ->]. simpl rbind.
    destruct (calculate_sharpe_total sqrt res) as [sharpe ->]. simpl rbind.
    eexists. split; [reflexivity |]. right. exists res. cbn.
    repeat split; assumption.
Qed.

(** X27. In every evaluation the category breakdown and the platform
    breakdown each add up to the evaluation's own totals: the groups'
    trade counts to resolved_trades, their wins to wins and their PnL to
    total_pnl. *)
Theorem evaluate_strategy_breakdowns_add_up :
  exists perf : StrategyPerformance.t,
    StrategyEvaluator.evaluate_strategy sqrt trades utcnow strategy_name period
      start_date end_date = Ok perf /\
    adds_up perf (StrategyPerformance.by_category perf) /\
    adds_up perf (StrategyPerformance.by_platform perf).
Proof.
  destruct evaluate_strategy_groupings as (perf & Heval & Hcases).
  exists perf. split; [exact Heval |].
  destruct Hcases as [(-> & -> & -> & -> & ->)
                     | (res & Hcat & Hplat & -> & -> & ->)].
  - cbn. repeat split; reflexivity.
  - destruct (group_by_field_sums market_category res)
      as (by_category & Hcat' & Hc1 & Hc2 & Hc3).
    destruct (group_by_field_sums platform res)
      as (by_platform & Hplat' & Hp1 & Hp2 & Hp3).
    rewrite Hcat in Hcat'. rewrite Hplat in Hplat'.
    injection Hcat' as <-. injection Hplat' as <-.
    repeat split; assumption.
Qed.

End EvaluateBreakdowns.
